(** * Interaction scoring core of the EBM native library (cran/interpret)

    A shallow embedding of
      - [EbmInternal.h]: the integer helpers ([IsNumberConvertable],
        [IsMultiplyError], [IsAddError], [GetVectorLength], [EbmMalloc], ...);
      - [CachedThreadResourcesInteraction.cpp]: the scratch arena;
      - [InteractionDetection.cpp]: construction and release of an
        interaction context;
      - the translation unit that defines [FindBestInteractionGainPairs]
        and the classes it dispatches to;
      - the translation unit that defines [CalculateInteractionScore] and
        [CalculateInteractionScoreInternal].

    Conventions.
      - [size_t] and [ptrdiff_t] are [size_t_bits] wide (32 or 64 on the
        hosts the library is built for); a [size_t] value is a [Z] in
        [0, 2^size_t_bits) and every unsigned operation that can wrap has
        its wrap-around written out with [wrap].  [IntEbmType] is a signed
        64-bit integer, carried as a [Z].
      - [FloatEbmType] is IEEE-754 binary64, carried as a [spec_float] with
        [prec = 53] and [emax = 1024]; arithmetic is the one of
        [SpecFloat] (round to nearest, ties to even).
      - A pointer to a block obtained from [malloc] is a [nat], [0] being
        [nullptr]; the heap records the live blocks, and whether a given
        [malloc] succeeds is decided by the host.  An array argument is an
        [option (list _)], [None] being [nullptr]; the cell behind
        [interactionScoreOut] is an [option FloatEbmType].
      - The library is built with [NDEBUG]: [EBM_ASSERT] and the [LOG_*]
        macros have no effect and are not modelled.
      - The cells of the scratch buffer are carried as a list of
        [HistogramBucket] handed from one stage to the next; the heap only
        records which blocks are live and how large they are.  The core
        writes every cell of the tensor it has sized into the block the
        arena hands it; when that block is smaller than the tensor the
        writes run past its end, which C++ leaves undefined.  The model
        records this in the flag [ir_overrun] (and [r_overrun]); the other
        fields of the result then say what the code goes on to compute,
        and describe an execution only as far as the stray writes do no
        harm. *)

From Stdlib Require Import ZArith Lia Bool List.
From Stdlib Require Import Floats.SpecFloat.
From stdpp Require Import base gmap list.

Local Open Scope Z_scope.

(** ** Floating point *)

Definition prec : Z := 53.
Definition emax : Z := 1024.

Definition FloatEbmType : Type := spec_float.

(** [FloatEbmType { 0 }] *)
Definition FloatZero : FloatEbmType := S754_zero false.

(** [std::numeric_limits<FloatEbmType>::max()] *)
Definition FloatMax : FloatEbmType := SFmax_float prec emax.

(** [std::isnan] *)
Definition isnan (x : FloatEbmType) : bool :=
  match x with
  | S754_nan => true
  | _ => false
  end.

(** [static_cast<FloatEbmType>(c)] for an unsigned integer [c]. *)
Definition FloatOfCount (c : Z) : FloatEbmType :=
  binary_normalize prec emax c 0 false.

(** ** The heap *)

Definition ptr : Type := nat.
Definition nullptr : ptr := 0%nat.

Inductive HeapEvent : Type :=
| EvMalloc (cBytes : Z) (p : ptr)
| EvFree (p : ptr).

(** [h_live] maps the address of every live block to its size in bytes,
    [h_next] is the next address [malloc] hands out, and [h_trace] lists
    the calls made so far, most recent first. *)
Record Heap : Type := mkHeap {
  h_live : gmap nat Z;
  h_next : nat;
  h_trace : list HeapEvent
}.

Definition emptyHeap : Heap :=
  {| h_live := ∅; h_next := 1%nat; h_trace := [] |}.

(** ** Data model *)

Inductive FeatureType : Type := Ordinal | Nominal.

(** [FeatureTypeOrdinal], [FeatureTypeNominal], [EBM_FALSE], [EBM_TRUE] of
    the public header. *)
Definition FeatureTypeOrdinal : Z := 0.
Definition FeatureTypeNominal : Z := 1.
Definition EBM_FALSE : Z := 0.
Definition EBM_TRUE : Z := 1.

(** Modelled from the spec: [EbmNativeFeature] is declared in the public
    header, which is not among the sources; the fields are those
    [EbmInteractionState::Allocate] reads, the wire format of a feature
    descriptor. *)
Record EbmNativeFeature : Type := {
  featureType : Z;
  hasMissing : Z;
  countBins : Z
}.

(** Modelled from the spec: [Feature] is declared in a header that is not
    among the sources; the fields are the four arguments of
    [Feature::Initialize(cBins, iFeatureData, featureType, bMissing)], the
    bin count being what [GetCountBins] returns. *)
Record Feature : Type := {
  m_cBins : Z;
  m_iFeatureData : Z;
  m_featureType : FeatureType;
  m_bMissing : bool
}.

(** The value an out-of-range read of a feature array yields in this
    model; the loops of [CalculateInteractionScore] only index below
    [m_cFeatures], and the sweep reads the two entries of a pair. *)
#[global] Instance Feature_inhabited : Inhabited Feature :=
  populate {| m_cBins := 0; m_iFeatureData := 0;
              m_featureType := Ordinal; m_bMissing := false |}.

(** Modelled from the spec: [FeatureGroup] is declared in a header that is
    not among the sources; an ordered tuple of features, set up by
    [Initialize(cFeatures, iFeatureGroup)] and by the assignments to
    [m_pFeature] of its entries. *)
Record FeatureGroup : Type := {
  fg_cFeatures : Z;
  fg_iInputData : Z;
  fg_entries : list Feature
}.

Definition GetCountFeatures (g : FeatureGroup) : Z := fg_cFeatures g.
Definition GetFeatureGroupEntries (g : FeatureGroup) : list Feature :=
  fg_entries g.

(** Modelled from the spec: one channel of a histogram cell
    ([HistogramBucketVectorEntry] is declared in a header that is not
    among the sources), a gradient sum, which the code reads as
    [m_sumResidualError], and a denominator sum. *)
Record HistogramBucketVectorEntry : Type := {
  sum_gradient : FloatEbmType;
  sum_denominator : FloatEbmType
}.

(** Modelled from the spec: a histogram cell, a sample count, which the
    code reads with [GetCountSamplesInBucket], and one entry per channel
    ([HistogramBucket] is declared in a header that is not among the
    sources). *)
Record HistogramBucket : Type := {
  sample_count : Z;
  grads : list HistogramBucketVectorEntry
}.

Definition ZeroEntry : HistogramBucketVectorEntry :=
  {| sum_gradient := FloatZero; sum_denominator := FloatZero |}.

(** [HistogramBucket::Zero(cVectorLength)] *)
Definition ZeroBucket (cVectorLength : Z) : HistogramBucket :=
  {| sample_count := 0;
     grads := repeat ZeroEntry (Z.to_nat cVectorLength) |}.

(** The array behind the [const void * targets] argument. *)
Inductive TargetArray : Type :=
| TargetClasses (a : list Z)
| TargetValues (a : list FloatEbmType).

(** Modelled from the spec: the data set of a context ([DataSetByFeature]
    is declared in a header that is not among the sources).  It holds the
    sample count, which [GetCountSamples] returns, and the arrays it keeps
    for the samples (their bin indexes and their residuals); [m_aArrays]
    lists the addresses of those arrays. *)
Record DataSetByFeature : Type := {
  m_cSamples : Z;
  m_aArrays : list ptr
}.

Definition GetCountSamples (d : DataSetByFeature) : Z := m_cSamples d.

Record EbmInteractionState : Type := {
  m_runtimeLearningTypeOrCountTargetClasses : Z;
  m_cFeatures : Z;
  m_aFeatures : list Feature;
  m_dataSet : DataSetByFeature
}.

(** The scratch arena of one worker. *)
Record CachedInteractionThreadResources : Type := {
  m_aThreadByteBuffer1 : ptr;
  m_cThreadByteBufferCapacity1 : Z
}.

(** What one scoring call did besides its heap traffic: the buffer it
    asked the arena for, the cells it zeroed, and the collaborators it
    ran. *)
Inductive Stage : Type :=
| StageRequest (cBytes : Z)
| StageZero (cBuckets : Z)
| StageBin
| StageTotals
| StageSweep.

(** ** The host

    Everything the translation units above take from elsewhere: the width
    of [size_t], the sizes of three structures, the allocator's verdict on
    a request, and the collaborators whose definitions live in other
    files ([GetHistogramBucketSize] and its overflow test,
    [DataSetByFeature::Initialize], [BinInteraction], [TensorTotalsBuild]
    and [TensorTotalsSum]).  [DataSetInitialize] is what
    [DataSetByFeature::Initialize] does on a given heap: whether it
    returns [true] (an error), the arrays the data set holds when it
    returns, and the heap it leaves. *)
Class Host : Type := {
  size_t_bits : Z;
  sizeof_Feature : Z;
  sizeof_EbmInteractionState : Z;
  sizeof_CachedInteractionThreadResources : Z;
  malloc_succeeds : Heap -> Z -> bool;
  GetHistogramBucketSizeOverflow : bool -> Z -> bool;
  GetHistogramBucketSize : bool -> Z -> Z;
  DataSetInitialize :
    Z -> list Feature -> Z -> option (list Z) -> option TargetArray ->
    option (list FloatEbmType) -> Z -> Heap -> bool * list ptr * Heap;
  BinInteraction :
    EbmInteractionState -> FeatureGroup -> list HistogramBucket ->
    list HistogramBucket;
  TensorTotalsBuild :
    Z -> FeatureGroup -> Z -> list HistogramBucket -> list HistogramBucket;
  TensorTotalsSum :
    Z -> FeatureGroup -> list HistogramBucket -> list Z -> Z ->
    HistogramBucket
}.

Section Engine.

Context {host : Host}.

(** ** Integers ([EbmInternal.h]) *)

Definition size_modulus : Z := 2 ^ size_t_bits.

(** [std::numeric_limits<size_t>::max()] *)
Definition size_max : Z := size_modulus - 1.

(** Unsigned arithmetic on [size_t] is arithmetic modulo [2^size_t_bits];
    [wrap] is also [static_cast<size_t>]. *)
Definition wrap (x : Z) : Z := x mod size_modulus.

Inductive IntType : Type := T_size_t | T_ptrdiff_t | T_IntEbmType.

Definition is_signed (t : IntType) : bool :=
  match t with
  | T_size_t => false
  | T_ptrdiff_t => true
  | T_IntEbmType => true
  end.

Definition type_lowest (t : IntType) : Z :=
  match t with
  | T_size_t => 0
  | T_ptrdiff_t => - 2 ^ (size_t_bits - 1)
  | T_IntEbmType => - 2 ^ 63
  end.

Definition type_max (t : IntType) : Z :=
  match t with
  | T_size_t => size_max
  | T_ptrdiff_t => 2 ^ (size_t_bits - 1) - 1
  | T_IntEbmType => 2 ^ 63 - 1
  end.

Definition IsNumberConvertable (TTo TFrom : IntType) (number : Z) : bool :=
  if is_signed TTo then
    if is_signed TFrom then
      (type_lowest TTo <=? number) && (number <=? type_max TTo)
    else number <=? type_max TTo
  else
    if is_signed TFrom then (0 <=? number) && (number <=? type_max TTo)
    else number <=? type_max TTo.

Definition k_regression : Z := -1.
Definition k_dynamicClassification : Z := 0.

Definition IsRegression (learningTypeOrCountTargetClasses : Z) : bool :=
  k_regression =? learningTypeOrCountTargetClasses.

Definition IsClassification (learningTypeOrCountTargetClasses : Z) : bool :=
  0 <=? learningTypeOrCountTargetClasses.

Definition GetVectorLength (learningTypeOrCountTargetClasses : Z) : Z :=
  if learningTypeOrCountTargetClasses <=? 2 then 1
  else wrap learningTypeOrCountTargetClasses.

(** [CountBitsRequired] recurses on [maxValue / 2]; [fuel] bounds the
    depth, and [size_t_bits + 1] levels are enough for any [size_t]. *)
Fixpoint CountBitsRequired (fuel : nat) (maxValue : Z) : Z :=
  match fuel with
  | O => 0
  | S fuel' =>
      if 0 =? maxValue then 0
      else wrap (1 + CountBitsRequired fuel' (maxValue / 2))
  end.

Definition k_cBitsForSizeT : Z :=
  CountBitsRequired (S (Z.to_nat size_t_bits)) size_max.

Definition k_cDimensionsMax : Z := k_cBitsForSizeT - 1.

Definition IsMultiplyError (num1 num2 : Z) : bool :=
  negb (0 =? num1) && (wrap (wrap (size_max - num1) + 1) / num1 <? num2).

Definition IsAddError (num1 num2 : Z) : bool :=
  wrap (num1 + num2) <? num1.

(** ** [malloc], [free] and [EbmMalloc] *)

Definition malloc (cBytes : Z) (h : Heap) : ptr * Heap :=
  if malloc_succeeds h cBytes then
    let p := h_next h in
    (p, {| h_live := <[p := cBytes]> (h_live h);
           h_next := S p;
           h_trace := EvMalloc cBytes p :: h_trace h |})
  else
    (nullptr, {| h_live := h_live h;
                 h_next := h_next h;
                 h_trace := EvMalloc cBytes nullptr :: h_trace h |}).

(** [free(nullptr)] does nothing. *)
Definition free (p : ptr) (h : Heap) : Heap :=
  {| h_live := if Nat.eqb p nullptr then h_live h else delete p (h_live h);
     h_next := h_next h;
     h_trace := EvFree p :: h_trace h |}.

(** [EbmMalloc<T>()] *)
Definition EbmMalloc_one (sizeof_T : Z) (h : Heap) : ptr * Heap :=
  malloc sizeof_T h.

(** [EbmMalloc<T>(cItems)]; [EbmMalloc<void>(cItems)] is the instance with
    [cBytesPerItem = 1]. *)
Definition EbmMalloc (cBytesPerItem cItems : Z) (h : Heap) : ptr * Heap :=
  if 1 =? cBytesPerItem then malloc cItems h
  else if IsMultiplyError cItems cBytesPerItem then (nullptr, h)
  else malloc (wrap (cItems * cBytesPerItem)) h.

(** ** The scratch arena ([CachedThreadResourcesInteraction.cpp]) *)

(** Modelled from the spec: [InitializeZero] is defined in the header of
    the arena, which is not among the sources; a new arena has no buffer
    and no capacity. *)
Definition InitializeZero : CachedInteractionThreadResources :=
  {| m_aThreadByteBuffer1 := nullptr; m_cThreadByteBufferCapacity1 := 0 |}.

(** [CachedInteractionThreadResources::Allocate]: the address of the new
    arena ([nullptr] when [malloc] fails) and its fields. *)
Definition CachedInteractionThreadResources_Allocate (h : Heap)
  : ptr * CachedInteractionThreadResources * Heap :=
  let '(pNew, h1) := EbmMalloc_one sizeof_CachedInteractionThreadResources h in
  (pNew, InitializeZero, h1).

(** [CachedInteractionThreadResources::Free] *)
Definition CachedInteractionThreadResources_Free
    (pCachedResources : ptr) (res : CachedInteractionThreadResources)
    (h : Heap) : Heap :=
  free pCachedResources (free (m_aThreadByteBuffer1 res) h).

(** [CachedInteractionThreadResources::GetThreadByteBuffer1]: the buffer
    handed to the caller, the arena's fields afterwards, and the heap. *)
Definition GetThreadByteBuffer1
    (res : CachedInteractionThreadResources) (cBytesRequired : Z) (h : Heap)
  : ptr * CachedInteractionThreadResources * Heap :=
  let aBuffer := m_aThreadByteBuffer1 res in
  if m_cThreadByteBufferCapacity1 res <? cBytesRequired then
    let cCapacity := wrap (Z.shiftl cBytesRequired 1) in
    let h1 := free aBuffer h in
    let '(aBufferNew, h2) := EbmMalloc 1 cCapacity h1 in
    (aBufferNew,
     {| m_aThreadByteBuffer1 := aBufferNew;
        m_cThreadByteBufferCapacity1 := cCapacity |},
     h2)
  else (aBuffer, res, h).

(** ** Sizing the tensor ([CalculateInteractionScoreInternal], the part
    before the buffer is requested) *)

Definition GetCountBins (f : Feature) : Z := m_cBins f.

(** The loop over the dimensions: [None] when [IsMultiplyError] fires,
    otherwise [cAuxillaryBucketsForBuildFastTotals] and
    [cTotalBucketsMainSpace] as the loop leaves them. *)
Fixpoint SizeTensor (entries : list Feature)
    (cAuxillaryBucketsForBuildFastTotals cTotalBucketsMainSpace : Z)
  : option (Z * Z) :=
  match entries with
  | [] => Some (cAuxillaryBucketsForBuildFastTotals, cTotalBucketsMainSpace)
  | e :: rest =>
      let cBins := GetCountBins e in
      let cAux :=
        wrap (cAuxillaryBucketsForBuildFastTotals + cTotalBucketsMainSpace) in
      if IsMultiplyError cTotalBucketsMainSpace cBins then None
      else SizeTensor rest cAux (wrap (cTotalBucketsMainSpace * cBins))
  end.

Record BufferSizes : Type := {
  cTotalBucketsMainSpace : Z;
  cAuxillaryBuckets : Z;
  cTotalBuckets : Z;
  cVectorLength : Z;
  cBytesPerHistogramBucket : Z;
  cBytesBuffer : Z
}.

(** Every size the scoring call derives from the group and the learning
    type; [None] on each of the four [return true] exits taken before
    [GetThreadByteBuffer1] is called. *)
Definition InteractionBufferSizes
    (runtimeLearningTypeOrCountTargetClasses : Z) (g : FeatureGroup)
  : option BufferSizes :=
  let bClassification :=
    IsClassification runtimeLearningTypeOrCountTargetClasses in
  let cDimensions := GetCountFeatures g in
  match SizeTensor
          (take (Z.to_nat cDimensions) (GetFeatureGroupEntries g)) 0 1 with
  | None => None
  | Some (cAuxFast, cMain) =>
      let cAuxillaryBucketsForSplitting := 4 in
      let cAux :=
        if cAuxFast <? cAuxillaryBucketsForSplitting
        then cAuxillaryBucketsForSplitting else cAuxFast in
      if IsAddError cMain cAux then None
      else
        let cTotal := wrap (cMain + cAux) in
        let cVector :=
          GetVectorLength runtimeLearningTypeOrCountTargetClasses in
        if GetHistogramBucketSizeOverflow bClassification cVector then None
        else
          let cBytesPer := GetHistogramBucketSize bClassification cVector in
          if IsMultiplyError cTotal cBytesPer then None
          else
            Some {| cTotalBucketsMainSpace := cMain;
                    cAuxillaryBuckets := cAux;
                    cTotalBuckets := cTotal;
                    cVectorLength := cVector;
                    cBytesPerHistogramBucket := cBytesPer;
                    cBytesBuffer := wrap (cTotal * cBytesPer) |}
  end.

(** ** The pair sweep ([FindBestInteractionGainPairs] and the classes it
    dispatches to) *)

(** [k_cCompilerOptimizedTargetClassesMax]: the package is built with
    [EBM_NATIVE_R] (see [Makevars]), which sets it to 2. *)
Definition k_cCompilerOptimizedTargetClassesMax : Z := 2.

(** The macro [GET_LEARNING_TYPE_OR_COUNT_TARGET_CLASSES] *)
Definition GET_LEARNING_TYPE_OR_COUNT_TARGET_CLASSES
    (compilerLearningTypeOrCountTargetClasses
     runtimeLearningTypeOrCountTargetClasses : Z) : Z :=
  if k_dynamicClassification =? compilerLearningTypeOrCountTargetClasses
  then runtimeLearningTypeOrCountTargetClasses
  else compilerLearningTypeOrCountTargetClasses.

(** [GetCountSamplesInBucket] *)
Definition GetCountSamplesInBucket (b : HistogramBucket) : Z :=
  sample_count b.

(** [GetHistogramBucketVectorEntry()[iVector].m_sumResidualError]; a cell
    has an entry for every [iVector] below the vector length. *)
Definition SumResidualError (b : HistogramBucket) (iVector : nat)
  : FloatEbmType :=
  sum_gradient (nth iVector (grads b) ZeroEntry).

(** Modelled from the spec: [EbmStatistics::ComputeNodeSplittingScore] is
    defined in [EbmStatisticUtils.h], which is not among the sources.  The
    gain of a node is its squared gradient sum over its sample count. *)
Definition ComputeNodeSplittingScore
    (sumResidualError cSamples : FloatEbmType) : FloatEbmType :=
  SFdiv prec emax (SFmul prec emax sumResidualError sumResidualError)
        cSamples.

(** A store into cell [iBucket] of the buffer
    ([GetHistogramBucketByIndex] designates a cell by its index). *)
Definition StoreBucket (a : list HistogramBucket) (iBucket : Z)
    (b : HistogramBucket) : list HistogramBucket :=
  <[Z.to_nat iBucket := b]> a.

(** The values the counter of a loop
    [i = 0; do { ...; ++i; } while(i < cBins - 1);] takes: the body runs
    once before the test is made, and [cBins - 1] is computed on
    [size_t]. *)
Definition BinsSwept (cBins : Z) : list Z :=
  map Z.of_nat (seq 0 (Z.to_nat (Z.max 1 (wrap (cBins - 1))))).

(** The score of a cut whose four totals pass the sample gate:
    [splittingScore] after the loop over the vector. *)
Definition SplittingScore (cVectorLength : Z)
    (totalsLowLow totalsLowHigh totalsHighLow totalsHighHigh
       : HistogramBucket)
  : FloatEbmType :=
  let cLowLowSamplesInBucket :=
    FloatOfCount (GetCountSamplesInBucket totalsLowLow) in
  let cLowHighSamplesInBucket :=
    FloatOfCount (GetCountSamplesInBucket totalsLowHigh) in
  let cHighLowSamplesInBucket :=
    FloatOfCount (GetCountSamplesInBucket totalsHighLow) in
  let cHighHighSamplesInBucket :=
    FloatOfCount (GetCountSamplesInBucket totalsHighHigh) in
  fold_left
    (fun splittingScore iVector =>
       let splittingScoreUpdate1 :=
         ComputeNodeSplittingScore
           (SumResidualError totalsLowLow iVector) cLowLowSamplesInBucket in
       let splittingScore1 :=
         SFadd prec emax splittingScore splittingScoreUpdate1 in
       let splittingScoreUpdate2 :=
         ComputeNodeSplittingScore
           (SumResidualError totalsLowHigh iVector)
           cLowHighSamplesInBucket in
       let splittingScore2 :=
         SFadd prec emax splittingScore1 splittingScoreUpdate2 in
       let splittingScoreUpdate3 :=
         ComputeNodeSplittingScore
           (SumResidualError totalsHighLow iVector)
           cHighLowSamplesInBucket in
       let splittingScore3 :=
         SFadd prec emax splittingScore2 splittingScoreUpdate3 in
       let splittingScoreUpdate4 :=
         ComputeNodeSplittingScore
           (SumResidualError totalsHighHigh iVector)
           cHighHighSamplesInBucket in
       SFadd prec emax splittingScore3 splittingScoreUpdate4)
    (seq 0 (Z.to_nat cVectorLength)) FloatZero.

(** The body of the inner loop of
    [FindBestInteractionGainPairsInternal::Func] at the cut
    [(iBin1, iBin2)]: from [bestSplittingScore] and the buffer before it
    to both after it.  [TensorTotalsSum] is given the buffer and writes
    its result to one of the four cells at [pAuxiliaryBucketZone]; the
    masks are [0x00], [0x02], [0x01] and [0x03], in this order, and a
    total with fewer than [cSamplesRequiredForChildSplitMin] samples ends
    the cut.  The comparison that keeps the best score is
    [!(splittingScore <= bestSplittingScore)], which holds for a NaN. *)
Definition SweepCut (learningTypeOrCountTargetClasses : Z)
    (g : FeatureGroup) (cSamplesRequiredForChildSplitMin : Z)
    (pAuxiliaryBucketZone : Z) (iBin1 iBin2 : Z)
    (state : FloatEbmType * list HistogramBucket)
  : FloatEbmType * list HistogramBucket :=
  let '(bestSplittingScore, a0) := state in
  let cVectorLength := GetVectorLength learningTypeOrCountTargetClasses in
  let aiStart := [iBin1; iBin2] in
  let totalsLowLow :=
    TensorTotalsSum learningTypeOrCountTargetClasses g a0 aiStart 0 in
  let a1 := StoreBucket a0 (pAuxiliaryBucketZone + 0) totalsLowLow in
  if cSamplesRequiredForChildSplitMin
     <=? GetCountSamplesInBucket totalsLowLow then
    let totalsLowHigh :=
      TensorTotalsSum learningTypeOrCountTargetClasses g a1 aiStart 2 in
    let a2 := StoreBucket a1 (pAuxiliaryBucketZone + 1) totalsLowHigh in
    if cSamplesRequiredForChildSplitMin
       <=? GetCountSamplesInBucket totalsLowHigh then
      let totalsHighLow :=
        TensorTotalsSum learningTypeOrCountTargetClasses g a2 aiStart 1 in
      let a3 := StoreBucket a2 (pAuxiliaryBucketZone + 2) totalsHighLow in
      if cSamplesRequiredForChildSplitMin
         <=? GetCountSamplesInBucket totalsHighLow then
        let totalsHighHigh :=
          TensorTotalsSum learningTypeOrCountTargetClasses g a3 aiStart 3 in
        let a4 := StoreBucket a3 (pAuxiliaryBucketZone + 3) totalsHighHigh in
        if cSamplesRequiredForChildSplitMin
           <=? GetCountSamplesInBucket totalsHighHigh then
          let splittingScore :=
            SplittingScore cVectorLength totalsLowLow totalsLowHigh
                           totalsHighLow totalsHighHigh in
          (if negb (SFleb splittingScore bestSplittingScore)
           then splittingScore else bestSplittingScore, a4)
        else (bestSplittingScore, a4)
      else (bestSplittingScore, a3)
    else (bestSplittingScore, a2)
  else (bestSplittingScore, a1).

(** [FindBestInteractionGainPairsInternal<compilerLearningTypeOrCountTargetClasses>::Func];
    [pAuxiliaryBucketZone] is the index of the first auxiliary cell of the
    buffer [aHistogramBuckets]. *)
Definition FindBestInteractionGainPairsInternal_Func
    (compilerLearningTypeOrCountTargetClasses : Z)
    (st : EbmInteractionState) (g : FeatureGroup)
    (cSamplesRequiredForChildSplitMin : Z) (pAuxiliaryBucketZone : Z)
    (aHistogramBuckets : list HistogramBucket) : FloatEbmType :=
  let learningTypeOrCountTargetClasses :=
    GET_LEARNING_TYPE_OR_COUNT_TARGET_CLASSES
      compilerLearningTypeOrCountTargetClasses
      (m_runtimeLearningTypeOrCountTargetClasses st) in
  let cBinsDimension1 :=
    GetCountBins (GetFeatureGroupEntries g !!! 0%nat) in
  let cBinsDimension2 :=
    GetCountBins (GetFeatureGroupEntries g !!! 1%nat) in
  fst
    (fold_left
       (fun state iBin1 =>
          fold_left
            (fun state' iBin2 =>
               SweepCut learningTypeOrCountTargetClasses g
                        cSamplesRequiredForChildSplitMin
                        pAuxiliaryBucketZone iBin1 iBin2 state')
            (BinsSwept cBinsDimension2) state)
       (BinsSwept cBinsDimension1) (FloatZero, aHistogramBuckets)).

(** [FindBestInteractionGainPairsTarget<compilerLearningTypeOrCountTargetClassesPossible>::Func];
    [cPossibleLeft] counts the instances of the template before the
    specialisation for [k_cCompilerOptimizedTargetClassesMax + 1], which
    runs the dynamic variant. *)
Fixpoint FindBestInteractionGainPairsTarget (cPossibleLeft : nat)
    (compilerLearningTypeOrCountTargetClassesPossible : Z)
    (st : EbmInteractionState) (g : FeatureGroup)
    (cSamplesRequiredForChildSplitMin : Z) (pAuxiliaryBucketZone : Z)
    (aHistogramBuckets : list HistogramBucket) : FloatEbmType :=
  match cPossibleLeft with
  | O =>
      FindBestInteractionGainPairsInternal_Func k_dynamicClassification
        st g cSamplesRequiredForChildSplitMin pAuxiliaryBucketZone
        aHistogramBuckets
  | S cLeft =>
      if compilerLearningTypeOrCountTargetClassesPossible
         =? m_runtimeLearningTypeOrCountTargetClasses st
      then
        FindBestInteractionGainPairsInternal_Func
          compilerLearningTypeOrCountTargetClassesPossible
          st g cSamplesRequiredForChildSplitMin pAuxiliaryBucketZone
          aHistogramBuckets
      else
        FindBestInteractionGainPairsTarget cLeft
          (compilerLearningTypeOrCountTargetClassesPossible + 1)
          st g cSamplesRequiredForChildSplitMin pAuxiliaryBucketZone
          aHistogramBuckets
  end.

(** [FindBestInteractionGainPairs] *)
Definition FindBestInteractionGainPairs
    (st : EbmInteractionState) (g : FeatureGroup)
    (cSamplesRequiredForChildSplitMin : Z) (pAuxiliaryBucketZone : Z)
    (aHistogramBuckets : list HistogramBucket) : FloatEbmType :=
  let runtimeLearningTypeOrCountTargetClasses :=
    m_runtimeLearningTypeOrCountTargetClasses st in
  if IsClassification runtimeLearningTypeOrCountTargetClasses then
    FindBestInteractionGainPairsTarget
      (Z.to_nat (k_cCompilerOptimizedTargetClassesMax + 1 - 2)) 2
      st g cSamplesRequiredForChildSplitMin pAuxiliaryBucketZone
      aHistogramBuckets
  else
    FindBestInteractionGainPairsInternal_Func k_regression
      st g cSamplesRequiredForChildSplitMin pAuxiliaryBucketZone
      aHistogramBuckets.

(** ** [CalculateInteractionScoreInternal] *)

(** [if(nullptr != p) { *p = v; }] *)
Definition StoreScore (p : option FloatEbmType) (v : FloatEbmType)
  : option FloatEbmType :=
  match p with
  | Some _ => Some v
  | None => None
  end.

(** The filter applied to the best splitting score before it is written. *)
Definition FilterScore (bestSplittingScore : FloatEbmType) : FloatEbmType :=
  if isnan bestSplittingScore || SFleb FloatMax bestSplittingScore
  then FloatZero else bestSplittingScore.

(** [cBytes] bytes can be written from the address [p]: [p] is a live
    block of at least that many bytes. *)
Definition BlockHolds (h : Heap) (p : ptr) (cBytes : Z) : bool :=
  match h_live h !! p with
  | Some cBytesBlock => cBytes <=? cBytesBlock
  | None => false
  end.

Record InternalResult : Type := {
  ir_error : bool;
  ir_score : option FloatEbmType;
  ir_resources : CachedInteractionThreadResources;
  ir_heap : Heap;
  ir_stages : list Stage;
  ir_overrun : bool
}.

(** The loops that zero the buffer write [cTotalBuckets] cells of
    [cBytesPerHistogramBucket] bytes each, that is [cBytesBuffer] bytes,
    from the address [GetThreadByteBuffer1] returned; [ir_overrun] tells
    whether the block at that address is too small for them.  The
    stages that follow stay within those [cTotalBuckets] cells. *)
Definition CalculateInteractionScoreInternal
    (res : CachedInteractionThreadResources) (h : Heap)
    (st : EbmInteractionState) (g : FeatureGroup)
    (cSamplesRequiredForChildSplitMin : Z)
    (pInteractionScoreReturn : option FloatEbmType) : InternalResult :=
  let classes := m_runtimeLearningTypeOrCountTargetClasses st in
  let cDimensions := GetCountFeatures g in
  match InteractionBufferSizes classes g with
  | None =>
      {| ir_error := true; ir_score := pInteractionScoreReturn;
         ir_resources := res; ir_heap := h; ir_stages := [];
         ir_overrun := false |}
  | Some sz =>
      let '(aHistogramBuckets, res1, h1) :=
        GetThreadByteBuffer1 res (cBytesBuffer sz) h in
      if Nat.eqb aHistogramBuckets nullptr then
        {| ir_error := true; ir_score := pInteractionScoreReturn;
           ir_resources := res1; ir_heap := h1;
           ir_stages := [StageRequest (cBytesBuffer sz)];
           ir_overrun := false |}
      else
        let bOverrun :=
          negb (BlockHolds h1 aHistogramBuckets (cBytesBuffer sz)) in
        let zeroed :=
          repeat (ZeroBucket (cVectorLength sz))
                 (Z.to_nat (cTotalBuckets sz)) in
        let pAuxiliaryBucketZone := cTotalBucketsMainSpace sz in
        let binned := BinInteraction st g zeroed in
        let totals :=
          TensorTotalsBuild classes g pAuxiliaryBucketZone binned in
        if 2 =? cDimensions then
          let bestSplittingScore :=
            FindBestInteractionGainPairs
              st g cSamplesRequiredForChildSplitMin pAuxiliaryBucketZone
              totals in
          {| ir_error := false;
             ir_score :=
               StoreScore pInteractionScoreReturn
                          (FilterScore bestSplittingScore);
             ir_resources := res1; ir_heap := h1;
             ir_stages :=
               [StageRequest (cBytesBuffer sz);
                StageZero (cTotalBuckets sz); StageBin; StageTotals;
                StageSweep];
             ir_overrun := bOverrun |}
        else
          {| ir_error := false;
             ir_score := StoreScore pInteractionScoreReturn FloatZero;
             ir_resources := res1; ir_heap := h1;
             ir_stages :=
               [StageRequest (cBytesBuffer sz);
                StageZero (cTotalBuckets sz); StageBin; StageTotals];
             ir_overrun := bOverrun |}
  end.

(** ** [CalculateInteractionScore] *)

Inductive GroupCheck : Type :=
| GroupInvalid      (* [return 1] from the first loop over the indexes *)
| GroupDegenerate   (* [return 0]: a feature with at most one bin *)
| GroupChecked.     (* the loop ran to its end *)

(** The first loop over [featureIndexes]. *)
Fixpoint CheckFeatureIndexes (st : EbmInteractionState) (indexes : list Z)
  : GroupCheck :=
  match indexes with
  | [] => GroupChecked
  | indexFeatureInterop :: rest =>
      if indexFeatureInterop <? 0 then GroupInvalid
      else if negb (IsNumberConvertable T_size_t T_IntEbmType
                                        indexFeatureInterop)
      then GroupInvalid
      else
        let iFeatureForGroup := wrap indexFeatureInterop in
        if m_cFeatures st <=? iFeatureForGroup then GroupInvalid
        else if GetCountBins (m_aFeatures st !!! Z.to_nat iFeatureForGroup)
                <=? 1
        then GroupDegenerate
        else CheckFeatureIndexes st rest
  end.

(** The second loop over [featureIndexes], which fills the group. *)
Definition BuildFeatureGroup (st : EbmInteractionState)
    (cFeaturesInGroup : Z) (indexes : list Z) : FeatureGroup :=
  {| fg_cFeatures := cFeaturesInGroup;
     fg_iInputData := 0;
     fg_entries :=
       map (fun indexFeatureInterop =>
              m_aFeatures st !!! Z.to_nat (wrap indexFeatureInterop))
           indexes |}.

(** [cSamplesRequiredForChildSplitMin] as computed from the argument
    [countSamplesRequiredForChildSplitMin]. *)
Definition SamplesRequiredForChildSplitMin
    (countSamplesRequiredForChildSplitMin : Z) : Z :=
  if 1 <=? countSamplesRequiredForChildSplitMin then
    if negb (IsNumberConvertable T_size_t T_IntEbmType
                                 countSamplesRequiredForChildSplitMin)
    then size_max
    else wrap countSamplesRequiredForChildSplitMin
  else 1.

(** What a call of [CalculateInteractionScore] leaves: the status it
    returns, the cell behind [interactionScoreOut], the heap, the stages
    the core ran, and whether the core wrote past the end of its
    buffer. *)
Record ScoreResult : Type := {
  r_status : Z;
  r_score : option FloatEbmType;
  r_heap : Heap;
  r_stages : list Stage;
  r_overrun : bool
}.

Definition CalculateInteractionScore
    (h : Heap) (ebmInteraction : option EbmInteractionState)
    (countFeaturesInGroup : Z) (featureIndexes : option (list Z))
    (countSamplesRequiredForChildSplitMin : Z)
    (interactionScoreOut : option FloatEbmType) : ScoreResult :=
  let zeroed := StoreScore interactionScoreOut FloatZero in
  let returned status score :=
    {| r_status := status; r_score := score; r_heap := h;
       r_stages := []; r_overrun := false |} in
  match ebmInteraction with
  | None => returned 1 zeroed
  | Some st =>
      if countFeaturesInGroup <? 0 then returned 1 zeroed
      else if negb (0 =? countFeaturesInGroup)
              && bool_decide (featureIndexes = None)
      then returned 1 zeroed
      else if negb (IsNumberConvertable T_size_t T_IntEbmType
                                        countFeaturesInGroup)
      then returned 1 zeroed
      else
        let cFeaturesInGroup := wrap countFeaturesInGroup in
        if 0 =? cFeaturesInGroup then returned 0 zeroed
        else if 0 =? GetCountSamples (m_dataSet st) then returned 0 zeroed
        else
          let cSamplesRequiredForChildSplitMin :=
            SamplesRequiredForChildSplitMin
              countSamplesRequiredForChildSplitMin in
          let indexes :=
            take (Z.to_nat cFeaturesInGroup) (default [] featureIndexes) in
          match CheckFeatureIndexes st indexes with
          | GroupInvalid => returned 1 zeroed
          | GroupDegenerate => returned 0 zeroed
          | GroupChecked =>
              if k_cDimensionsMax <? cFeaturesInGroup
              then returned 1 interactionScoreOut
              else
                let g := BuildFeatureGroup st cFeaturesInGroup indexes in
                let classes := m_runtimeLearningTypeOrCountTargetClasses st in
                if (0 =? classes) || (1 =? classes) then returned 0 zeroed
                else
                  let '(pCachedThreadResources, res, h1) :=
                    CachedInteractionThreadResources_Allocate h in
                  if Nat.eqb pCachedThreadResources nullptr then
                    {| r_status := 1; r_score := interactionScoreOut;
                       r_heap := h1; r_stages := [];
                       r_overrun := false |}
                  else
                    let ir :=
                      CalculateInteractionScoreInternal
                        res h1 st g cSamplesRequiredForChildSplitMin
                        interactionScoreOut in
                    let h2 :=
                      CachedInteractionThreadResources_Free
                        pCachedThreadResources (ir_resources ir)
                        (ir_heap ir) in
                    {| r_status := if ir_error ir then 1 else 0;
                       r_score := ir_score ir;
                       r_heap := h2;
                       r_stages := ir_stages ir;
                       r_overrun := ir_overrun ir |}
          end
  end.

(** ** Construction of a context ([InteractionDetection.cpp]) *)

(** The loop of [EbmInteractionState::Allocate] over the native features;
    [None] stands for each of its [free(aFeatures); return nullptr]
    exits. *)
Fixpoint InitializeFeatures (cSamples : Z)
    (aNativeFeatures : list EbmNativeFeature) (iFeatureInitialize : Z)
  : option (list Feature) :=
  match aNativeFeatures with
  | [] => Some []
  | pFeatureInitialize :: rest =>
      if negb (FeatureTypeOrdinal =? featureType pFeatureInitialize)
         && negb (FeatureTypeNominal =? featureType pFeatureInitialize)
      then None
      else if countBins pFeatureInitialize <? 0 then None
      else if (0 =? countBins pFeatureInitialize) && negb (0 =? cSamples)
      then None
      else if negb (IsNumberConvertable T_size_t T_IntEbmType
                                        (countBins pFeatureInitialize))
      then None
      else if negb (EBM_FALSE =? hasMissing pFeatureInitialize)
              && negb (EBM_TRUE =? hasMissing pFeatureInitialize)
      then None
      else
        match InitializeFeatures cSamples rest (iFeatureInitialize + 1) with
        | None => None
        | Some aFeatures =>
            Some ({| m_cBins := wrap (countBins pFeatureInitialize);
                     m_iFeatureData := iFeatureInitialize;
                     m_featureType :=
                       if FeatureTypeOrdinal =? featureType pFeatureInitialize
                       then Ordinal else Nominal;
                     m_bMissing :=
                       negb (EBM_FALSE =? hasMissing pFeatureInitialize) |}
                  :: aFeatures)
        end
  end.

(** A native feature that [EbmInteractionState::Allocate] accepts. *)
Definition valid_native_feature (cSamples : Z) (f : EbmNativeFeature)
  : Prop :=
  (featureType f = FeatureTypeOrdinal \/ featureType f = FeatureTypeNominal)
  /\ 0 <= countBins f <= size_max
  /\ (countBins f = 0 -> cSamples = 0)
  /\ (hasMissing f = EBM_FALSE \/ hasMissing f = EBM_TRUE).

(** Modelled from the spec: [DataSetByFeature::Initialize] is defined in a
    file that is not among the sources.  Whether it returns [true] (an
    error), which arrays the data set holds when it returns and what it
    does to the heap are the host's; the data set it sets up is one of
    [cSamples] samples. *)
Definition DataSetByFeature_Initialize
    (cFeatures : Z) (aFeatures : list Feature) (cSamples : Z)
    (aBinnedData : option (list Z)) (aTargets : option TargetArray)
    (aPredictorScores : option (list FloatEbmType))
    (runtimeLearningTypeOrCountTargetClasses : Z) (h : Heap)
  : bool * DataSetByFeature * Heap :=
  let '(bError, aArrays, h1) :=
    DataSetInitialize cFeatures aFeatures cSamples aBinnedData aTargets
      aPredictorScores runtimeLearningTypeOrCountTargetClasses h in
  (bError, {| m_cSamples := cSamples; m_aArrays := aArrays |}, h1).

(** Modelled from the spec: [DataSetByFeature::Destruct] is defined in a
    file that is not among the sources.  It hands every array the data
    set holds back to [free]. *)
Definition DataSetByFeature_Destruct (dataSet : DataSetByFeature) (h : Heap)
  : Heap :=
  fold_left (fun h' p => free p h') (m_aArrays dataSet) h.

(** [EbmInteractionState::Free]: [pInteractionDetection] is the address of
    the context, [dataSet] and [aFeatures] are its fields [m_dataSet] and
    [m_aFeatures], which are read only when the context is not null. *)
Definition EbmInteractionState_Free (pInteractionDetection : ptr)
    (dataSet : DataSetByFeature) (aFeatures : ptr) (h : Heap) : Heap :=
  if negb (Nat.eqb pInteractionDetection nullptr) then
    free pInteractionDetection
         (free aFeatures (DataSetByFeature_Destruct dataSet h))
  else h.

(** [EbmInteractionState::Allocate]; [optionalTempParams] is unused.
    [finish] is the part of the function after the features are set up:
    [pFeatures] is the address of the feature array, [nullptr] when there
    is no feature. *)
Definition EbmInteractionState_Allocate (h : Heap)
    (runtimeLearningTypeOrCountTargetClasses cFeatures : Z)
    (aNativeFeatures : option (list EbmNativeFeature)) (cSamples : Z)
    (aTargets : option TargetArray) (aBinnedData : option (list Z))
    (aPredictorScores : option (list FloatEbmType))
  : option EbmInteractionState * Heap :=
  let finish (pFeatures : ptr) (aFeatures : list Feature) (h1 : Heap) :=
    let '(pRet, h2) := EbmMalloc_one sizeof_EbmInteractionState h1 in
    if Nat.eqb pRet nullptr then (None, free pFeatures h2)
    else
      let '(bError, dataSet, h3) :=
        DataSetByFeature_Initialize cFeatures aFeatures cSamples
          aBinnedData aTargets aPredictorScores
          runtimeLearningTypeOrCountTargetClasses h2 in
      if bError then
        (None, EbmInteractionState_Free pRet dataSet pFeatures h3)
      else
        (Some {| m_runtimeLearningTypeOrCountTargetClasses :=
                   runtimeLearningTypeOrCountTargetClasses;
                 m_cFeatures := cFeatures;
                 m_aFeatures := aFeatures;
                 m_dataSet := dataSet |},
         h3) in
  if negb (0 =? cFeatures) then
    let '(pFeatures, h1) := EbmMalloc sizeof_Feature cFeatures h in
    if Nat.eqb pFeatures nullptr then (None, h1)
    else
      match InitializeFeatures cSamples
              (take (Z.to_nat cFeatures) (default [] aNativeFeatures)) 0 with
      | None => (None, free pFeatures h1)
      | Some aFeatures => finish pFeatures aFeatures h1
      end
  else finish nullptr [] h.

Definition AllocateInteraction (h : Heap) (countFeatures : Z)
    (features : option (list EbmNativeFeature))
    (runtimeLearningTypeOrCountTargetClasses countSamples : Z)
    (targets : option TargetArray) (binnedData : option (list Z))
    (predictorScores : option (list FloatEbmType))
  : option EbmInteractionState * Heap :=
  if countFeatures <? 0 then (None, h)
  else if negb (0 =? countFeatures) && bool_decide (features = None)
  then (None, h)
  else if countSamples <? 0 then (None, h)
  else if negb (0 =? countSamples) && bool_decide (targets = None)
  then (None, h)
  else if negb (0 =? countSamples) && negb (0 =? countFeatures)
          && bool_decide (binnedData = None)
  then (None, h)
  else if negb (0 =? countSamples) && bool_decide (predictorScores = None)
  then (None, h)
  else if negb (IsNumberConvertable T_size_t T_IntEbmType countFeatures)
  then (None, h)
  else if negb (IsNumberConvertable T_size_t T_IntEbmType countSamples)
  then (None, h)
  else
    EbmInteractionState_Allocate h runtimeLearningTypeOrCountTargetClasses
      (wrap countFeatures) features (wrap countSamples) targets binnedData
      predictorScores.

Definition InitializeInteractionClassification (h : Heap)
    (countTargetClasses countFeatures : Z)
    (features : option (list EbmNativeFeature)) (countSamples : Z)
    (binnedData : option (list Z)) (targets : option (list Z))
    (predictorScores : option (list FloatEbmType))
  : option EbmInteractionState * Heap :=
  if countTargetClasses <? 0 then (None, h)
  else if (0 =? countTargetClasses) && negb (0 =? countSamples)
  then (None, h)
  else if negb (IsNumberConvertable T_ptrdiff_t T_IntEbmType
                                    countTargetClasses)
  then (None, h)
  else
    AllocateInteraction h countFeatures features countTargetClasses
      countSamples (TargetClasses <$> targets) binnedData predictorScores.

Definition InitializeInteractionRegression (h : Heap) (countFeatures : Z)
    (features : option (list EbmNativeFeature)) (countSamples : Z)
    (binnedData : option (list Z)) (targets : option (list FloatEbmType))
    (predictorScores : option (list FloatEbmType))
  : option EbmInteractionState * Heap :=
  AllocateInteraction h countFeatures features k_regression countSamples
    (TargetValues <$> targets) binnedData predictorScores.

(** [FreeInteraction]: [ebmInteraction] is the handle, [dataSet] and
    [aFeatures] the fields of the context it designates. *)
Definition FreeInteraction (ebmInteraction : ptr)
    (dataSet : DataSetByFeature) (aFeatures : ptr) (h : Heap) : Heap :=
  EbmInteractionState_Free ebmInteraction dataSet aFeatures h.

(** Whether [DataSetByFeature::Initialize] returns an error on the heap
    [h]. *)
Definition DataSetInitializeFails
    (cFeatures : Z) (aFeatures : list Feature) (cSamples : Z)
    (aBinnedData : option (list Z)) (aTargets : option TargetArray)
    (aPredictorScores : option (list FloatEbmType))
    (runtimeLearningTypeOrCountTargetClasses : Z) (h : Heap) : bool :=
  fst (fst (DataSetInitialize cFeatures aFeatures cSamples aBinnedData
              aTargets aPredictorScores
              runtimeLearningTypeOrCountTargetClasses h)).

End Engine.

(** ** Notions used to state the properties *)

(** The number of cells of a tensor with the given bin counts, as an
    unbounded integer. *)
Fixpoint TensorProduct (cBins : list Z) : Z :=
  match cBins with
  | [] => 1
  | b :: rest => b * TensorProduct rest
  end.

(** The sum, over the dimensions, of the product of the bin counts of the
    dimensions before it: the value [cAuxillaryBucketsForBuildFastTotals]
    stands for, as an unbounded integer. *)
Fixpoint PartialProducts (cBins : list Z) : Z :=
  match cBins with
  | [] => 0
  | b :: rest => 1 + b * PartialProducts rest
  end.

(** The bin counts of the features a list of indexes designates. *)
Definition GroupBins (st : EbmInteractionState) (indexes : list Z) : list Z :=
  map (fun i => GetCountBins (m_aFeatures st !!! Z.to_nat i)) indexes.

(** A feature index the context can serve. *)
Definition valid_index (st : EbmInteractionState) (i : Z) : Prop :=
  0 <= i < m_cFeatures st.

(** The sign bit of [x] is clear, or [x] is a NaN. *)
Definition nonneg_or_nan (x : FloatEbmType) : Prop :=
  match x with
  | S754_nan => True
  | S754_zero s | S754_infinity s | S754_finite s _ _ => s = false
  end.

(** [x] carries the sign [s], or is a NaN. *)
Definition signed_as (s : bool) (x : FloatEbmType) : Prop :=
  match x with
  | S754_nan => True
  | S754_zero s' | S754_infinity s' | S754_finite s' _ _ => s' = s
  end.

(** No live block sits at or above the next address [malloc] hands out,
    and that address is not [nullptr]. *)
Definition heap_wf (h : Heap) : Prop :=
  (0 < h_next h)%nat /\
  forall p, is_Some (h_live h !! p) -> (p < h_next h)%nat.

(** The arena's buffer is [nullptr] or a live block. *)
Definition no_dangling (h : Heap) (res : CachedInteractionThreadResources)
  : Prop :=
  m_aThreadByteBuffer1 res = nullptr \/
  is_Some (h_live h !! m_aThreadByteBuffer1 res).

(** ** A reference host

    A host on which the engine can be run: every allocation succeeds (or,
    for [sample_host_oom], none does), a histogram cell takes eight bytes
    for its count and eight or sixteen per channel, the data set is the
    four-sample XOR data set (two features of two bins, residuals
    [+1, -1, -1, +1]) and keeps no array on the heap (on
    [sample_host_data] it keeps two), [TensorTotalsBuild] leaves the
    histogram as it is and [TensorTotalsSum] adds up the cells of the box
    it is asked for. *)

Definition sample_float (z : Z) : FloatEbmType :=
  binary_normalize prec emax z 0 false.

(** The bin of each sample on every feature, and its residual. *)
Definition sample_data : list (list Z * FloatEbmType) :=
  [ ([0; 0], sample_float 1); ([0; 1], sample_float (-1));
    ([1; 0], sample_float (-1)); ([1; 1], sample_float 1) ].

Definition sample_accumulate (b : HistogramBucket) (residual : FloatEbmType)
  : HistogramBucket :=
  {| sample_count := sample_count b + 1;
     grads :=
       map (fun e =>
              {| sum_gradient := SFadd prec emax (sum_gradient e) residual;
                 sum_denominator := sum_denominator e |})
           (grads b) |}.

Fixpoint sample_index (entries : list Feature) (bins : list Z) (stride : Z)
  : Z :=
  match entries with
  | [] => 0
  | f :: rest =>
      nth (Z.to_nat (m_iFeatureData f)) bins 0 * stride
      + sample_index rest bins (stride * m_cBins f)
  end.

Definition sample_BinInteraction (st : EbmInteractionState)
    (g : FeatureGroup) (a : list HistogramBucket) : list HistogramBucket :=
  fold_left
    (fun a s =>
       let i := Z.to_nat (sample_index (fg_entries g) (fst s) 1) in
       match a !! i with
       | Some b => <[ i := sample_accumulate b (snd s) ]> a
       | None => a
       end)
    sample_data a.

Definition sample_bucket_add (x y : HistogramBucket) : HistogramBucket :=
  {| sample_count := sample_count x + sample_count y;
     grads :=
       zip_with
         (fun e1 e2 =>
            {| sum_gradient :=
                 SFadd prec emax (sum_gradient e1) (sum_gradient e2);
               sum_denominator :=
                 SFadd prec emax (sum_denominator e1) (sum_denominator e2) |})
         (grads x) (grads y) |}.

Definition sample_in_range (bin cut : Z) (high : bool) : bool :=
  if high then cut <? bin else bin <=? cut.

Definition sample_TensorTotalsSum (classes : Z) (g : FeatureGroup)
    (a : list HistogramBucket) (point : list Z) (mask : Z)
  : HistogramBucket :=
  match fg_entries g, point with
  | f1 :: f2 :: _, c1 :: c2 :: _ =>
      let cBins1 := m_cBins f1 in
      fold_left
        (fun acc ib =>
           let i := Z.of_nat (fst ib) in
           if sample_in_range (i mod cBins1) c1 (Z.testbit mask 0)
              && sample_in_range (i / cBins1) c2 (Z.testbit mask 1)
           then sample_bucket_add acc (snd ib) else acc)
        (imap (fun i b => (i, b))
              (take (Z.to_nat (cBins1 * m_cBins f2)) a))
        (ZeroBucket 1)
  | _, _ => ZeroBucket 1
  end.

Definition sample_host_with (bits : Z) (memory : bool) : Host :=
  {| size_t_bits := bits;
     sizeof_Feature := 32;
     sizeof_EbmInteractionState := 64;
     sizeof_CachedInteractionThreadResources := 16;
     malloc_succeeds := fun _ _ => memory;
     GetHistogramBucketSizeOverflow :=
       fun b v => 2 ^ bits <=? 8 + (if b then 16 else 8) * v;
     GetHistogramBucketSize := fun b v => 8 + (if b then 16 else 8) * v;
     DataSetInitialize := fun _ _ _ _ _ _ _ h => (false, [], h);
     BinInteraction := sample_BinInteraction;
     TensorTotalsBuild := fun _ _ _ a => a;
     TensorTotalsSum := sample_TensorTotalsSum |}.

Definition sample_host : Host := sample_host_with 64 true.
Definition sample_host32 : Host := sample_host_with 32 true.
Definition sample_host_oom : Host := sample_host_with 64 false.

(** [malloc] where memory is to spare. *)
Definition sample_malloc (cBytes : Z) (h : Heap) : ptr * Heap :=
  (h_next h,
   {| h_live := <[h_next h := cBytes]> (h_live h);
      h_next := S (h_next h);
      h_trace := EvMalloc cBytes (h_next h) :: h_trace h |}).

(** A data set that keeps two arrays of eight bytes an entry, one for the
    residuals of the samples and one for their bin indexes; with [fails]
    its initialisation reports an error once it holds them, and leaves
    them to [Destruct]. *)
Definition sample_DataSetInitialize (fails : bool)
    (cFeatures : Z) (aFeatures : list Feature) (cSamples : Z)
    (aBinnedData : option (list Z)) (aTargets : option TargetArray)
    (aPredictorScores : option (list FloatEbmType))
    (runtimeLearningTypeOrCountTargetClasses : Z) (h : Heap)
  : bool * list ptr * Heap :=
  let '(aResidualErrors, h1) := sample_malloc (8 * cSamples) h in
  let '(aInputData, h2) := sample_malloc (8 * cSamples * cFeatures) h1 in
  (fails, [aResidualErrors; aInputData], h2).

(** The 64-bit host with that data set. *)
Definition sample_host_data (fails : bool) : Host :=
  {| size_t_bits := 64;
     sizeof_Feature := 32;
     sizeof_EbmInteractionState := 64;
     sizeof_CachedInteractionThreadResources := 16;
     malloc_succeeds := fun _ _ => true;
     GetHistogramBucketSizeOverflow :=
       fun b v => 2 ^ 64 <=? 8 + (if b then 16 else 8) * v;
     GetHistogramBucketSize := fun b v => 8 + (if b then 16 else 8) * v;
     DataSetInitialize := sample_DataSetInitialize fails;
     BinInteraction := sample_BinInteraction;
     TensorTotalsBuild := fun _ _ _ a => a;
     TensorTotalsSum := sample_TensorTotalsSum |}.

Definition sample_features (cBins1 cBins2 : Z) : list EbmNativeFeature :=
  [ {| featureType := FeatureTypeOrdinal; hasMissing := EBM_FALSE;
       countBins := cBins1 |};
    {| featureType := FeatureTypeOrdinal; hasMissing := EBM_FALSE;
       countBins := cBins2 |} ].

(** The regression context over the XOR data set, and the heap it leaves. *)
Definition sample_context (host : Host) : option EbmInteractionState * Heap :=
  @InitializeInteractionRegression host emptyHeap 2
    (Some (sample_features 2 2)) 4
    (Some [0; 0; 0; 1; 1; 0; 1; 1])
    (Some (map sample_float [1; -1; -1; 1]))
    (Some (map sample_float [0; 0; 0; 0])).

(** The context [sample_context] builds on [sample_host_data false]: its
    data set holds the blocks at 3 and 4. *)
Definition sample_xor_data : EbmInteractionState :=
  {| m_runtimeLearningTypeOrCountTargetClasses := -1;
     m_cFeatures := 2;
     m_aFeatures :=
       imap (fun i c =>
               {| m_cBins := c; m_iFeatureData := Z.of_nat i;
                  m_featureType := Ordinal; m_bMissing := false |})
            [2; 2];
     m_dataSet := {| m_cSamples := 4; m_aArrays := [3%nat; 4%nat] |} |}.

(** A bare context: [cBins] holds the bin count of each feature. *)
Definition sample_state (classes : Z) (cBins : list Z) (cSamples : Z)
  : EbmInteractionState :=
  {| m_runtimeLearningTypeOrCountTargetClasses := classes;
     m_cFeatures := Z.of_nat (length cBins);
     m_aFeatures :=
       imap (fun i c =>
               {| m_cBins := c; m_iFeatureData := Z.of_nat i;
                  m_featureType := Ordinal; m_bMissing := false |})
            cBins;
     m_dataSet := {| m_cSamples := cSamples; m_aArrays := [] |} |}.

(** The context [InitializeInteractionRegression] builds over the XOR data
    set. *)
Definition sample_xor : EbmInteractionState := sample_state (-1) [2; 2] 4.

(** Two features of [2^33] bins each: the tensor would have [2^66]
    cells. *)
Definition sample_huge : EbmInteractionState :=
  sample_state (-1) [2 ^ 33; 2 ^ 33] 4.

(** A feature with one bin, on the second axis. *)
Definition sample_flat : EbmInteractionState := sample_state (-1) [2; 1] 4.

(** A context with a single class over the XOR bins. *)
Definition sample_single_class : EbmInteractionState :=
  sample_state 1 [2; 2] 4.

(** Two features of [2^30] and [2^29] bins: a tensor of [2^59] cells. *)
Definition sample_wide : EbmInteractionState :=
  sample_state (-1) [2 ^ 30; 2 ^ 29] 4.

(** ** Further helpers of [EbmInternal.h], and the counting helper of the
    R interface ([interpret_R.cpp]) *)

Section Helpers.

Context {host : Host}.

(** [EbmMalloc<T>(cItems, cBytesPerItem)] *)
Definition EbmMalloc_sized (cItems cBytesPerItem : Z) (h : Heap)
  : ptr * Heap :=
  if IsMultiplyError cItems cBytesPerItem then (nullptr, h)
  else malloc (wrap (cItems * cBytesPerItem)) h.

(** [CountBitsRequiredPositiveMax<StorageDataType>()]; [StorageDataType]
    is [size_t]. *)
Definition k_cBitsForStorageType : Z :=
  CountBitsRequired (S (Z.to_nat size_t_bits)) size_max.

(** [GetCountBits]; the division is undefined in the source when
    [cItemsBitPacked] is zero. *)
Definition GetCountBits (cItemsBitPacked : Z) : Z :=
  k_cBitsForStorageType / cItemsBitPacked.

Definition k_cItemsPerBitPackedDataUnitDynamic : Z := 0.
Definition k_cItemsPerBitPackedDataUnitMin : Z := 0.

Definition GetNextCountItemsBitPacked (cItemsBitPackedPrev : Z) : Z :=
  if k_cItemsPerBitPackedDataUnitMin =? cItemsBitPackedPrev
  then k_cItemsPerBitPackedDataUnitDynamic
  else k_cBitsForStorageType
       / wrap (k_cBitsForStorageType / cItemsBitPackedPrev + 1).

(** The loop of [CountFeatureGroupsIndexes] over the
    [countFeaturesInGroup] fields of the groups still to be visited. *)
Fixpoint CountFeatureGroupsIndexes_loop (aFeatureGroups : list Z)
    (cFeatureGroupsIndexes : Z) : Z :=
  match aFeatureGroups with
  | [] => cFeatureGroupsIndexes
  | countFeaturesInGroup :: rest =>
      if negb (IsNumberConvertable T_size_t T_IntEbmType countFeaturesInGroup)
      then size_max
      else
        let cFeaturesInGroup := wrap countFeaturesInGroup in
        if IsAddError cFeatureGroupsIndexes cFeaturesInGroup then size_max
        else
          CountFeatureGroupsIndexes_loop rest
            (wrap (cFeatureGroupsIndexes + cFeaturesInGroup))
  end.

(** [CountFeatureGroupsIndexes]: [aFeatureGroups] holds the
    [countFeaturesInGroup] field of each group; [SIZE_MAX] is the error
    value. *)
Definition CountFeatureGroupsIndexes (cFeatureGroups : Z)
    (aFeatureGroups : list Z) : Z :=
  if negb (0 =? cFeatureGroups) then
    CountFeatureGroupsIndexes_loop
      (take (Z.to_nat cFeatureGroups) aFeatureGroups) 0
  else 0.

End Helpers.

(** ** Notions used to state the further properties *)

(** The requests a thread makes of its arena, served in order: the buffers
    handed out, the arena and the heap after the last one. *)
Fixpoint ServeRequests {host : Host} (res : CachedInteractionThreadResources)
    (requests : list Z) (h : Heap)
  : list ptr * CachedInteractionThreadResources * Heap :=
  match requests with
  | [] => ([], res, h)
  | cBytesRequired :: rest =>
      let '(aBuffer, res1, h1) := GetThreadByteBuffer1 res cBytesRequired h in
      let '(served, res2, h2) := ServeRequests res1 rest h1 in
      (aBuffer :: served, res2, h2)
  end.

(** The arena owns at most one block: the live blocks are those of [base],
    and the arena's buffer when it has one. *)
Definition arena_owns (base : gmap nat Z) (h : Heap)
    (res : CachedInteractionThreadResources) : Prop :=
  (m_aThreadByteBuffer1 res = nullptr /\ h_live h = base) \/
  (m_aThreadByteBuffer1 res <> nullptr /\
   base !! m_aThreadByteBuffer1 res = None /\
   exists cBytes, h_live h = <[m_aThreadByteBuffer1 res := cBytes]> base).

(** The feature [EbmInteractionState::Allocate] makes of a native feature
    it accepts. *)
Definition FeatureOfNative (iFeature : Z) (f : EbmNativeFeature) : Feature :=
  {| m_cBins := countBins f;
     m_iFeatureData := iFeature;
     m_featureType :=
       if FeatureTypeOrdinal =? featureType f then Ordinal else Nominal;
     m_bMissing := negb (EBM_FALSE =? hasMissing f) |}.

(** What a call makes of the cell [interactionScoreOut] points to:
    [written] is the value stored, [None] when the call stores nothing. *)
Definition CellAfter (written : option FloatEbmType)
    (out : option FloatEbmType) : option FloatEbmType :=
  match written with
  | Some v => StoreScore out v
  | None => out
  end.

(** The sum of a list of counts, as an unbounded integer. *)
Definition TotalCount (counts : list Z) : Z := foldr Z.add 0 counts.

(** The blocks [EbmInteractionState::Allocate] obtains for itself before
    it initialises the data set, on the way from the heap [h] to the heap
    [h2]: the feature array at [pFeatures], requested first and only when
    there is a feature, and the context at [pState]. *)
Definition ContextBlocks {host : Host} (h : Heap) (cFeatures : Z)
    (pState pFeatures : ptr) (h2 : Heap) : Prop :=
  heap_wf h2 /\ pState <> nullptr /\ h_live h !! pState = None /\
  ((cFeatures = 0 /\ pFeatures = nullptr /\
    h_live h2 = <[pState := sizeof_EbmInteractionState]> (h_live h) /\
    h_trace h2 = EvMalloc sizeof_EbmInteractionState pState :: h_trace h) \/
   (cFeatures <> 0 /\ pFeatures <> nullptr /\ pFeatures <> pState /\
    h_live h !! pFeatures = None /\
    cFeatures * sizeof_Feature < size_modulus /\
    h_live h2
    = <[pState := sizeof_EbmInteractionState]>
        (<[pFeatures := cFeatures * sizeof_Feature]> (h_live h)) /\
    h_trace h2
    = EvMalloc sizeof_EbmInteractionState pState
      :: EvMalloc (cFeatures * sizeof_Feature) pFeatures :: h_trace h)).

(** The data set keeps to its own arrays: whether it succeeds or not,
    [DataSetByFeature::Initialize] leaves a well-formed heap on which the
    arrays the data set holds are new blocks and every other address is
    as it was. *)
Definition DataSetOwnsItsArrays {host : Host} : Prop :=
  forall cFeatures aFeatures cSamples aBinnedData aTargets aPredictorScores
         classes h bError aArrays h',
    heap_wf h ->
    DataSetInitialize cFeatures aFeatures cSamples aBinnedData aTargets
      aPredictorScores classes h = (bError, aArrays, h') ->
    heap_wf h' /\
    Forall (fun p => p <> nullptr /\ h_live h !! p = None) aArrays /\
    (forall p, p ∉ aArrays -> h_live h' !! p = h_live h !! p).

(** ** The R interface ([interpret_R.cpp])

    The values R hands over are modelled by what the functions below read
    of them: the doubles of a real vector, the address held by an external
    pointer.  [R_alloc] never returns [nullptr], and what it allocates is
    R's to release. *)

Inductive SEXP : Type :=
| REALSXP (items : list FloatEbmType)
| EXTPTRSXP (addr : option EbmInteractionState)
| OtherSXP.

(** What a piece of code does: it returns, or it reaches an operation the
    language leaves undefined. *)
Inductive Outcome (A : Type) : Type :=
| Returns (a : A)
| Undefined.

Arguments Returns {A} a.
Arguments Undefined {A}.

(** [static_cast<double>(z)] *)
Definition DoubleOfInteger (z : Z) : FloatEbmType :=
  binary_normalize prec emax z 0 false.

(** [std::min] on doubles *)
Definition DoubleMin (a b : FloatEbmType) : FloatEbmType :=
  if SFltb b a then b else a.

(** The integer part of [m * 2^e]. *)
Definition IntegerPart (m : positive) (e : Z) : Z :=
  if 0 <=? e then Zpos m * 2 ^ e else Zpos m / 2 ^ (- e).

(** The integer part of a double, towards zero; [None] for a NaN and the
    infinities. *)
Definition DoubleTruncate (val : FloatEbmType) : option Z :=
  match val with
  | S754_zero _ => Some 0
  | S754_finite s m e =>
      Some (if s then - IntegerPart m e else IntegerPart m e)
  | _ => None
  end.

Section RInterface.

Context {host : Host}.

(** [R_XLEN_T_MAX], from R's headers. *)
Variable R_XLEN_T_MAX : Z.

(** [static_cast<T>(val)] from a double to an integer type: the integer
    part of [val] when it is a value of [T], undefined otherwise. *)
Definition DoubleToInteger (T : IntType) (val : FloatEbmType) : Outcome Z :=
  match DoubleTruncate val with
  | Some t =>
      if (type_lowest T <=? t) && (t <=? type_max T) then Returns t
      else Undefined
  | None => Undefined
  end.

Definition IsSingleDoubleVector (sexp : SEXP) : bool :=
  match sexp with
  | REALSXP items => Z.of_nat (length items) =? 1
  | _ => false
  end.

Definition IsDoubleToIntEbmTypeIndexValid (val : FloatEbmType) : bool :=
  if isnan val then false
  else if SFltb val (S754_zero false) then false
  else if SFltb
            (DoubleMin (DoubleOfInteger size_max)
               (DoubleMin (DoubleOfInteger R_XLEN_T_MAX)
                          (DoubleOfInteger (type_max T_IntEbmType))))
            val
  then false
  else true.

(** The loop of [ConvertDoublesToIndexes] over the doubles still to be
    converted; [Returns None] is its [return true]. *)
Fixpoint ConvertDoublesToIndexes_loop (pOriginal : list FloatEbmType)
  : Outcome (option (list Z)) :=
  match pOriginal with
  | [] => Returns (Some [])
  | val :: rest =>
      if negb (IsDoubleToIntEbmTypeIndexValid val) then Returns None
      else
        match DoubleToInteger T_IntEbmType val with
        | Undefined => Undefined
        | Returns item =>
            match ConvertDoublesToIndexes_loop rest with
            | Undefined => Undefined
            | Returns None => Returns None
            | Returns (Some aItems) => Returns (Some (item :: aItems))
            end
        end
  end.

(** [ConvertDoublesToIndexes]: [Returns None] is its [return true];
    otherwise [*pcItems] and [*pRet], which is [nullptr] when there is no
    item. *)
Definition ConvertDoublesToIndexes (items : SEXP)
  : Outcome (option (Z * option (list Z))) :=
  match items with
  | REALSXP l =>
      let countItemsR := Z.of_nat (length l) in
      if negb (IsNumberConvertable T_size_t T_ptrdiff_t countItemsR)
      then Returns None
      else
        let cItems := wrap countItemsR in
        if negb (IsNumberConvertable T_IntEbmType T_size_t cItems)
        then Returns None
        else if negb (0 =? cItems) then
          match ConvertDoublesToIndexes_loop (take (Z.to_nat cItems) l) with
          | Undefined => Undefined
          | Returns None => Returns None
          | Returns (Some aItems) => Returns (Some (cItems, Some aItems))
          end
        else Returns (Some (cItems, None))
  | _ => Returns None
  end.

(** [cSamplesRequiredForChildSplitMin] as [CalculateInteractionScore_R]
    computes it from the double it is given. *)
Definition SamplesRequiredForChildSplitMin_R
    (doubleCountSamplesRequiredForChildSplitMin : FloatEbmType) : Outcome Z :=
  if isnan doubleCountSamplesRequiredForChildSplitMin
     || SFltb (DoubleOfInteger (type_max T_IntEbmType))
              doubleCountSamplesRequiredForChildSplitMin
  then Returns (type_max T_IntEbmType)
  else if SFltb doubleCountSamplesRequiredForChildSplitMin
                (DoubleOfInteger (type_lowest T_IntEbmType))
  then Returns (type_lowest T_IntEbmType)
  else DoubleToInteger T_IntEbmType doubleCountSamplesRequiredForChildSplitMin.

(** [CalculateInteractionScore_R]: [None] is [R_NilValue], [Some score] the
    real vector holding the score.  [interactionScoreOut] is what the
    uninitialised local of that name holds when the score is asked for.
    A call of [CalculateInteractionScore] that writes past the end of its
    buffer leaves the function without a defined outcome. *)
Definition CalculateInteractionScore_R (h : Heap)
    (ebmInteraction featureIndexes countSamplesRequiredForChildSplitMin : SEXP)
    (interactionScoreOut : FloatEbmType)
  : Outcome (option FloatEbmType * Heap) :=
  match ebmInteraction with
  | EXTPTRSXP pEbmInteraction =>
      match pEbmInteraction with
      | None => Returns (None, h)
      | Some st =>
          match ConvertDoublesToIndexes featureIndexes with
          | Undefined => Undefined
          | Returns None => Returns (None, h)
          | Returns (Some (cFeaturesInGroup, aFeatureIndexes)) =>
              let countFeaturesInGroup := cFeaturesInGroup in
              if negb (IsSingleDoubleVector
                         countSamplesRequiredForChildSplitMin)
              then Returns (None, h)
              else
                match countSamplesRequiredForChildSplitMin with
                | REALSXP (doubleCount :: _) =>
                    match SamplesRequiredForChildSplitMin_R doubleCount with
                    | Undefined => Undefined
                    | Returns cSamplesRequiredForChildSplitMin =>
                        let r :=
                          CalculateInteractionScore h (Some st)
                            countFeaturesInGroup aFeatureIndexes
                            cSamplesRequiredForChildSplitMin
                            (Some interactionScoreOut) in
                        if r_overrun r then Undefined
                        else if negb (0 =? r_status r)
                        then Returns (None, r_heap r)
                        else Returns (r_score r, r_heap r)
                    end
                | _ => Returns (None, h)
                end
          end
      end
  | _ => Returns (None, h)
  end.

End RInterface.

(** * Properties *)

(** ** Floating point: signs and comparisons *)

Lemma binary_round_aux_signed s m e l :
  signed_as s (binary_round_aux prec emax s m e l).
Proof.
  unfold binary_round_aux.
  destruct (shr_fexp prec emax m e l) as [mrs1 e1].
  destruct (shr_fexp prec emax _ e1 loc_Exact) as [mrs2 e2].
  destruct (shr_m mrs2); simpl; trivial.
  destruct (e2 <=? emax - prec); simpl; trivial.
Qed.

Lemma binary_round_signed s m e :
  signed_as s (binary_round prec emax s m e).
Proof.
  unfold binary_round.
  destruct (shl_align m e _) as [mz ez].
  apply binary_round_aux_signed.
Qed.

Lemma FloatOfCount_nonneg c : 0 <= c -> nonneg_or_nan (FloatOfCount c).
Proof.
  intros Hc. unfold FloatOfCount, binary_normalize.
  destruct c as [|p|p]; simpl; trivial.
  - apply (binary_round_signed false).
  - lia.
Qed.

Lemma SFmul_square_nonneg x : nonneg_or_nan (SFmul prec emax x x).
Proof.
  destruct x as [s|s| |s m e]; simpl; trivial;
    try (destruct s; reflexivity).
  replace (xorb s s) with false by (destruct s; reflexivity).
  apply (binary_round_aux_signed false).
Qed.

Lemma SFdiv_nonneg x y :
  nonneg_or_nan x -> nonneg_or_nan y -> nonneg_or_nan (SFdiv prec emax x y).
Proof.
  destruct x as [sx|sx| |sx mx ex], y as [sy|sy| |sy my ey];
    simpl; intros Hx Hy; subst; trivial.
  destruct (SFdiv_core_binary prec emax _ _ _ _) as [[mz ez] lz].
  apply (binary_round_aux_signed false).
Qed.

Lemma SFadd_nonneg x y :
  nonneg_or_nan x -> nonneg_or_nan y -> nonneg_or_nan (SFadd prec emax x y).
Proof.
  destruct x as [sx|sx| |sx mx ex], y as [sy|sy| |sy my ey];
    simpl; intros Hx Hy; subst; trivial; try reflexivity.
  unfold cond_Zopp.
  destruct (shl_align mx ex _) as [ax ?], (shl_align my ey _) as [ay ?].
  change (Z.pos ax + Z.pos ay) with (Z.pos (ax + ay)).
  apply (binary_round_signed false).
Qed.

Lemma SFcompare_Gt_swap x y :
  SFcompare x y = Some Gt -> SFcompare y x = Some Lt.
Proof.
  destruct x as [sx|sx| |sx mx ex], y as [sy|sy| |sy my ey]; simpl;
    try discriminate;
    try (destruct sx; discriminate || reflexivity);
    try (destruct sy; discriminate || reflexivity);
    try (destruct sx, sy; discriminate || reflexivity).
  assert (Hm : Pos.compare_cont Eq my mx = CompOpp (Pos.compare_cont Eq mx my))
    by (rewrite Pos.compare_cont_antisym; reflexivity).
  assert (He : (ey ?= ex) = CompOpp (ex ?= ey)) by apply Z.compare_antisym.
  rewrite Hm, He.
  destruct sx, sy; try discriminate; try reflexivity;
    destruct (ex ?= ey); simpl; try discriminate; try reflexivity;
    destruct (Pos.compare_cont Eq mx my); simpl; try discriminate;
    reflexivity.
Qed.

Lemma FilterScore_below_max x : SFltb (FilterScore x) FloatMax = true.
Proof.
  unfold FilterScore.
  destruct (isnan x) eqn:Hnan; simpl; [reflexivity|].
  destruct (SFleb FloatMax x) eqn:Hle; [reflexivity|].
  unfold SFleb in Hle. unfold SFltb.
  destruct (SFcompare FloatMax x) as [[| |]|] eqn:Hc; try discriminate.
  - now rewrite (SFcompare_Gt_swap _ _ Hc).
  - destruct x; discriminate.
Qed.

Lemma FilterScore_not_nan x : isnan (FilterScore x) = false.
Proof.
  unfold FilterScore.
  destruct (isnan x) eqn:Hnan; simpl; [reflexivity|].
  destruct (SFleb FloatMax x); [reflexivity | exact Hnan].
Qed.

Lemma nonneg_not_nan_ge_zero x :
  nonneg_or_nan x -> isnan x = false -> SFleb FloatZero x = true.
Proof.
  destruct x as [s|s| |s m e]; simpl; intros Hs Hn; subst;
    try reflexivity; discriminate.
Qed.

Lemma FilterScore_nonneg x :
  nonneg_or_nan x -> SFleb FloatZero (FilterScore x) = true.
Proof.
  intros Hx. apply nonneg_not_nan_ge_zero; [|apply FilterScore_not_nan].
  unfold FilterScore.
  destruct (isnan x || SFleb FloatMax x); [reflexivity | exact Hx].
Qed.

(** ** The engine on any host whose [size_t] is 32 or 64 bits wide *)

Section Facts.

Context {host : Host}.
Hypothesis Hbits : size_t_bits = 32 \/ size_t_bits = 64.

Lemma size_modulus_cases :
  size_modulus = 2 ^ 32 \/ size_modulus = 2 ^ 64.
Proof. unfold size_modulus. destruct Hbits as [-> | ->]; auto. Qed.

Lemma size_modulus_large : 2 ^ 32 <= size_modulus.
Proof. destruct size_modulus_cases as [-> | ->]; lia. Qed.

Lemma wrap_small x : 0 <= x < size_modulus -> wrap x = x.
Proof. intros. unfold wrap. apply Z.mod_small. assumption. Qed.

Lemma wrap_range x : 0 <= wrap x < size_modulus.
Proof.
  unfold wrap. apply Z.mod_pos_bound.
  pose proof size_modulus_large. lia.
Qed.

Lemma CountBitsRequired_ones (n : nat) :
  forall fuel : nat,
    (n < fuel)%nat -> Z.of_nat n < size_modulus ->
    CountBitsRequired fuel (2 ^ Z.of_nat n - 1) = Z.of_nat n.
Proof.
  induction n as [|n IH]; intros fuel Hfuel Hsmall.
  - destruct fuel; [lia|]. reflexivity.
  - destruct fuel as [|fuel]; [lia|].
    cbn [CountBitsRequired].
    rewrite Nat2Z.inj_succ, Z.pow_succ_r by lia.
    assert (Hpow : 0 < 2 ^ Z.of_nat n) by (apply Z.pow_pos_nonneg; lia).
    destruct (Z.eqb_spec 0 (2 * 2 ^ Z.of_nat n - 1)); [lia|].
    replace ((2 * 2 ^ Z.of_nat n - 1) / 2) with (2 ^ Z.of_nat n - 1)
      by (apply Z.div_unique with (r := 1); lia).
    rewrite IH by lia. rewrite wrap_small; lia.
Qed.

Lemma k_cBitsForSizeT_eq : k_cBitsForSizeT = size_t_bits.
Proof.
  unfold k_cBitsForSizeT, size_max, size_modulus.
  assert (Hpos : 0 <= size_t_bits) by (destruct Hbits; lia).
  rewrite <- (Z2Nat.id size_t_bits) at 2 3 by assumption.
  apply CountBitsRequired_ones; [lia|].
  rewrite Z2Nat.id by assumption.
  pose proof size_modulus_large. destruct Hbits as [Hb | Hb]; rewrite Hb; lia.
Qed.

Lemma k_cDimensionsMax_eq : k_cDimensionsMax = size_t_bits - 1.
Proof. unfold k_cDimensionsMax. now rewrite k_cBitsForSizeT_eq. Qed.

Lemma IsNumberConvertable_size_t x :
  IsNumberConvertable T_size_t T_IntEbmType x = true <-> 0 <= x <= size_max.
Proof.
  unfold IsNumberConvertable. simpl.
  rewrite andb_true_iff, !Z.leb_le. tauto.
Qed.

(** [IsMultiplyError] never misses an overflow. *)
Lemma IsMultiplyError_false num1 num2 :
  0 <= num1 < size_modulus ->
  IsMultiplyError num1 num2 = false ->
  num1 * num2 <= size_modulus - num1 \/ num1 = 0.
Proof.
  intros Hn Herr. unfold IsMultiplyError in Herr.
  destruct (0 =? num1) eqn:Hz; [right; lia|]. left.
  apply Z.eqb_neq in Hz. simpl in Herr. apply Z.ltb_ge in Herr.
  unfold size_max in Herr.
  rewrite (wrap_small (size_modulus - 1 - num1)) in Herr by lia.
  rewrite wrap_small in Herr by lia.
  replace (size_modulus - 1 - num1 + 1) with (size_modulus - num1) in Herr
    by lia.
  pose proof (Z.mul_div_le (size_modulus - num1) num1 ltac:(lia)).
  nia.
Qed.

Lemma IsMultiplyError_overflow num1 num2 :
  0 <= num1 < size_modulus ->
  size_modulus <= num1 * num2 ->
  IsMultiplyError num1 num2 = true.
Proof.
  intros Hn Hov.
  destruct (IsMultiplyError num1 num2) eqn:Herr; [reflexivity|].
  pose proof size_modulus_large.
  assert (num1 = 0) as -> by (destruct (IsMultiplyError_false _ _ Hn Herr); lia).
  lia.
Qed.

Lemma IsAddError_overflow num1 num2 :
  0 <= num1 < size_modulus -> 0 <= num2 < size_modulus ->
  size_modulus <= num1 + num2 ->
  IsAddError num1 num2 = true.
Proof.
  intros H1 H2 Hov. unfold IsAddError, wrap. apply Z.ltb_lt.
  replace (num1 + num2) with ((num1 + num2 - size_modulus) + 1 * size_modulus)
    by lia.
  rewrite Z.mod_add by lia. rewrite Z.mod_small; lia.
Qed.

Lemma IsAddError_false num1 num2 :
  0 <= num1 < size_modulus -> 0 <= num2 < size_modulus ->
  IsAddError num1 num2 = false ->
  num1 + num2 < size_modulus.
Proof.
  intros H1 H2 Herr.
  destruct (Z_lt_dec (num1 + num2) size_modulus) as [|Hge]; [assumption|].
  rewrite IsAddError_overflow in Herr by lia. discriminate.
Qed.

(** *** Sizing *)

Lemma Forall_bins (entries : list Feature) :
  Forall (fun b => 2 <= b) (map GetCountBins entries) ->
  Forall (fun f => 2 <= GetCountBins f) entries.
Proof.
  induction entries as [|e rest IH]; cbn; intros H; constructor;
    inversion H; subst; auto.
Qed.

Lemma SizeTensor_Some entries :
  forall aux total a t,
    Forall (fun f => 2 <= GetCountBins f) entries ->
    1 <= total < size_modulus -> 0 <= aux < total ->
    SizeTensor entries aux total = Some (a, t) ->
    t = total * TensorProduct (map GetCountBins entries) /\
    a = aux + total * PartialProducts (map GetCountBins entries) /\
    1 <= t < size_modulus /\ 0 <= a < t.
Proof.
  induction entries as [|e rest IH]; intros aux total a t Hbins Ht Ha Hsz.
  - simpl in *. inversion Hsz; subst. lia.
  - simpl in Hsz. inversion Hbins as [|? ? Hb Hrest]; subst.
    destruct (IsMultiplyError total (GetCountBins e)) eqn:Herr;
      [discriminate|].
    apply IsMultiplyError_false in Herr; [|lia].
    destruct Herr as [Herr | ?]; [|lia].
    assert (Hprod : 2 * total <= total * GetCountBins e) by nia.
    rewrite (wrap_small (aux + total)) in Hsz by lia.
    rewrite (wrap_small (total * GetCountBins e)) in Hsz by lia.
    apply IH in Hsz; [|assumption|lia|lia].
    destruct Hsz as (-> & -> & Hrange & Haux).
    simpl. repeat split; lia.
Qed.

Lemma SizeTensor_overflow entries :
  Forall (fun f => 2 <= GetCountBins f) entries ->
  size_modulus <= TensorProduct (map GetCountBins entries) ->
  SizeTensor entries 0 1 = None.
Proof.
  intros Hbins Hov.
  destruct (SizeTensor entries 0 1) as [[a t]|] eqn:Hsz; [|reflexivity].
  pose proof size_modulus_large.
  apply SizeTensor_Some in Hsz; [|assumption|lia|lia]. lia.
Qed.

(** What [InteractionBufferSizes] returns when it returns. *)
Lemma InteractionBufferSizes_Some classes g sz :
  let cBins :=
    map GetCountBins
        (take (Z.to_nat (GetCountFeatures g)) (GetFeatureGroupEntries g)) in
  let bytes :=
    GetHistogramBucketSize (IsClassification classes)
                           (GetVectorLength classes) in
  Forall (fun b => 2 <= b) cBins ->
  InteractionBufferSizes classes g = Some sz ->
  cTotalBucketsMainSpace sz = TensorProduct cBins /\
  cAuxillaryBuckets sz = Z.max 4 (PartialProducts cBins) /\
  cTotalBuckets sz = TensorProduct cBins + Z.max 4 (PartialProducts cBins) /\
  cTotalBuckets sz < size_modulus /\
  cBytesPerHistogramBucket sz = bytes /\
  cVectorLength sz = GetVectorLength classes /\
  cBytesBuffer sz = wrap (cTotalBuckets sz * bytes) /\
  (0 <= bytes -> cBytesBuffer sz = cTotalBuckets sz * bytes).
Proof.
  intros cBins bytes Hbins Hsz. unfold InteractionBufferSizes in Hsz.
  pose proof size_modulus_large as Hlarge.
  destruct (SizeTensor _ 0 1) as [[a t]|] eqn:Hloop; [|discriminate].
  apply SizeTensor_Some in Hloop; [|apply Forall_bins; exact Hbins|lia|lia].
  fold cBins in Hloop. destruct Hloop as (Ht & Ha & Htr & Har).
  set (cAux := if a <? 4 then 4 else a) in Hsz.
  assert (HcAux : cAux = Z.max 4 (PartialProducts cBins)).
  { unfold cAux. destruct (Z.ltb_spec a 4); lia. }
  destruct (IsAddError t cAux) eqn:Hadd; [discriminate|].
  apply IsAddError_false in Hadd; [|lia|lia].
  destruct (GetHistogramBucketSizeOverflow _ _); [discriminate|].
  fold bytes in Hsz.
  destruct (IsMultiplyError (wrap (t + cAux)) bytes) eqn:Hmul;
    [discriminate|].
  inversion Hsz; subst sz; clear Hsz; simpl.
  rewrite (wrap_small (t + cAux)) in * by lia.
  repeat split; try lia.
  intros Hbytes.
  apply IsMultiplyError_false in Hmul; [|lia].
  apply wrap_small. nia.
Qed.

(** Every overflow of the sizing computations is caught. *)
Lemma InteractionBufferSizes_overflow classes g :
  let cBins :=
    map GetCountBins
        (take (Z.to_nat (GetCountFeatures g)) (GetFeatureGroupEntries g)) in
  let bytes :=
    GetHistogramBucketSize (IsClassification classes)
                           (GetVectorLength classes) in
  let cAux := Z.max 4 (PartialProducts cBins) in
  Forall (fun b => 2 <= b) cBins ->
  size_modulus <= TensorProduct cBins \/
  size_modulus <= TensorProduct cBins + cAux \/
  size_modulus <= (TensorProduct cBins + cAux) * bytes ->
  InteractionBufferSizes classes g = None.
Proof.
  intros cBins bytes cAux Hbins Hov.
  destruct (InteractionBufferSizes classes g) as [sz|] eqn:Hsz;
    [|reflexivity].
  exfalso.
  pose proof Hsz as Hsz'. unfold InteractionBufferSizes in Hsz'.
  pose proof size_modulus_large as Hlarge.
  destruct (SizeTensor _ 0 1) as [[a t]|] eqn:Hloop; [|discriminate].
  apply SizeTensor_Some in Hloop; [|apply Forall_bins; exact Hbins|lia|lia].
  fold cBins in Hloop. destruct Hloop as (Ht & Ha & Htr & Har).
  set (cAux' := if a <? 4 then 4 else a) in Hsz'.
  assert (HcAux : cAux' = cAux).
  { unfold cAux', cAux. destruct (Z.ltb_spec a 4); lia. }
  destruct (IsAddError t cAux') eqn:Hadd; [discriminate|].
  apply IsAddError_false in Hadd; [|lia|lia].
  destruct (GetHistogramBucketSizeOverflow _ _); [discriminate|].
  fold bytes in Hsz'.
  destruct (IsMultiplyError (wrap (t + cAux')) bytes) eqn:Hmul;
    [discriminate|].
  rewrite (wrap_small (t + cAux')) in Hmul by lia.
  apply IsMultiplyError_false in Hmul; [|lia].
  destruct Hov as [Hov | [Hov | Hov]]; nia.
Qed.

(** *** The checks on the group *)

Lemma CheckFeatureIndexes_step st i rest :
  m_cFeatures st <= size_modulus -> valid_index st i ->
  CheckFeatureIndexes st (i :: rest) =
    if GetCountBins (m_aFeatures st !!! Z.to_nat i) <=? 1
    then GroupDegenerate else CheckFeatureIndexes st rest.
Proof.
  intros Hcf [Hlo Hhi]. simpl.
  destruct (Z.ltb_spec i 0); [lia|].
  assert (Hconv : IsNumberConvertable T_size_t T_IntEbmType i = true).
  { apply IsNumberConvertable_size_t. unfold size_max. lia. }
  rewrite Hconv. simpl.
  rewrite wrap_small by lia.
  destruct (Z.leb_spec (m_cFeatures st) i); [lia|reflexivity].
Qed.

Lemma CheckFeatureIndexes_degenerate st indexes :
  m_cFeatures st <= size_modulus ->
  Forall (valid_index st) indexes ->
  Exists (fun b => b <= 1) (GroupBins st indexes) ->
  CheckFeatureIndexes st indexes = GroupDegenerate.
Proof.
  intros Hcf Hvalid. induction Hvalid as [|i rest Hi Hrest IH]; intros Hex.
  - inversion Hex.
  - rewrite CheckFeatureIndexes_step by assumption.
    destruct (Z.leb_spec (GetCountBins (m_aFeatures st !!! Z.to_nat i)) 1)
      as [|Hgt]; [reflexivity|].
    apply IH. simpl in Hex. inversion Hex; subst; [lia|assumption].
Qed.

Lemma CheckFeatureIndexes_checked st indexes :
  m_cFeatures st <= size_modulus ->
  Forall (valid_index st) indexes ->
  Forall (fun b => 2 <= b) (GroupBins st indexes) ->
  CheckFeatureIndexes st indexes = GroupChecked.
Proof.
  intros Hcf Hvalid. induction Hvalid as [|i rest Hi Hrest IH]; intros Hb.
  - reflexivity.
  - rewrite CheckFeatureIndexes_step by assumption.
    simpl in Hb. inversion Hb; subst.
    destruct (Z.leb_spec (GetCountBins (m_aFeatures st !!! Z.to_nat i)) 1);
      [lia|]. now apply IH.
Qed.

Lemma CheckFeatureIndexes_valid st indexes :
  m_cFeatures st <= size_modulus ->
  Forall (valid_index st) indexes ->
  CheckFeatureIndexes st indexes <> GroupInvalid.
Proof.
  intros Hcf Hvalid. induction Hvalid as [|i rest Hi Hrest IH].
  - discriminate.
  - rewrite CheckFeatureIndexes_step by assumption.
    destruct (_ <=? 1); [discriminate|assumption].
Qed.

(** A group that passes the first loop has at least two bins on every
    axis. *)
Lemma CheckFeatureIndexes_bins st indexes :
  CheckFeatureIndexes st indexes = GroupChecked ->
  Forall (fun f => 2 <= GetCountBins f)
         (fg_entries (BuildFeatureGroup st (Z.of_nat (length indexes))
                                        indexes)).
Proof.
  simpl. induction indexes as [|i rest IH]; intros Hc; simpl.
  - constructor.
  - simpl in Hc.
    destruct (i <? 0); [discriminate|].
    destruct (negb _); [discriminate|].
    destruct (_ <=? wrap i); [discriminate|].
    destruct (Z.leb_spec (GetCountBins (m_aFeatures st !!! Z.to_nat (wrap i)))
                         1); [discriminate|].
    constructor; [lia|]. apply IH; assumption.
Qed.

(** *** The sweep never returns a negative score *)

Lemma fold_left_preserves {A B : Type} (P : A -> Prop) (f : A -> B -> A)
    (l : list B) :
  (forall a x, P a -> In x l -> P (f a x)) ->
  forall a, P a -> P (fold_left f l a).
Proof.
  induction l as [|x l IH]; intros Hf a Ha; simpl; [assumption|].
  apply IH.
  - intros a' y Ha' Hy. apply Hf; [assumption | now right].
  - apply Hf; [assumption | now left].
Qed.

Lemma ComputeNodeSplittingScore_nonneg sumResidualError c :
  0 <= c ->
  nonneg_or_nan (ComputeNodeSplittingScore sumResidualError (FloatOfCount c)).
Proof.
  intros Hc. unfold ComputeNodeSplittingScore.
  apply SFdiv_nonneg; [apply SFmul_square_nonneg|].
  now apply FloatOfCount_nonneg.
Qed.

Lemma SplittingScore_nonneg cVector qLL qLH qHL qHH :
  0 <= GetCountSamplesInBucket qLL -> 0 <= GetCountSamplesInBucket qLH ->
  0 <= GetCountSamplesInBucket qHL -> 0 <= GetCountSamplesInBucket qHH ->
  nonneg_or_nan (SplittingScore cVector qLL qLH qHL qHH).
Proof.
  intros H1 H2 H3 H4. unfold SplittingScore.
  apply fold_left_preserves; [|reflexivity].
  intros score iVector Hscore _. cbv zeta.
  repeat (apply SFadd_nonneg;
          [|now apply ComputeNodeSplittingScore_nonneg]).
  exact Hscore.
Qed.

Lemma SweepCut_nonneg lt g cMin pAux iBin1 iBin2 state :
  0 <= cMin ->
  nonneg_or_nan (fst state) ->
  nonneg_or_nan (fst (SweepCut lt g cMin pAux iBin1 iBin2 state)).
Proof.
  intros HcMin Hbest. destruct state as [best a0]. cbn [fst] in Hbest.
  unfold SweepCut. cbv zeta.
  destruct (Z.leb_spec cMin (GetCountSamplesInBucket
              (TensorTotalsSum lt g a0 [iBin1; iBin2] 0))) as [H1|];
    [|exact Hbest].
  match goal with
  | |- context [TensorTotalsSum lt g ?a [iBin1; iBin2] 2] =>
      destruct (Z.leb_spec cMin (GetCountSamplesInBucket
                  (TensorTotalsSum lt g a [iBin1; iBin2] 2))) as [H2|];
      [|exact Hbest]
  end.
  match goal with
  | |- context [TensorTotalsSum lt g ?a [iBin1; iBin2] 1] =>
      destruct (Z.leb_spec cMin (GetCountSamplesInBucket
                  (TensorTotalsSum lt g a [iBin1; iBin2] 1))) as [H3|];
      [|exact Hbest]
  end.
  match goal with
  | |- context [TensorTotalsSum lt g ?a [iBin1; iBin2] 3] =>
      destruct (Z.leb_spec cMin (GetCountSamplesInBucket
                  (TensorTotalsSum lt g a [iBin1; iBin2] 3))) as [H4|];
      [|exact Hbest]
  end.
  cbn [fst].
  destruct (negb (SFleb _ best)); [|exact Hbest].
  apply SplittingScore_nonneg; lia.
Qed.

Lemma FindBestInteractionGainPairsInternal_Func_nonneg
    compiler st g cMin pAux a :
  0 <= cMin ->
  nonneg_or_nan
    (FindBestInteractionGainPairsInternal_Func compiler st g cMin pAux a).
Proof.
  intros HcMin. unfold FindBestInteractionGainPairsInternal_Func. cbv zeta.
  apply (fold_left_preserves (fun s => nonneg_or_nan (fst s)));
    [|reflexivity].
  intros state iBin1 Hstate _.
  apply (fold_left_preserves (fun s => nonneg_or_nan (fst s)));
    [|assumption].
  intros state' iBin2 Hstate' _.
  now apply SweepCut_nonneg.
Qed.

Lemma FindBestInteractionGainPairsTarget_nonneg
    cLeft possible st g cMin pAux a :
  0 <= cMin ->
  nonneg_or_nan
    (FindBestInteractionGainPairsTarget cLeft possible st g cMin pAux a).
Proof.
  intros HcMin. revert possible.
  induction cLeft as [|cLeft IH]; intros possible;
    cbn [FindBestInteractionGainPairsTarget].
  - now apply FindBestInteractionGainPairsInternal_Func_nonneg.
  - destruct (possible =? _); [|apply IH].
    now apply FindBestInteractionGainPairsInternal_Func_nonneg.
Qed.

Lemma FindBestInteractionGainPairs_nonneg st g cMin pAux totals :
  0 <= cMin ->
  nonneg_or_nan (FindBestInteractionGainPairs st g cMin pAux totals).
Proof.
  intros HcMin. unfold FindBestInteractionGainPairs. cbv zeta.
  destruct (IsClassification _).
  - now apply FindBestInteractionGainPairsTarget_nonneg.
  - now apply FindBestInteractionGainPairsInternal_Func_nonneg.
Qed.

Lemma SamplesRequiredForChildSplitMin_pos c :
  1 <= SamplesRequiredForChildSplitMin c.
Proof.
  unfold SamplesRequiredForChildSplitMin.
  pose proof size_modulus_large.
  destruct (Z.leb_spec 1 c); [|lia].
  destruct (IsNumberConvertable T_size_t T_IntEbmType c) eqn:Hconv; simpl.
  - apply IsNumberConvertable_size_t in Hconv. unfold size_max in Hconv.
    rewrite wrap_small; lia.
  - unfold size_max. lia.
Qed.

Lemma FilterScore_zero : FilterScore FloatZero = FloatZero.
Proof. reflexivity. Qed.

(** *** The heap *)

Lemma malloc_fresh n h p h' :
  heap_wf h -> malloc n h = (p, h') ->
  heap_wf h' /\
  ((p = nullptr /\ h_live h' = h_live h) \/
   (p <> nullptr /\ h_live h !! p = None /\
    h_live h' = <[p := n]> (h_live h))).
Proof.
  intros [Hpos Hlive] Hm. unfold malloc in Hm.
  destruct (malloc_succeeds h n); inversion Hm; subst; clear Hm;
    unfold heap_wf; simpl.
  - split; [split|].
    + lia.
    + intros p [v Hp]. destruct (decide (h_next h = p)) as [->|Hne]; [lia|].
      rewrite lookup_insert_ne in Hp by assumption.
      specialize (Hlive p (ex_intro _ v Hp)). lia.
    + right. repeat split.
      * unfold nullptr. lia.
      * destruct (h_live h !! h_next h) eqn:Hl; [|exact Hl].
        specialize (Hlive (h_next h) (ex_intro _ _ Hl)). lia.
  - split; [split; assumption|]. left. split; reflexivity.
Qed.

Lemma free_wf p h : heap_wf h -> heap_wf (free p h).
Proof.
  intros [Hpos Hlive]. split; simpl; [assumption|].
  intros q Hq. apply Hlive.
  destruct (Nat.eqb p nullptr); [assumption|].
  destruct (decide (p = q)) as [->|Hne].
  - rewrite lookup_delete_eq in Hq. destruct Hq; discriminate.
  - rewrite lookup_delete_ne in Hq; assumption.
Qed.

Lemma free_nullptr_live h : h_live (free nullptr h) = h_live h.
Proof. reflexivity. Qed.

Lemma free_malloc_live p n live h :
  p <> nullptr -> live !! p = None -> h_live h = <[p := n]> live ->
  h_live (free p h) = live.
Proof.
  intros Hp Hnone Hl. unfold free. simpl.
  destruct (Nat.eqb_spec p nullptr); [contradiction|].
  rewrite Hl. now apply delete_insert_id.
Qed.

(** *** The arena *)

Lemma EbmMalloc_bytes n h : EbmMalloc 1 n h = malloc n h.
Proof. reflexivity. Qed.

Lemma GetThreadByteBuffer1_fits res n h :
  n <= m_cThreadByteBufferCapacity1 res ->
  GetThreadByteBuffer1 res n h = (m_aThreadByteBuffer1 res, res, h).
Proof.
  intros Hn. unfold GetThreadByteBuffer1.
  destruct (Z.ltb_spec (m_cThreadByteBufferCapacity1 res) n); [lia|].
  reflexivity.
Qed.

Lemma GetThreadByteBuffer1_grows res n h :
  m_cThreadByteBufferCapacity1 res < n ->
  0 <= n -> 2 * n < size_modulus ->
  exists p h',
    GetThreadByteBuffer1 res n h =
      (p, {| m_aThreadByteBuffer1 := p;
             m_cThreadByteBufferCapacity1 := 2 * n |}, h') /\
    malloc (2 * n) (free (m_aThreadByteBuffer1 res) h) = (p, h').
Proof.
  intros Hcap Hn Hsmall. unfold GetThreadByteBuffer1.
  destruct (Z.ltb_spec (m_cThreadByteBufferCapacity1 res) n); [|lia].
  rewrite Z.shiftl_mul_pow2 by lia.
  replace (n * 2 ^ 1) with (2 * n) by lia.
  rewrite wrap_small by lia.
  rewrite EbmMalloc_bytes.
  destruct (malloc (2 * n) (free (m_aThreadByteBuffer1 res) h))
    as [p h'] eqn:Hm.
  exists p, h'. split; reflexivity.
Qed.

(** The doubling is done on [size_t]: at half the range it wraps to 0. *)
Lemma GetThreadByteBuffer1_half_range res h :
  m_cThreadByteBufferCapacity1 res < 2 ^ (size_t_bits - 1) ->
  m_cThreadByteBufferCapacity1
    (snd (fst (GetThreadByteBuffer1 res (2 ^ (size_t_bits - 1)) h))) = 0.
Proof.
  intros Hcap. unfold GetThreadByteBuffer1.
  destruct (Z.ltb_spec (m_cThreadByteBufferCapacity1 res)
                       (2 ^ (size_t_bits - 1))); [|lia].
  rewrite EbmMalloc_bytes.
  destruct (malloc _ _) as [p h2]. cbn [fst snd m_cThreadByteBufferCapacity1].
  unfold wrap, size_modulus.
  destruct Hbits as [Hb | Hb]; rewrite Hb; reflexivity.
Qed.

Lemma GetThreadByteBuffer1_no_dangling res n h p res' h' :
  heap_wf h ->
  GetThreadByteBuffer1 res n h = (p, res', h') ->
  no_dangling h res ->
  heap_wf h' /\ no_dangling h' res' /\ m_aThreadByteBuffer1 res' = p.
Proof.
  intros Hwf Hget Hnd. unfold GetThreadByteBuffer1 in Hget.
  destruct (m_cThreadByteBufferCapacity1 res <? n).
  - rewrite EbmMalloc_bytes in Hget.
    destruct (malloc _ _) as [q h2] eqn:Hm.
    inversion Hget; subst; clear Hget.
    apply malloc_fresh in Hm; [|now apply free_wf].
    destruct Hm as [Hwf' [[-> Hl] | (Hq & Hnone & Hl)]].
    + split; [assumption|]. split; [|reflexivity]. now left.
    + split; [assumption|]. split; [|reflexivity]. right. simpl.
      rewrite Hl, lookup_insert_eq. eauto.
  - inversion Hget; subst. split; [assumption|]. split; [assumption|].
    reflexivity.
Qed.

(** The heap traffic of the core when it starts from an empty arena. *)
Lemma Internal_heap h st g cMin out :
  heap_wf h ->
  forall ir,
    ir = CalculateInteractionScoreInternal InitializeZero h st g cMin out ->
    heap_wf (ir_heap ir) /\
    ((m_aThreadByteBuffer1 (ir_resources ir) = nullptr /\
      h_live (ir_heap ir) = h_live h) \/
     (exists n,
         m_aThreadByteBuffer1 (ir_resources ir) <> nullptr /\
         h_live h !! m_aThreadByteBuffer1 (ir_resources ir) = None /\
         h_live (ir_heap ir)
         = <[m_aThreadByteBuffer1 (ir_resources ir) := n]> (h_live h))).
Proof.
  intros Hwf ir ->. unfold CalculateInteractionScoreInternal.
  destruct (InteractionBufferSizes _ g) as [sz|];
    [|split; [assumption|now left]].
  unfold GetThreadByteBuffer1.
  cbn [m_cThreadByteBufferCapacity1 m_aThreadByteBuffer1 InitializeZero].
  destruct (0 <? cBytesBuffer sz); [|split; [assumption|now left]].
  rewrite EbmMalloc_bytes.
  destruct (malloc _ _) as [q h2] eqn:Hm.
  apply malloc_fresh in Hm; [|now apply free_wf].
  destruct Hm as [Hwf2 [[-> Hl] | (Hq & Hnone & Hl)]]; cbv beta iota zeta.
  - cbn. split; [assumption|]. left. split; [reflexivity|].
    rewrite Hl. reflexivity.
  - destruct (Nat.eqb_spec q nullptr) as [|_]; [contradiction|].
    assert (Hright :
      exists n, q <> nullptr /\ h_live h !! q = None /\
                h_live h2 = <[q := n]> (h_live h)).
    { exists (wrap (Z.shiftl (cBytesBuffer sz) 1)).
      split; [assumption|]. split; [exact Hnone|]. rewrite Hl. reflexivity. }
    destruct (2 =? GetCountFeatures g); cbn;
      (split; [assumption|right; exact Hright]).
Qed.

(** *** The shape of a successful call *)

(** [take_exit exit] splits on the outermost conditional of the goal and closes
    its first branch, an exit of the function at hand, with [exit]. *)
Ltac take_exit exit :=
  lazymatch goal with
  | |- context [if ?b then _ else _] => destruct b; [solve [exit]|]
  end.

(** [down_to_core exit] walks [CalculateInteractionScore] from its entry to
    the call of the core, closing every exit on the way with [exit]. *)
Ltac down_to_core exit :=
  unfold CalculateInteractionScore;
  lazymatch goal with
  | |- context [match ?ctx with Some _ => _ | None => _ end] =>
      destruct ctx as [?st|]; [|solve [exit]]
  end;
  do 5 take_exit exit;
  lazymatch goal with
  | |- context [CheckFeatureIndexes ?st ?l] =>
      destruct (CheckFeatureIndexes st l); [solve [exit]|solve [exit]|]
  end;
  do 2 take_exit exit;
  lazymatch goal with
  | |- context [CachedInteractionThreadResources_Allocate ?h] =>
      destruct (CachedInteractionThreadResources_Allocate h)
        as [[?pc ?res] ?h1]
  end;
  take_exit exit.

Lemma Internal_score res h st g cMin out :
  0 <= cMin ->
  let ir := CalculateInteractionScoreInternal res h st g cMin out in
  ir_error ir = false ->
  exists best,
    nonneg_or_nan best /\ ir_score ir = StoreScore out (FilterScore best).
Proof.
  intros HcMin. unfold CalculateInteractionScoreInternal.
  destruct (InteractionBufferSizes _ g) as [sz|];
    [|cbn; intros; discriminate].
  destruct (GetThreadByteBuffer1 res (cBytesBuffer sz) h) as [[p res1] h1].
  destruct (Nat.eqb p nullptr); [cbn; intros; discriminate|].
  destruct (2 =? GetCountFeatures g); cbn; intros _.
  - eexists. split; [|reflexivity].
    now apply FindBestInteractionGainPairs_nonneg.
  - exists FloatZero. split; reflexivity.
Qed.

Lemma CalculateInteractionScore_score h ctx count idxs cmin out :
  let r := CalculateInteractionScore h ctx count idxs cmin out in
  r_status r = 0 ->
  exists best,
    nonneg_or_nan best /\ r_score r = StoreScore out (FilterScore best).
Proof.
  assert (Hzero : exists best, nonneg_or_nan best /\
            StoreScore out FloatZero = StoreScore out (FilterScore best))
    by (exists FloatZero; split; reflexivity).
  down_to_core ltac:(cbn; intros; first [discriminate | exact Hzero]).
  cbn [r_status r_score].
  destruct (ir_error _) eqn:Herr; [intros; discriminate|]. intros _.
  eapply Internal_score; [|exact Herr].
  pose proof (SamplesRequiredForChildSplitMin_pos cmin). lia.
Qed.

(** C1. Every call that returns status 0 and is given a non-null
    [interactionScoreOut] writes a score that is at least zero, is not a
    NaN and is strictly below the largest finite value; for a pair the
    core writes the best score of [FindBestInteractionGainPairs], run on
    the totals of the binned tensor, through [FilterScore], which turns a
    NaN or a score at or above the largest finite value into zero. *)
Theorem score_written_is_nonnegative_and_finite
    h ctx count idxs cmin (old : FloatEbmType) :
  let r := CalculateInteractionScore h ctx count idxs cmin (Some old) in
  r_status r = 0 ->
  (exists s, r_score r = Some s /\ SFleb FloatZero s = true /\
             isnan s = false /\ SFltb s FloatMax = true) /\
  (forall res h' st g c,
      ir_error (CalculateInteractionScoreInternal res h' st g c (Some old))
        = false ->
      GetCountFeatures g = 2 ->
      exists sz,
        InteractionBufferSizes
          (m_runtimeLearningTypeOrCountTargetClasses st) g = Some sz /\
        ir_score (CalculateInteractionScoreInternal res h' st g c (Some old))
        = Some
            (FilterScore
               (FindBestInteractionGainPairs st g c
                  (cTotalBucketsMainSpace sz)
                  (TensorTotalsBuild
                     (m_runtimeLearningTypeOrCountTargetClasses st) g
                     (cTotalBucketsMainSpace sz)
                     (BinInteraction st g
                        (repeat (ZeroBucket (cVectorLength sz))
                                (Z.to_nat (cTotalBuckets sz)))))))) /\
  (forall best,
      isnan best = true \/ SFleb FloatMax best = true ->
      FilterScore best = FloatZero).
Proof.
  intros r Hstatus. split; [|split].
  - destruct (CalculateInteractionScore_score h ctx count idxs cmin (Some old)
                Hstatus) as (best & Hbest & Hscore).
    exists (FilterScore best). fold r in Hscore. cbn in Hscore.
    repeat split.
    + exact Hscore.
    + now apply FilterScore_nonneg.
    + apply FilterScore_not_nan.
    + apply FilterScore_below_max.
  - intros res h' st g c. unfold CalculateInteractionScoreInternal.
    destruct (InteractionBufferSizes _ g) as [sz|];
      [|cbn; intros; discriminate].
    destruct (GetThreadByteBuffer1 res (cBytesBuffer sz) h') as [[p res1] h1].
    destruct (Nat.eqb p nullptr); [cbn; intros; discriminate|].
    intros Herr Hdim. rewrite Hdim. cbn. exists sz. split; reflexivity.
  - intros best Hbest. unfold FilterScore.
    destruct Hbest as [-> | ->]; [reflexivity|].
    now rewrite orb_true_r.
Qed.

(** *** Entering the call *)

Lemma call_guards (idxs : list Z) :
  idxs <> [] -> Z.of_nat (length idxs) <= size_max ->
  let count := Z.of_nat (length idxs) in
  (count <? 0) = false /\
  negb (0 =? count) && bool_decide (Some idxs = None) = false /\
  negb (IsNumberConvertable T_size_t T_IntEbmType count) = false /\
  wrap count = count /\
  (0 =? count) = false /\
  take (Z.to_nat count) idxs = idxs.
Proof.
  intros Hne Hlen count.
  assert (Hpos : 1 <= count).
  { unfold count. destruct idxs; [contradiction|]. simpl length. lia. }
  assert (Hconv : IsNumberConvertable T_size_t T_IntEbmType count = true)
    by (apply IsNumberConvertable_size_t; lia).
  repeat split.
  - apply Z.ltb_ge. lia.
  - rewrite bool_decide_eq_false_2 by discriminate. apply andb_false_r.
  - now rewrite Hconv.
  - apply wrap_small. unfold size_max in Hlen. lia.
  - apply Z.eqb_neq. lia.
  - apply take_ge. unfold count. rewrite Nat2Z.id. lia.
Qed.

Lemma GroupBins_wrap st idxs :
  m_cFeatures st <= size_modulus ->
  Forall (valid_index st) idxs ->
  map GetCountBins
      (map (fun i => m_aFeatures st !!! Z.to_nat (wrap i)) idxs)
  = GroupBins st idxs.
Proof.
  intros Hcf Hvalid. unfold GroupBins. rewrite map_map.
  apply map_ext_in. intros i Hi.
  rewrite Forall_forall in Hvalid.
  specialize (Hvalid i (proj2 (list_elem_of_In _ _) Hi)).
  unfold valid_index in Hvalid. rewrite wrap_small by lia. reflexivity.
Qed.

Lemma BuildFeatureGroup_bins st idxs :
  m_cFeatures st <= size_modulus ->
  Forall (valid_index st) idxs ->
  let g := BuildFeatureGroup st (Z.of_nat (length idxs)) idxs in
  map GetCountBins
      (take (Z.to_nat (GetCountFeatures g)) (GetFeatureGroupEntries g))
  = GroupBins st idxs.
Proof.
  intros Hcf Hvalid. cbn.
  rewrite take_ge by (rewrite length_map, Nat2Z.id; lia).
  now apply GroupBins_wrap.
Qed.

(** C6. A group whose indexes are all in range and which contains a
    feature with at most one bin makes the call return status 0 and write
    exactly zero to a non-null [interactionScoreOut]; the call stops
    before any buffer is requested or any histogram is built, and leaves
    the heap as it found it. *)
Theorem degenerate_feature_scores_zero h st idxs cmin out :
  m_cFeatures st <= size_modulus ->
  Z.of_nat (length idxs) <= size_max ->
  Forall (valid_index st) idxs ->
  Exists (fun b => b <= 1) (GroupBins st idxs) ->
  let r :=
    CalculateInteractionScore h (Some st) (Z.of_nat (length idxs))
                              (Some idxs) cmin out in
  r_status r = 0 /\ r_score r = StoreScore out FloatZero /\
  r_stages r = [] /\ r_heap r = h.
Proof.
  intros Hcf Hlen Hvalid Hex.
  assert (Hne : idxs <> []) by (intros ->; inversion Hex).
  destruct (call_guards idxs Hne Hlen) as (G1 & G2 & G3 & G4 & G5 & G6).
  unfold CalculateInteractionScore.
  rewrite G1, G2, G3, G4, G5. cbn [default from_option id]. rewrite G6.
  destruct (0 =? GetCountSamples (m_dataSet st)); [cbn; auto|].
  rewrite CheckFeatureIndexes_degenerate by assumption.
  cbn. auto.
Qed.

(** C3. On a call that gets as far as sizing the tensor (a context with
    samples and a class count other than 0 and 1, a non-empty group of
    indexes in range whose features all have at least two bins), an
    overflow of the product of the bin counts, of its sum with the
    auxiliary cell count, or of the product of the total cell count with
    the size of a cell makes the call return a nonzero status and leave
    [interactionScoreOut] as it was. *)
Theorem sizing_overflow_is_an_error h st idxs cmin out :
  let classes := m_runtimeLearningTypeOrCountTargetClasses st in
  let cBins := GroupBins st idxs in
  let cAux := Z.max 4 (PartialProducts cBins) in
  let bytes :=
    GetHistogramBucketSize (IsClassification classes)
                           (GetVectorLength classes) in
  m_cFeatures st <= size_modulus ->
  idxs <> [] -> Z.of_nat (length idxs) <= size_max ->
  Forall (valid_index st) idxs ->
  Forall (fun b => 2 <= b) cBins ->
  GetCountSamples (m_dataSet st) <> 0 ->
  classes <> 0 -> classes <> 1 ->
  size_modulus <= TensorProduct cBins \/
  size_modulus <= TensorProduct cBins + cAux \/
  size_modulus <= (TensorProduct cBins + cAux) * bytes ->
  let r :=
    CalculateInteractionScore h (Some st) (Z.of_nat (length idxs))
                              (Some idxs) cmin out in
  r_status r <> 0 /\ r_score r = out.
Proof.
  intros classes cBins cAux bytes Hcf Hne Hlen Hvalid Hbins Hsamples Hc0 Hc1
         Hov.
  destruct (call_guards idxs Hne Hlen) as (G1 & G2 & G3 & G4 & G5 & G6).
  unfold CalculateInteractionScore.
  rewrite G1, G2, G3, G4, G5. cbn [default from_option id]. rewrite G6.
  destruct (Z.eqb_spec 0 (GetCountSamples (m_dataSet st))); [lia|].
  rewrite CheckFeatureIndexes_checked by assumption.
  destruct (k_cDimensionsMax <? _); [cbn; split; [lia|reflexivity]|].
  fold classes.
  destruct (Z.eqb_spec 0 classes); [lia|].
  destruct (Z.eqb_spec 1 classes); [lia|]. cbn [orb].
  destruct (CachedInteractionThreadResources_Allocate h) as [[pc res] h1].
  destruct (Nat.eqb pc nullptr); [cbn; split; [lia|reflexivity]|].
  unfold CalculateInteractionScoreInternal. fold classes.
  rewrite InteractionBufferSizes_overflow.
  - cbn. split; [lia|reflexivity].
  - rewrite BuildFeatureGroup_bins by assumption. exact Hbins.
  - rewrite BuildFeatureGroup_bins by assumption. exact Hov.
Qed.

(** *** The minimum sample count *)





(** *** Groups that are not pairs *)

Lemma Internal_not_pair res h st g cMin out :
  GetCountFeatures g <> 2 ->
  let ir := CalculateInteractionScoreInternal res h st g cMin out in
  ir_error ir = false -> ir_score ir = StoreScore out FloatZero.
Proof.
  intros Hdim. unfold CalculateInteractionScoreInternal.
  destruct (InteractionBufferSizes _ g) as [sz|];
    [|cbn; intros; discriminate].
  destruct (GetThreadByteBuffer1 res (cBytesBuffer sz) h) as [[p res1] h1].
  destruct (Nat.eqb p nullptr); [cbn; intros; discriminate|].
  destruct (Z.eqb_spec 2 (GetCountFeatures g)); [lia|].
  cbn. reflexivity.
Qed.

(** With memory to spare and sizes that fit, the core succeeds on a
    fresh arena; the block it gets holds the tensor exactly when twice
    the request fits [size_t]. *)
Lemma Internal_succeeds h st g cMin out sz :
  heap_wf h ->
  (forall h' n, malloc_succeeds h' n = true) ->
  InteractionBufferSizes (m_runtimeLearningTypeOrCountTargetClasses st) g
    = Some sz ->
  0 < cBytesBuffer sz < size_modulus ->
  let ir :=
    CalculateInteractionScoreInternal InitializeZero h st g cMin out in
  ir_error ir = false /\
  ir_overrun ir = negb (2 * cBytesBuffer sz <? size_modulus).
Proof.
  intros [Hpos _] Hmem Hsz Hbytes. unfold CalculateInteractionScoreInternal.
  rewrite Hsz.
  unfold GetThreadByteBuffer1. cbn [m_cThreadByteBufferCapacity1
    m_aThreadByteBuffer1 InitializeZero].
  destruct (Z.ltb_spec 0 (cBytesBuffer sz)); [|lia].
  rewrite EbmMalloc_bytes.
  unfold malloc. rewrite Hmem. cbn [free h_next].
  destruct (Nat.eqb_spec (h_next h) nullptr) as [Hz|_];
    [unfold nullptr in Hz; lia|].
  assert (Hholds :
    BlockHolds
      {| h_live :=
           <[h_next h := wrap (Z.shiftl (cBytesBuffer sz) 1)]>
             (h_live (free nullptr h));
         h_next := S (h_next h);
         h_trace :=
           EvMalloc (wrap (Z.shiftl (cBytesBuffer sz) 1)) (h_next h)
           :: h_trace (free nullptr h) |}
      (h_next h) (cBytesBuffer sz)
    = (2 * cBytesBuffer sz <? size_modulus)).
  { unfold BlockHolds. cbn [h_live]. rewrite lookup_insert_eq.
    rewrite Z.shiftl_mul_pow2 by lia.
    replace (cBytesBuffer sz * 2 ^ 1) with (2 * cBytesBuffer sz) by lia.
    unfold wrap.
    destruct (Z.ltb_spec (2 * cBytesBuffer sz) size_modulus) as [Hfit|Hwrap].
    - rewrite Z.mod_small by lia. apply Z.leb_le. lia.
    - replace (2 * cBytesBuffer sz)
        with (2 * cBytesBuffer sz - size_modulus + 1 * size_modulus) by lia.
      rewrite Z.mod_add by lia. rewrite Z.mod_small by lia.
      apply Z.leb_gt. lia. }
  destruct (2 =? GetCountFeatures g); cbn [ir_error ir_overrun];
    (split; [reflexivity|]); cbv zeta; rewrite Hholds; reflexivity.
Qed.

(** C2, as the code has it.  For a group whose length is not 2: a return
    with status 0 has written exactly zero; an empty group returns status
    0; a group longer than [k_cDimensionsMax] whose features are all in
    range with at least two bins, on a context with samples, is rejected
    with status 1 and [interactionScoreOut] untouched; a group of 1 to
    [k_cDimensionsMax] features in range returns status 0, having written
    nothing outside its buffer, as soon as the sizes fit, twice the bytes
    of the tensor fit [size_t], a cell takes at least one byte and memory
    is available. *)
Theorem non_pair_group_scores_zero_or_is_rejected
    h st count idxs cmin out :
  count <> 2 ->
  let r := CalculateInteractionScore h (Some st) count idxs cmin out in
  (r_status r = 0 -> r_score r = StoreScore out FloatZero) /\
  (count = 0 -> r_status r = 0) /\
  (forall l,
      idxs = Some l -> count = Z.of_nat (length l) ->
      k_cDimensionsMax < count <= size_max ->
      m_cFeatures st <= size_modulus ->
      Forall (valid_index st) l ->
      Forall (fun b => 2 <= b) (GroupBins st l) ->
      GetCountSamples (m_dataSet st) <> 0 ->
      r_status r = 1 /\ r_score r = out) /\
  (forall l sz,
      idxs = Some l -> count = Z.of_nat (length l) ->
      1 <= count <= k_cDimensionsMax ->
      m_cFeatures st <= size_modulus ->
      Forall (valid_index st) l ->
      InteractionBufferSizes (m_runtimeLearningTypeOrCountTargetClasses st)
                             (BuildFeatureGroup st count l) = Some sz ->
      2 * cBytesBuffer sz < size_modulus ->
      0 < GetHistogramBucketSize
            (IsClassification (m_runtimeLearningTypeOrCountTargetClasses st))
            (GetVectorLength (m_runtimeLearningTypeOrCountTargetClasses st)) ->
      heap_wf h -> (forall h' n, malloc_succeeds h' n = true) ->
      r_status r = 0 /\ r_overrun r = false).
Proof.
  intros Hcount r. pose proof size_modulus_large as Hlarge.
  pose proof k_cDimensionsMax_eq as Hmax.
  split; [|split; [|split]].
  - subst r. unfold CalculateInteractionScore.
    destruct (count <? 0); [cbn; intros; discriminate|].
    destruct (negb (0 =? count) && bool_decide (idxs = None));
      [cbn; intros; discriminate|].
    destruct (IsNumberConvertable T_size_t T_IntEbmType count) eqn:Hconv;
      [|cbn; intros; discriminate]. cbn [negb].
    apply IsNumberConvertable_size_t in Hconv. unfold size_max in Hconv.
    rewrite (wrap_small count) by lia.
    destruct (0 =? count); [cbn; reflexivity|].
    destruct (0 =? GetCountSamples (m_dataSet st)); [cbn; reflexivity|].
    destruct (CheckFeatureIndexes st _);
      [cbn; intros; discriminate | cbn; reflexivity |].
    destruct (k_cDimensionsMax <? count); [cbn; intros; discriminate|].
    destruct ((0 =? _) || (1 =? _)); [cbn; reflexivity|].
    destruct (CachedInteractionThreadResources_Allocate h) as [[pc res] h1].
    destruct (Nat.eqb pc nullptr); [cbn; intros; discriminate|].
    cbn [r_status r_score].
    destruct (ir_error _) eqn:Herr; [intros; discriminate|]. intros _.
    eapply Internal_not_pair; [|exact Herr]. cbn. exact Hcount.
  - intros ->. subst r. unfold CalculateInteractionScore.
    cbn [Z.ltb Z.compare Z.eqb negb andb].
    replace (IsNumberConvertable T_size_t T_IntEbmType 0) with true
      by (symmetry; apply IsNumberConvertable_size_t; unfold size_max; lia).
    cbn [negb]. rewrite (wrap_small 0) by lia. reflexivity.
  - intros l -> Hlen Hrange Hcf Hvalid Hbins Hsamples.
    assert (Hne : l <> []).
    { intros ->. cbn in Hlen. destruct Hbits as [Hb|Hb]; rewrite Hb in Hmax;
        lia. }
    rewrite Hlen in Hrange. destruct Hrange as [Hbig Hsmall].
    destruct (call_guards l Hne Hsmall) as (G1 & G2 & G3 & G4 & G5 & G6).
    subst r count. unfold CalculateInteractionScore.
    rewrite G1, G2, G3, G4, G5. cbn [default from_option id]. rewrite G6.
    destruct (Z.eqb_spec 0 (GetCountSamples (m_dataSet st))); [lia|].
    rewrite CheckFeatureIndexes_checked by assumption.
    destruct (Z.ltb_spec k_cDimensionsMax (Z.of_nat (length l))); [|lia].
    cbn. split; reflexivity.
  - intros l sz -> Hlen Hrange Hcf Hvalid Hsz Hdouble Hbytes Hwf Hmem.
    assert (Hne : l <> []).
    { intros ->. cbn in Hlen. lia. }
    assert (Hsmall : Z.of_nat (length l) <= size_max).
    { unfold size_max. destruct Hbits as [Hb|Hb]; rewrite Hb in Hmax; lia. }
    destruct (call_guards l Hne Hsmall) as (G1 & G2 & G3 & G4 & G5 & G6).
    subst r count. unfold CalculateInteractionScore.
    rewrite G1, G2, G3, G4, G5. cbn [default from_option id]. rewrite G6.
    destruct (0 =? GetCountSamples (m_dataSet st)); [split; reflexivity|].
    pose proof (CheckFeatureIndexes_valid st l Hcf Hvalid) as Hchk.
    destruct (CheckFeatureIndexes st l) eqn:Hcheck;
      [contradiction | split; reflexivity |].
    destruct (Z.ltb_spec k_cDimensionsMax (Z.of_nat (length l))); [lia|].
    destruct ((0 =? _) || (1 =? _)); [split; reflexivity|].
    unfold CachedInteractionThreadResources_Allocate, EbmMalloc_one, malloc.
    rewrite Hmem.
    destruct Hwf as [Hpos Hlive].
    destruct (Nat.eqb_spec (h_next h) nullptr) as [Hz|_];
      [unfold nullptr in Hz; lia|].
    cbn [r_status r_overrun].
    assert (Hpositive : 0 < cBytesBuffer sz).
    { pose proof (CheckFeatureIndexes_bins st l Hcheck) as Hb2.
      pose proof Hsz as Hsome.
      apply InteractionBufferSizes_Some in Hsome.
      - destruct Hsome as (Hm & Ha & Ht & Htl & _ & _ & _ & Hbuf).
        rewrite Hbuf by lia.
        assert (1 <= TensorProduct
                  (map GetCountBins
                     (take (Z.to_nat (GetCountFeatures
                        (BuildFeatureGroup st (Z.of_nat (length l)) l)))
                        (GetFeatureGroupEntries
                           (BuildFeatureGroup st (Z.of_nat (length l)) l))))).
        { cbn. rewrite take_ge by (rewrite length_map, Nat2Z.id; lia).
          cbn in Hb2. clear -Hb2.
          induction Hb2 as [|f fs Hf Hfs IH]; cbn; [lia|nia]. }
        nia.
      - cbn. rewrite take_ge by (rewrite length_map, Nat2Z.id; lia).
        cbn in Hb2. rewrite Forall_map. exact Hb2. }
    match goal with
    | |- context [CalculateInteractionScoreInternal ?r ?hh ?s ?g ?c ?o] =>
        destruct (Internal_succeeds hh s g c o sz) as [Herr Hover]
    end.
    + split; cbn; [lia|].
      intros p [v Hp]. destruct (decide (h_next h = p)) as [<-|Hneq]; [lia|].
      rewrite lookup_insert_ne in Hp by assumption.
      specialize (Hlive p (ex_intro _ v Hp)). lia.
    + exact Hmem.
    + exact Hsz.
    + lia.
    + rewrite Herr, Hover.
      destruct (Z.ltb_spec (2 * cBytesBuffer sz) size_modulus); [|lia].
      split; reflexivity.
Qed.

(** *** The scratch request of a pair *)

Lemma Internal_first_stage res h st g cMin out sz :
  InteractionBufferSizes (m_runtimeLearningTypeOrCountTargetClasses st) g
    = Some sz ->
  hd_error (ir_stages (CalculateInteractionScoreInternal res h st g cMin out))
  = Some (StageRequest (cBytesBuffer sz)).
Proof.
  intros Hsz. unfold CalculateInteractionScoreInternal. rewrite Hsz.
  destruct (GetThreadByteBuffer1 _ _ _) as [[p res1] h1].
  destruct (Nat.eqb p nullptr); [reflexivity|].
  destruct (2 =? GetCountFeatures g); reflexivity.
Qed.

Lemma Internal_stages_sized res h st g cMin out :
  ir_stages (CalculateInteractionScoreInternal res h st g cMin out) <> [] ->
  exists sz,
    InteractionBufferSizes (m_runtimeLearningTypeOrCountTargetClasses st) g
      = Some sz.
Proof.
  unfold CalculateInteractionScoreInternal.
  destruct (InteractionBufferSizes _ g) as [sz|]; [eauto|].
  cbn. contradiction.
Qed.

(** C4, as the code has it.  For a group of two features with [B0] and
    [B1] bins (at least two each), the core appends [max 4 (B0 + 1)]
    auxiliary cells to the [B0 * B1] cells of the tensor and asks the
    arena for [(B0 * B1 + max 4 (B0 + 1))] cells' worth of bytes; this is
    [(B0 * B1 + 4)] cells' worth when [B0 <= 3], and more than that when
    [4 <= B0] and a cell takes at least one byte. *)
Theorem pair_scratch_request res h st g cMin out f1 f2 :
  GetFeatureGroupEntries g = [f1; f2] -> GetCountFeatures g = 2 ->
  2 <= GetCountBins f1 -> 2 <= GetCountBins f2 ->
  0 <= GetHistogramBucketSize
         (IsClassification (m_runtimeLearningTypeOrCountTargetClasses st))
         (GetVectorLength (m_runtimeLearningTypeOrCountTargetClasses st)) ->
  ir_stages (CalculateInteractionScoreInternal res h st g cMin out) <> [] ->
  let B0 := GetCountBins f1 in
  let B1 := GetCountBins f2 in
  let bytes :=
    GetHistogramBucketSize
      (IsClassification (m_runtimeLearningTypeOrCountTargetClasses st))
      (GetVectorLength (m_runtimeLearningTypeOrCountTargetClasses st)) in
  let requested :=
    hd_error
      (ir_stages (CalculateInteractionScoreInternal res h st g cMin out)) in
  (exists sz,
      InteractionBufferSizes (m_runtimeLearningTypeOrCountTargetClasses st) g
        = Some sz /\
      cTotalBucketsMainSpace sz = B0 * B1 /\
      cAuxillaryBuckets sz = Z.max 4 (B0 + 1)) /\
  requested = Some (StageRequest ((B0 * B1 + Z.max 4 (B0 + 1)) * bytes)) /\
  (B0 <= 3 -> requested = Some (StageRequest ((B0 * B1 + 4) * bytes))) /\
  (4 <= B0 -> 0 < bytes ->
   requested <> Some (StageRequest ((B0 * B1 + 4) * bytes))).
Proof.
  intros Hentries Hdim Hb0 Hb1 Hbytes Hstages B0 B1 bytes requested.
  destruct (Internal_stages_sized _ _ _ _ _ _ Hstages) as [sz Hsz].
  assert (Hreq : requested = Some (StageRequest (cBytesBuffer sz)))
    by (now apply Internal_first_stage).
  pose proof Hsz as Hsome.
  apply InteractionBufferSizes_Some in Hsome;
    [|rewrite Hdim, Hentries; cbn; repeat constructor; assumption].
  rewrite Hdim, Hentries in Hsome.
  change (take (Z.to_nat 2) [f1; f2]) with [f1; f2] in Hsome.
  change (map GetCountBins [f1; f2]) with [B0; B1] in Hsome.
  assert (Hprod : TensorProduct [B0; B1] = B0 * B1) by (cbn; ring).
  assert (Hpart : PartialProducts [B0; B1] = B0 + 1) by (cbn; ring).
  rewrite Hprod, Hpart in Hsome.
  destruct Hsome as (Hm & Ha & Ht & Htl & Hper & Hv & _ & Hbuf).
  specialize (Hbuf Hbytes). fold bytes in Hbuf.
  rewrite Ht in Hbuf. rewrite Hbuf in Hreq.
  split; [|split; [|split]].
  - exists sz. auto.
  - exact Hreq.
  - intros Hle. rewrite Hreq. do 3 f_equal. lia.
  - intros Hge Hpos. rewrite Hreq. intros Heq.
    inversion Heq as [Hmul]. subst B0 B1. nia.
Qed.

(** *** The lifetime of the scratch buffer *)

(** C5, as the code has it.  The arena does not outlive the call: every
    call that reaches the core starts from an arena without a buffer,
    and frees the buffer and the arena before it returns.  Whatever the
    arguments, the blocks that are live after a call are exactly those
    that were live before it. *)
Theorem scratch_lives_for_one_call h ctx count idxs cmin out :
  heap_wf h ->
  h_live (r_heap (CalculateInteractionScore h ctx count idxs cmin out))
  = h_live h.
Proof.
  intros Hwf. unfold CalculateInteractionScore.
  destruct ctx as [st|]; [|reflexivity].
  destruct (count <? 0); [reflexivity|].
  destruct (negb (0 =? count) && bool_decide (idxs = None)); [reflexivity|].
  destruct (negb (IsNumberConvertable T_size_t T_IntEbmType count));
    [reflexivity|].
  destruct (0 =? wrap count); [reflexivity|].
  destruct (0 =? GetCountSamples (m_dataSet st)); [reflexivity|].
  destruct (CheckFeatureIndexes st _); try reflexivity.
  destruct (k_cDimensionsMax <? wrap count); [reflexivity|].
  destruct ((0 =? _) || (1 =? _)); [reflexivity|].
  unfold CachedInteractionThreadResources_Allocate, EbmMalloc_one.
  destruct (malloc _ h) as [pc h1] eqn:Hm.
  apply malloc_fresh in Hm; [|assumption].
  destruct Hm as [Hwf1 [[-> Hl1] | (Hpc & Hnone1 & Hl1)]].
  - cbn. exact Hl1.
  - destruct (Nat.eqb_spec pc nullptr) as [|_]; [contradiction|].
    cbn [r_heap].
    match goal with
    | |- context [CalculateInteractionScoreInternal ?r ?hh ?s ?g ?c ?o] =>
        destruct (Internal_heap hh s g c o Hwf1 _ eq_refl)
          as [Hwf2 [[Hnull Hl2] | (n & Hq & Hnone2 & Hl2)]];
        set (ir := CalculateInteractionScoreInternal r hh s g c o) in *
    end.
    + unfold CachedInteractionThreadResources_Free. rewrite Hnull.
      apply (free_malloc_live pc
               (sizeof_CachedInteractionThreadResources)); try assumption.
      cbn. rewrite Hl2. exact Hl1.
    + unfold CachedInteractionThreadResources_Free.
      apply (free_malloc_live pc
               (sizeof_CachedInteractionThreadResources)); try assumption.
      rewrite <- Hl1.
      apply (free_malloc_live _ n); assumption.
Qed.

(** *** Contexts with at most one class *)

Lemma EbmInteractionState_Allocate_Some h classes cf fs cs tg bd ps st h' :
  EbmInteractionState_Allocate h classes cf fs cs tg bd ps = (Some st, h') ->
  m_runtimeLearningTypeOrCountTargetClasses st = classes /\
  m_cFeatures st = cf /\ GetCountSamples (m_dataSet st) = cs.
Proof.
  unfold EbmInteractionState_Allocate, DataSetByFeature_Initialize.
  cbv zeta.
  destruct (negb (0 =? cf)).
  - destruct (EbmMalloc _ _ h) as [p h1].
    destruct (Nat.eqb p nullptr); [discriminate|].
    destruct (InitializeFeatures _ _ _) as [afs|]; [|discriminate].
    destruct (EbmMalloc_one _ h1) as [pRet h2].
    destruct (Nat.eqb pRet nullptr); [discriminate|].
    destruct (DataSetInitialize _ _ _ _ _ _ _ h2) as [[bError aArrays] h3].
    destruct bError; [discriminate|].
    intros Heq. inversion Heq; subst. cbn. auto.
  - destruct (EbmMalloc_one _ h) as [pRet h2].
    destruct (Nat.eqb pRet nullptr); [discriminate|].
    destruct (DataSetInitialize _ _ _ _ _ _ _ h2) as [[bError aArrays] h3].
    destruct bError; [discriminate|].
    intros Heq. inversion Heq; subst. cbn. auto.
Qed.

Lemma AllocateInteraction_Some h cf fs classes cs tg bd ps st h' :
  AllocateInteraction h cf fs classes cs tg bd ps = (Some st, h') ->
  m_runtimeLearningTypeOrCountTargetClasses st = classes /\
  0 <= m_cFeatures st < size_modulus.
Proof.
  unfold AllocateInteraction.
  destruct (cf <? 0); [discriminate|].
  destruct (_ && bool_decide (fs = None)); [discriminate|].
  destruct (cs <? 0); [discriminate|].
  destruct (_ && bool_decide (tg = None)); [discriminate|].
  destruct (_ && bool_decide (bd = None)); [discriminate|].
  destruct (_ && bool_decide (ps = None)); [discriminate|].
  destruct (negb (IsNumberConvertable _ _ cf)); [discriminate|].
  destruct (negb (IsNumberConvertable _ _ cs)); [discriminate|].
  intros Halloc. apply EbmInteractionState_Allocate_Some in Halloc.
  destruct Halloc as (Hc & Hf & _). split; [assumption|].
  rewrite Hf. apply wrap_range.
Qed.

(** Scoring on a context with 0 or 1 classes. *)
Lemma degenerate_classes_score h st count idxs cmin out :
  m_runtimeLearningTypeOrCountTargetClasses st = 0 \/
  m_runtimeLearningTypeOrCountTargetClasses st = 1 ->
  m_cFeatures st <= size_modulus ->
  0 <= count <= k_cDimensionsMax ->
  (count <> 0 ->
   exists l, idxs = Some l /\
             Forall (valid_index st) (take (Z.to_nat count) l)) ->
  r_status (CalculateInteractionScore h (Some st) count idxs cmin out) = 0 /\
  r_score (CalculateInteractionScore h (Some st) count idxs cmin out)
  = StoreScore out FloatZero.
Proof.
  intros Hclasses Hcf Hcount Hidx.
  pose proof size_modulus_large as Hlarge.
  pose proof k_cDimensionsMax_eq as Hmax.
  assert (Hsmall : count < size_modulus).
  { destruct Hbits as [Hb|Hb]; rewrite Hb in Hmax; lia. }
  unfold CalculateInteractionScore.
  destruct (Z.ltb_spec count 0); [lia|].
  replace (IsNumberConvertable T_size_t T_IntEbmType count) with true
    by (symmetry; apply IsNumberConvertable_size_t; unfold size_max; lia).
  rewrite (wrap_small count) by lia.
  destruct (Z.eqb_spec 0 count) as [Hz|Hnz].
  - cbn. auto.
  - destruct (Hidx ltac:(lia)) as (l & -> & Hvalid).
    rewrite bool_decide_eq_false_2 by discriminate.
    cbn [negb andb default from_option id].
    destruct (0 =? GetCountSamples (m_dataSet st)); [cbn; auto|].
    pose proof (CheckFeatureIndexes_valid st _ Hcf Hvalid) as Hchk.
    destruct (CheckFeatureIndexes st _); [contradiction|cbn; auto|].
    destruct (Z.ltb_spec k_cDimensionsMax count); [lia|].
    destruct Hclasses as [-> | ->]; cbn; auto.
Qed.

Lemma InitializeFeatures_valid cSamples fs :
  Forall (valid_native_feature cSamples) fs ->
  forall i, exists afs, InitializeFeatures cSamples fs i = Some afs.
Proof.
  induction 1 as [|f fs Hf Hfs IH]; intros i; cbn [InitializeFeatures].
  - eauto.
  - destruct Hf as (Hty & Hbins & Hzero & Hmiss).
    assert (Hty' : negb (FeatureTypeOrdinal =? featureType f)
                   && negb (FeatureTypeNominal =? featureType f) = false).
    { destruct Hty as [-> | ->]; reflexivity. }
    assert (Hmiss' : negb (EBM_FALSE =? hasMissing f)
                     && negb (EBM_TRUE =? hasMissing f) = false).
    { destruct Hmiss as [-> | ->]; reflexivity. }
    rewrite Hty', Hmiss'.
    destruct (Z.ltb_spec (countBins f) 0); [lia|].
    assert (Hz : (0 =? countBins f) && negb (0 =? cSamples) = false).
    { destruct (Z.eqb_spec 0 (countBins f)) as [Heq|]; [|reflexivity].
      rewrite Hzero by lia. reflexivity. }
    rewrite Hz.
    replace (IsNumberConvertable T_size_t T_IntEbmType (countBins f))
      with true by (symmetry; now apply IsNumberConvertable_size_t).
    cbn [negb]. destruct (IH (i + 1)) as [afs ->]. eauto.
Qed.

Lemma AllocateInteraction_succeeds h cf fs classes cs tg bd ps :
  0 <= cf <= size_max -> 0 <= cs <= size_max ->
  (cf <> 0 ->
   exists l, fs = Some l /\
             Forall (valid_native_feature cs) (take (Z.to_nat cf) l)) ->
  (cs <> 0 -> tg <> None /\ ps <> None /\ (cf <> 0 -> bd <> None)) ->
  heap_wf h ->
  (forall h' n, malloc_succeeds h' n = true) ->
  IsMultiplyError cf sizeof_Feature = false ->
  (forall a b c d e f g h0, DataSetInitializeFails a b c d e f g h0 = false) ->
  exists st h', AllocateInteraction h cf fs classes cs tg bd ps = (Some st, h').
Proof.
  intros Hcf Hcs Hfs Hnull Hwf Hmem Hmul Hdata.
  pose proof size_modulus_large as Hlarge.
  unfold AllocateInteraction.
  destruct (Z.ltb_spec cf 0); [lia|].
  destruct (Z.ltb_spec cs 0); [lia|].
  assert (G1 : negb (0 =? cf) && bool_decide (fs = None) = false).
  { destruct (Z.eqb_spec 0 cf); [reflexivity|].
    destruct (Hfs ltac:(lia)) as (l & -> & _).
    now rewrite bool_decide_eq_false_2. }
  assert (G2 : negb (0 =? cs) && bool_decide (tg = None) = false).
  { destruct (Z.eqb_spec 0 cs); [reflexivity|].
    destruct (Hnull ltac:(lia)) as (Ht & _).
    now rewrite bool_decide_eq_false_2. }
  assert (G3 : negb (0 =? cs) && negb (0 =? cf) && bool_decide (bd = None)
               = false).
  { destruct (Z.eqb_spec 0 cs); [reflexivity|].
    destruct (Z.eqb_spec 0 cf); [reflexivity|].
    destruct (Hnull ltac:(lia)) as (_ & _ & Hb).
    now rewrite bool_decide_eq_false_2 by (apply Hb; lia). }
  assert (G4 : negb (0 =? cs) && bool_decide (ps = None) = false).
  { destruct (Z.eqb_spec 0 cs); [reflexivity|].
    destruct (Hnull ltac:(lia)) as (_ & Hp & _).
    now rewrite bool_decide_eq_false_2. }
  rewrite G1, G2, G3, G4.
  replace (IsNumberConvertable T_size_t T_IntEbmType cf) with true
    by (symmetry; now apply IsNumberConvertable_size_t).
  replace (IsNumberConvertable T_size_t T_IntEbmType cs) with true
    by (symmetry; now apply IsNumberConvertable_size_t).
  cbn [negb]. unfold size_max in *.
  rewrite (wrap_small cf), (wrap_small cs) by lia.
  unfold EbmInteractionState_Allocate, DataSetByFeature_Initialize.
  cbv zeta.
  assert (Hstate : forall h1, heap_wf h1 ->
    exists pRet h2,
      EbmMalloc_one sizeof_EbmInteractionState h1 = (pRet, h2) /\
      Nat.eqb pRet nullptr = false).
  { intros h1 [Hpos _]. unfold EbmMalloc_one, malloc. rewrite Hmem.
    eexists _, _. split; [reflexivity|].
    apply Nat.eqb_neq. unfold nullptr. lia. }
  assert (Hinit : forall afs h2,
    exists aArrays h3,
      DataSetInitialize cf afs cs bd tg ps classes h2
      = (false, aArrays, h3)).
  { intros afs h2. specialize (Hdata cf afs cs bd tg ps classes h2).
    unfold DataSetInitializeFails in Hdata.
    destruct (DataSetInitialize cf afs cs bd tg ps classes h2)
      as [[bError aArrays] h3].
    cbn in Hdata. subst bError. eauto. }
  destruct (Z.eqb_spec 0 cf) as [Hz|Hnz]; cbn [negb].
  - destruct (Hstate h Hwf) as (pRet & h2 & -> & ->).
    destruct (Hinit [] h2) as (aArrays & h3 & ->). eauto.
  - destruct (Hfs ltac:(lia)) as (l & -> & Hvalid).
    cbn [default from_option id].
    destruct (InitializeFeatures_valid cs _ Hvalid 0) as [afs ->].
    destruct (EbmMalloc sizeof_Feature cf h) as [p h1] eqn:Hm.
    assert (Hp : p <> nullptr /\ heap_wf h1).
    { unfold EbmMalloc in Hm. rewrite Hmul in Hm.
      assert (Hmalloc : exists n, malloc n h = (p, h1)).
      { destruct (1 =? sizeof_Feature); eauto. }
      destruct Hmalloc as [n Hn].
      pose proof (malloc_fresh _ _ _ _ Hwf Hn) as [Hwf1 _].
      split; [|assumption].
      unfold malloc in Hn. rewrite Hmem in Hn. inversion Hn; subst.
      destruct Hwf as [Hpos _]. unfold nullptr. lia. }
    destruct Hp as [Hp Hwf1].
    destruct (Nat.eqb_spec p nullptr); [contradiction|].
    destruct (Hstate h1 Hwf1) as (pRet & h2 & -> & ->).
    destruct (Hinit afs h2) as (aArrays & h3 & ->). eauto.
Qed.

(** C7, as the code has it.  [InitializeInteractionClassification]
    rejects a class count of 0 when there are samples.  It accepts a class
    count of 1, and of 0 when there is no sample: the call is then the
    common allocation path, and returns a non-null handle when the other
    arguments are valid, memory is available and the data set can be set
    up.  On a context with 0 or 1 classes, every scoring call over a group
    of at most [k_cDimensionsMax] indexes in range returns status 0 and
    writes zero. *)
Theorem degenerate_class_count_context h classes cf fs cs bd tg ps :
  0 <= classes <= 1 ->
  (classes = 0 -> cs <> 0 ->
   InitializeInteractionClassification h classes cf fs cs bd tg ps
   = (None, h)) /\
  (classes = 1 \/ cs = 0 ->
   InitializeInteractionClassification h classes cf fs cs bd tg ps
   = AllocateInteraction h cf fs classes cs (TargetClasses <$> tg) bd ps) /\
  (classes = 1 \/ cs = 0 ->
   0 <= cf <= size_max -> 0 <= cs <= size_max ->
   (cf <> 0 ->
    exists l, fs = Some l /\
              Forall (valid_native_feature cs) (take (Z.to_nat cf) l)) ->
   (cs <> 0 -> tg <> None /\ ps <> None /\ (cf <> 0 -> bd <> None)) ->
   heap_wf h ->
   (forall h' n, malloc_succeeds h' n = true) ->
   IsMultiplyError cf sizeof_Feature = false ->
   (forall a b c d e f g h0,
       DataSetInitializeFails a b c d e f g h0 = false) ->
   exists st h',
     InitializeInteractionClassification h classes cf fs cs bd tg ps
     = (Some st, h')) /\
  (forall st h',
      InitializeInteractionClassification h classes cf fs cs bd tg ps
      = (Some st, h') ->
      forall hs count idxs cmin out,
        0 <= count <= k_cDimensionsMax ->
        (count <> 0 ->
         exists l, idxs = Some l /\
                   Forall (valid_index st) (take (Z.to_nat count) l)) ->
        r_status (CalculateInteractionScore hs (Some st) count idxs cmin out)
        = 0 /\
        r_score (CalculateInteractionScore hs (Some st) count idxs cmin out)
        = StoreScore out FloatZero).
Proof.
  intros Hclasses.
  assert (Hconv : IsNumberConvertable T_ptrdiff_t T_IntEbmType classes
                  = true).
  { unfold IsNumberConvertable. cbn [is_signed type_lowest type_max].
    apply andb_true_iff. rewrite !Z.leb_le.
    destruct Hbits as [Hb|Hb]; rewrite Hb; cbn; lia. }
  assert (Haccept : classes = 1 \/ cs = 0 ->
    InitializeInteractionClassification h classes cf fs cs bd tg ps
    = AllocateInteraction h cf fs classes cs (TargetClasses <$> tg) bd ps).
  { intros Hok. unfold InitializeInteractionClassification.
    destruct (Z.ltb_spec classes 0); [lia|].
    assert (Hz : (0 =? classes) && negb (0 =? cs) = false).
    { destruct Hok as [-> | ->]; [reflexivity|]. apply andb_false_r. }
    rewrite Hz, Hconv. reflexivity. }
  split; [|split; [|split]].
  - intros -> Hcs. unfold InitializeInteractionClassification.
    destruct (Z.eqb_spec 0 cs); [lia|]. reflexivity.
  - exact Haccept.
  - intros Hok Hcf Hcs Hfs Hnull Hwf Hmem Hmul Hdata.
    rewrite Haccept by assumption.
    apply AllocateInteraction_succeeds; try assumption.
    intros Hne. destruct (Hnull Hne) as (Ht & Hp & Hb).
    repeat split; try assumption.
    destruct tg; [discriminate|contradiction].
  - intros st h' Hinit hs count idxs cmin out Hcount Hidx.
    assert (Halloc : AllocateInteraction h cf fs classes cs
                       (TargetClasses <$> tg) bd ps = (Some st, h')).
    { unfold InitializeInteractionClassification in Hinit.
      destruct (classes <? 0); [discriminate|].
      destruct ((0 =? classes) && negb (0 =? cs)); [discriminate|].
      destruct (negb _); [discriminate|]. exact Hinit. }
    apply AllocateInteraction_Some in Halloc. destruct Halloc as [Hc Hf].
    apply degenerate_classes_score; try assumption; lia.
Qed.

End Facts.

(** ** The engine at work on the reference host *)

Lemma sample_bits : @size_t_bits sample_host = 32 \/ @size_t_bits sample_host = 64.
Proof. right. reflexivity. Defined.

Lemma sample_bits32 :
  @size_t_bits sample_host32 = 32 \/ @size_t_bits sample_host32 = 64.
Proof. left. reflexivity. Defined.

(** The XOR data set scores 4: each of the four quadrants of the only cut
    holds one sample with a residual of magnitude 1. *)
Example xor_scores_four :
  let r :=
    @CalculateInteractionScore sample_host
      (snd (sample_context sample_host)) (fst (sample_context sample_host))
      2 (Some [0; 1]) 1 (Some S754_nan) in
  r_status r = 0 /\ r_score r = Some (sample_float 4).
Proof. vm_compute. split; reflexivity. Qed.

Lemma score_written_is_nonnegative_and_finite_witness :
  r_status
    (@CalculateInteractionScore sample_host
       (snd (sample_context sample_host)) (fst (sample_context sample_host))
       2 (Some [0; 1]) 1 (Some S754_nan)) = 0 /\
  exists s,
    r_score
      (@CalculateInteractionScore sample_host
         (snd (sample_context sample_host)) (fst (sample_context sample_host))
         2 (Some [0; 1]) 1 (Some S754_nan)) = Some s /\
    SFleb FloatZero s = true /\ isnan s = false /\ SFltb s FloatMax = true.
Proof.
  assert (H : r_status
    (@CalculateInteractionScore sample_host
       (snd (sample_context sample_host)) (fst (sample_context sample_host))
       2 (Some [0; 1]) 1 (Some S754_nan)) = 0) by (vm_compute; reflexivity).
  split; [exact H|].
  exact (proj1 (@score_written_is_nonnegative_and_finite sample_host
                  sample_bits _ _ _ _ _ _ H)).
Defined.

Example sample_context_is_xor :
  fst (sample_context sample_host) = Some sample_xor.
Proof. vm_compute. reflexivity. Qed.

Lemma emptyHeap_wf : heap_wf emptyHeap.
Proof.
  split; [cbn; lia|]. intros p [v Hp]. cbn in Hp.
  rewrite lookup_empty in Hp. discriminate.
Defined.

(** A length other than 2 does not always yield a successful zero.  On
    the 64-bit host a group of 64 features is rejected with status 1 and
    the cell behind [interactionScoreOut] keeps its value; so is a group
    of 3 features whose tensor does not fit [size_t]; a group of 1 feature
    returns status 1 when the arena cannot be allocated, and when its
    index is out of range. *)
Lemma non_pair_group_counterexample :
  (let r :=
     @CalculateInteractionScore sample_host emptyHeap (Some sample_xor)
       64 (Some (repeat 0 64)) 1 (Some S754_nan) in
   r_status r = 1 /\ r_score r = Some S754_nan /\
   ~ (r_status r = 0 /\ r_score r = Some FloatZero)) /\
  r_status
    (@CalculateInteractionScore sample_host emptyHeap (Some sample_huge)
       3 (Some [0; 1; 0]) 1 (Some S754_nan)) = 1 /\
  r_status
    (@CalculateInteractionScore sample_host_oom emptyHeap (Some sample_xor)
       1 (Some [0]) 1 (Some S754_nan)) = 1 /\
  r_status
    (@CalculateInteractionScore sample_host emptyHeap (Some sample_xor)
       1 (Some [7]) 1 (Some S754_nan)) = 1.
Proof.
  vm_compute. split; [|repeat split; reflexivity].
  split; [reflexivity|]. split; [reflexivity|].
  intros [H _]. discriminate H.
Qed.

Lemma non_pair_group_scores_zero_or_is_rejected_witness :
  1 <> 2 /\
  r_status
    (@CalculateInteractionScore sample_host emptyHeap (Some sample_xor)
       1 (Some [0]) 1 (Some S754_nan)) = 0 /\
  r_overrun
    (@CalculateInteractionScore sample_host emptyHeap (Some sample_xor)
       1 (Some [0]) 1 (Some S754_nan)) = false /\
  r_score
    (@CalculateInteractionScore sample_host emptyHeap (Some sample_xor)
       1 (Some [0]) 1 (Some S754_nan)) = Some FloatZero.
Proof.
  assert (Hne : 1 <> 2) by lia.
  split; [exact Hne|].
  destruct (@non_pair_group_scores_zero_or_is_rejected sample_host sample_bits
              emptyHeap sample_xor 1 (Some [0]) 1 (Some S754_nan) Hne)
    as (Hzero & _ & _ & Hok).
  assert (Hstatus :
    r_status
      (@CalculateInteractionScore sample_host emptyHeap (Some sample_xor)
         1 (Some [0]) 1 (Some S754_nan)) = 0 /\
    r_overrun
      (@CalculateInteractionScore sample_host emptyHeap (Some sample_xor)
         1 (Some [0]) 1 (Some S754_nan)) = false).
  { apply (Hok [0]
             {| cTotalBucketsMainSpace := 2; cAuxillaryBuckets := 4;
                cTotalBuckets := 6; cVectorLength := 1;
                cBytesPerHistogramBucket := 16; cBytesBuffer := 96 |}).
    - reflexivity.
    - reflexivity.
    - vm_compute. split; discriminate.
    - vm_compute. discriminate.
    - repeat constructor; vm_compute; congruence.
    - vm_compute. reflexivity.
    - vm_compute. reflexivity.
    - vm_compute. reflexivity.
    - exact emptyHeap_wf.
    - reflexivity. }
  destruct Hstatus as [Hstatus Hover].
  split; [exact Hstatus|]. split; [exact Hover|].
  exact (Hzero Hstatus).
Defined.

Lemma sizing_overflow_is_an_error_witness :
  @size_modulus sample_host <= TensorProduct (GroupBins sample_huge [0; 1]) /\
  r_status
    (@CalculateInteractionScore sample_host emptyHeap (Some sample_huge)
       2 (Some [0; 1]) 1 (Some S754_nan)) <> 0 /\
  r_score
    (@CalculateInteractionScore sample_host emptyHeap (Some sample_huge)
       2 (Some [0; 1]) 1 (Some S754_nan)) = Some S754_nan.
Proof.
  assert (Hov :
    @size_modulus sample_host <= TensorProduct (GroupBins sample_huge [0; 1]))
    by (vm_compute; discriminate).
  split; [exact Hov|].
  apply (@sizing_overflow_is_an_error sample_host sample_bits emptyHeap
           sample_huge [0; 1] 1 (Some S754_nan)).
  - vm_compute. discriminate.
  - discriminate.
  - vm_compute. discriminate.
  - repeat constructor; vm_compute; congruence.
  - repeat constructor; vm_compute; congruence.
  - vm_compute. discriminate.
  - vm_compute. discriminate.
  - vm_compute. discriminate.
  - left. exact Hov.
Defined.

(** With 4 and 2 bins the core asks for 13 cells (8 of the tensor and 5
    auxiliary ones), that is 208 bytes at 16 bytes a cell, not for the
    [(4 * 2 + 4) * 16 = 192] bytes of 12 cells.  With [2^33] bins on each
    axis the sizes are refused and nothing is asked for. *)
Lemma pair_scratch_request_counterexample :
  (let st := sample_state (-1) [4; 2] 4 in
   let g := @BuildFeatureGroup sample_host st 2 [0; 1] in
   let bytes := @GetHistogramBucketSize sample_host false 1 in
   hd_error
     (ir_stages
        (@CalculateInteractionScoreInternal sample_host InitializeZero
           emptyHeap st g 1 (Some S754_nan)))
   = Some (StageRequest 208) /\
   (4 * 2 + 4) * bytes = 192 /\
   hd_error
     (ir_stages
        (@CalculateInteractionScoreInternal sample_host InitializeZero
           emptyHeap st g 1 (Some S754_nan)))
   <> Some (StageRequest ((4 * 2 + 4) * bytes))) /\
  ir_stages
    (@CalculateInteractionScoreInternal sample_host InitializeZero emptyHeap
       sample_huge (@BuildFeatureGroup sample_host sample_huge 2 [0; 1]) 1
       (Some S754_nan)) = [].
Proof.
  vm_compute. split; [|reflexivity].
  split; [reflexivity|]. split; [reflexivity|]. discriminate.
Qed.

Lemma pair_scratch_request_witness :
  let g := @BuildFeatureGroup sample_host sample_xor 2 [0; 1] in
  ir_stages
    (@CalculateInteractionScoreInternal sample_host InitializeZero emptyHeap
       sample_xor g 1 (Some S754_nan)) <> [] /\
  hd_error
    (ir_stages
       (@CalculateInteractionScoreInternal sample_host InitializeZero
          emptyHeap sample_xor g 1 (Some S754_nan)))
  = Some (StageRequest ((2 * 2 + Z.max 4 (2 + 1)) * 16)).
Proof.
  intros g.
  assert (Hstages :
    ir_stages
      (@CalculateInteractionScoreInternal sample_host InitializeZero emptyHeap
         sample_xor g 1 (Some S754_nan)) <> [])
    by (vm_compute; discriminate).
  split; [exact Hstages|].
  refine (proj1 (proj2
    (@pair_scratch_request sample_host sample_bits InitializeZero emptyHeap
       sample_xor g 1 (Some S754_nan)
       {| m_cBins := 2; m_iFeatureData := 0; m_featureType := Ordinal;
          m_bMissing := false |}
       {| m_cBins := 2; m_iFeatureData := 1; m_featureType := Ordinal;
          m_bMissing := false |}
       _ _ _ _ _ Hstages))).
  - reflexivity.
  - reflexivity.
  - vm_compute. discriminate.
  - vm_compute. discriminate.
  - vm_compute. discriminate.
Defined.

(** The scoring call on the XOR data set allocates its arena (block 1)
    and its 256-byte buffer (block 2), and has freed both when it returns:
    nothing is retained for the next call. *)
Lemma scratch_lives_for_one_call_counterexample :
  let r :=
    @CalculateInteractionScore sample_host emptyHeap (Some sample_xor)
      2 (Some [0; 1]) 1 (Some S754_nan) in
  r_status r = 0 /\
  h_trace (r_heap r)
  = [EvFree 1%nat; EvFree 2%nat; EvMalloc 256 2%nat; EvFree nullptr;
     EvMalloc 16 1%nat] /\
  h_live (r_heap r) !! 2%nat = None.
Proof. vm_compute. repeat split; reflexivity. Qed.

Lemma scratch_lives_for_one_call_witness :
  heap_wf emptyHeap /\
  h_live
    (r_heap
       (@CalculateInteractionScore sample_host emptyHeap (Some sample_xor)
          2 (Some [0; 1]) 1 (Some S754_nan)))
  = h_live emptyHeap.
Proof.
  split; [exact emptyHeap_wf|].
  apply (@scratch_lives_for_one_call sample_host).
  exact emptyHeap_wf.
Defined.

Lemma degenerate_feature_scores_zero_witness :
  Exists (fun b => b <= 1) (GroupBins sample_flat [0; 1]) /\
  r_status
    (@CalculateInteractionScore sample_host emptyHeap (Some sample_flat)
       2 (Some [0; 1]) 1 (Some S754_nan)) = 0 /\
  r_score
    (@CalculateInteractionScore sample_host emptyHeap (Some sample_flat)
       2 (Some [0; 1]) 1 (Some S754_nan)) = Some FloatZero.
Proof.
  assert (Hex : Exists (fun b => b <= 1) (GroupBins sample_flat [0; 1])).
  { right. left. vm_compute. discriminate. }
  split; [exact Hex|].
  destruct (@degenerate_feature_scores_zero sample_host sample_bits emptyHeap
              sample_flat [0; 1] 1 (Some S754_nan)) as (Hs & Hz & _ & _).
  - vm_compute. discriminate.
  - vm_compute. discriminate.
  - repeat constructor; vm_compute; congruence.
  - exact Hex.
  - split; assumption.
Defined.

(** A class count of 0 with four samples is refused: the handle is
    null.  On a context with a single class, a group of 64 features and a
    group with an index out of range are rejected with status 1. *)
Lemma degenerate_class_count_context_counterexample :
  @InitializeInteractionClassification sample_host emptyHeap 0 2
    (Some (sample_features 2 2)) 4 (Some [0; 0; 0; 1; 1; 0; 1; 1])
    (Some [0; 0; 0; 0]) (Some (map sample_float [0; 0; 0; 0]))
  = (None, emptyHeap) /\
  r_status
    (@CalculateInteractionScore sample_host emptyHeap
       (Some sample_single_class) 64 (Some (repeat 0 64)) 1
       (Some S754_nan)) = 1 /\
  r_status
    (@CalculateInteractionScore sample_host emptyHeap
       (Some sample_single_class) 2 (Some [0; 7]) 1 (Some S754_nan)) = 1.
Proof. vm_compute. repeat split; reflexivity. Qed.

Lemma degenerate_class_count_context_witness :
  0 <= 1 <= 1 /\
  fst (@InitializeInteractionClassification sample_host emptyHeap 1 2
         (Some (sample_features 2 2)) 4 (Some [0; 0; 0; 1; 1; 0; 1; 1])
         (Some [0; 0; 0; 0]) (Some (map sample_float [0; 0; 0; 0])))
  = Some sample_single_class /\
  r_status
    (@CalculateInteractionScore sample_host emptyHeap
       (Some sample_single_class) 2 (Some [0; 1]) 1 (Some S754_nan)) = 0 /\
  r_score
    (@CalculateInteractionScore sample_host emptyHeap
       (Some sample_single_class) 2 (Some [0; 1]) 1 (Some S754_nan))
  = Some FloatZero.
Proof.
  assert (Hclasses : 0 <= 1 <= 1) by lia.
  split; [exact Hclasses|].
  assert (Hinit :
    @InitializeInteractionClassification sample_host emptyHeap 1 2
      (Some (sample_features 2 2)) 4 (Some [0; 0; 0; 1; 1; 0; 1; 1])
      (Some [0; 0; 0; 0]) (Some (map sample_float [0; 0; 0; 0]))
    = (Some sample_single_class,
       snd (@InitializeInteractionClassification sample_host emptyHeap 1 2
              (Some (sample_features 2 2)) 4
              (Some [0; 0; 0; 1; 1; 0; 1; 1]) (Some [0; 0; 0; 0])
              (Some (map sample_float [0; 0; 0; 0])))))
    by (vm_compute; reflexivity).
  split; [rewrite Hinit; reflexivity|].
  destruct (@degenerate_class_count_context sample_host sample_bits emptyHeap
              1 2 (Some (sample_features 2 2)) 4
              (Some [0; 0; 0; 1; 1; 0; 1; 1]) (Some [0; 0; 0; 0])
              (Some (map sample_float [0; 0; 0; 0])) Hclasses)
    as (_ & _ & _ & Hscore).
  apply (Hscore _ _ Hinit emptyHeap 2 (Some [0; 1]) 1 (Some S754_nan)).
  - vm_compute. split; discriminate.
  - intros _. exists [0; 1]. split; [reflexivity|].
    repeat constructor; vm_compute; congruence.
Defined.

(** C8. The doubling of the capacity wraps.  On the 64-bit host, a
    request of [2^63] bytes to an empty arena records a capacity of 0
    instead of [2^64], asks [malloc] for 0 bytes, and hands the resulting
    block of 0 bytes to the caller. *)
Theorem GetThreadByteBuffer1_capacity_wraps :
  let '(aBuffer, res, h) :=
    @GetThreadByteBuffer1 sample_host InitializeZero (2 ^ 63) emptyHeap in
  aBuffer <> nullptr /\
  m_cThreadByteBufferCapacity1 res = 0 /\
  m_cThreadByteBufferCapacity1 res <> 2 * 2 ^ 63 /\
  m_aThreadByteBuffer1 res = aBuffer /\
  h_live h !! aBuffer = Some 0 /\
  h_trace h = [EvMalloc 0 aBuffer; EvFree nullptr].
Proof. vm_compute. repeat split; discriminate. Qed.

(** C10. The same wrap on the failure path.  On a 64-bit host without
    memory, a request of [2^63] bytes to an empty arena leaves the arena
    as it was: the recorded capacity is 0, not twice the request, and the
    pointer, null before, is null after. *)
Theorem GetThreadByteBuffer1_failed_growth_wraps :
  let '(aBuffer, res, h) :=
    @GetThreadByteBuffer1 sample_host_oom InitializeZero (2 ^ 63) emptyHeap in
  aBuffer = nullptr /\
  res = InitializeZero /\
  m_cThreadByteBufferCapacity1 res <> 2 * 2 ^ 63 /\
  h_trace h = [EvMalloc 0 nullptr; EvFree nullptr].
Proof. vm_compute. repeat split; discriminate. Qed.


Example scratch_smaller_than_request :
  let r :=
    @CalculateInteractionScore sample_host emptyHeap (Some sample_wide)
      2 (Some [0; 1]) 1 (Some S754_nan) in
  r_overrun r = true /\
  hd_error (r_stages r) = Some (StageRequest (2 ^ 63 + 2 ^ 34 + 16)) /\
  h_trace (r_heap r)
  = [EvFree 1%nat; EvFree 2%nat; EvMalloc (2 ^ 35 + 32) 2%nat;
     EvFree nullptr; EvMalloc 16 1%nat].
Proof. lazy. repeat split; reflexivity. Qed.

(** * Further properties *)

(** ** The filter on the score, exactly *)

Lemma digits2_pos_bound (m : positive) :
  Zpos m < 2 ^ Zpos (digits2_pos m).
Proof.
  induction m as [m IH | m IH |]; cbn [digits2_pos].
  - rewrite Pos2Z.inj_succ, Z.pow_succ_r by lia. lia.
  - rewrite Pos2Z.inj_succ, Z.pow_succ_r by lia. lia.
  - cbn. lia.
Qed.

(** X20. The filter applied to the best splitting score replaces exactly
    three doubles by zero, a NaN, plus infinity and the largest finite
    double, and leaves every other double, a negative one or minus
    infinity included, as it is. *)
Theorem FilterScore_exact (x : FloatEbmType) :
  valid_binary prec emax x = true ->
  (x = S754_nan \/ x = S754_infinity false \/ x = FloatMax ->
   FilterScore x = FloatZero) /\
  (x <> S754_nan -> x <> S754_infinity false -> x <> FloatMax ->
   FilterScore x = x).
Proof.
  intros Hvalid. split.
  - intros [-> | [-> | ->]]; reflexivity.
  - intros Hnan Hinf Hmax. unfold FilterScore.
    destruct x as [s | s | | s m e]; try reflexivity.
    + destruct s; [reflexivity | contradiction].
    + contradiction.
    + cbn [isnan orb]. unfold SFleb, FloatMax, SFmax_float.
      cbn [SFcompare]. destruct s; [reflexivity|].
      cbn [valid_binary] in Hvalid. unfold bounded in Hvalid.
      apply andb_true_iff in Hvalid. destruct Hvalid as [Hcanon He].
      apply Z.leb_le in He.
      unfold canonical_mantissa, fexp, emin in Hcanon.
      apply Z.eqb_eq in Hcanon.
      change (emax - prec) with 971 in *.
      destruct (Z.compare_spec 971 e) as [Heq | Hlt | Hgt];
        [|lia|reflexivity].
      subst e.
      assert (Hdigits : Zpos (digits2_pos m) <= 53).
      { unfold prec, emax in Hcanon. lia. }
      pose proof (digits2_pos_bound m) as Hm.
      assert (Hpow : 2 ^ Zpos (digits2_pos m) <= 2 ^ 53)
        by (apply Z.pow_le_mono_r; lia).
      set (mmax := (Pos.iter xO xH (Z.to_pos prec) - 1)%positive).
      assert (Hmmax : Zpos mmax = 2 ^ 53 - 1) by reflexivity.
      rewrite Pos.compare_cont_spec. cbn [Pos.switch_Eq].
      destruct (Pos.compare_spec mmax m) as [Heq | Hlt | Hgt];
        [|lia|reflexivity].
      exfalso. apply Hmax. unfold FloatMax, SFmax_float.
      fold mmax. rewrite Heq. reflexivity.
Qed.

(** ** Doubles and their integer parts *)

Lemma digits2_pos_lower (m : positive) :
  2 ^ (Zpos (digits2_pos m) - 1) <= Zpos m.
Proof.
  induction m as [m IH | m IH |]; cbn [digits2_pos].
  - rewrite Pos2Z.inj_succ.
    replace (Z.succ (Zpos (digits2_pos m)) - 1)
      with (Z.succ (Zpos (digits2_pos m) - 1)) by lia.
    rewrite Z.pow_succ_r by lia. lia.
  - rewrite Pos2Z.inj_succ.
    replace (Z.succ (Zpos (digits2_pos m)) - 1)
      with (Z.succ (Zpos (digits2_pos m) - 1)) by lia.
    rewrite Z.pow_succ_r by lia. lia.
  - cbn. lia.
Qed.

Lemma bounded_mantissa m e :
  bounded prec emax m e = true -> Zpos m < 2 ^ 53.
Proof.
  unfold bounded, canonical_mantissa, fexp, emin, prec, emax.
  intros H. apply andb_true_iff in H. destruct H as [Hc _].
  apply Z.eqb_eq in Hc.
  pose proof (digits2_pos_bound m) as Hm.
  assert (2 ^ Zpos (digits2_pos m) <= 2 ^ 53)
    by (apply Z.pow_le_mono_r; lia).
  lia.
Qed.

(** A mantissa of an exponent above the least one has all its 53 bits. *)
Lemma bounded_normal m e :
  bounded prec emax m e = true -> 3 - emax - prec < e -> 2 ^ 52 <= Zpos m.
Proof.
  unfold bounded, canonical_mantissa, fexp, emin, prec, emax.
  intros H He. apply andb_true_iff in H. destruct H as [Hc _].
  apply Z.eqb_eq in Hc.
  assert (Hd : Zpos (digits2_pos m) = 53) by lia.
  pose proof (digits2_pos_lower m) as Hm. rewrite Hd in Hm. exact Hm.
Qed.

Lemma IntegerPart_nonneg m e : 0 <= IntegerPart m e.
Proof.
  unfold IntegerPart. destruct (Z.leb_spec 0 e).
  - apply Z.mul_nonneg_nonneg; [lia|]. apply Z.pow_nonneg. lia.
  - apply Z.div_pos; [lia|]. apply Z.pow_pos_nonneg; lia.
Qed.

Lemma IntegerPart_mono m m' e :
  Zpos m <= Zpos m' -> IntegerPart m e <= IntegerPart m' e.
Proof.
  intros Hm. unfold IntegerPart. destruct (Z.leb_spec 0 e).
  - apply Z.mul_le_mono_nonneg_r; [apply Z.pow_nonneg|]; lia.
  - apply Z.div_le_mono; [apply Z.pow_pos_nonneg|]; lia.
Qed.

(** Below the exponent of a full mantissa, the integer part is smaller. *)
Lemma IntegerPart_lower_exponent m e mb eb :
  Zpos m < 2 ^ 53 -> 2 ^ 52 <= Zpos mb -> e < eb ->
  IntegerPart m e <= IntegerPart mb eb /\
  (0 <= eb -> IntegerPart m e < IntegerPart mb eb).
Proof.
  intros Hm Hmb He. unfold IntegerPart.
  destruct (Z.leb_spec 0 e) as [He0 | He0].
  - destruct (Z.leb_spec 0 eb); [|lia].
    assert (Hpow : 2 * 2 ^ e <= 2 ^ eb).
    { rewrite <- Z.pow_succ_r by lia. apply Z.pow_le_mono_r; lia. }
    assert (0 < 2 ^ e) by (apply Z.pow_pos_nonneg; lia).
    split; [|intros _]; nia.
  - assert (Hhalf : Zpos m / 2 ^ (- e) <= Zpos m / 2).
    { apply Z.div_le_compat_l; [lia|].
      split; [lia|]. change 2 with (2 ^ 1) at 1.
      apply Z.pow_le_mono_r; lia. }
    assert (Hm2 : Zpos m / 2 < 2 ^ 52)
      by (apply Z.div_lt_upper_bound; lia).
    destruct (Z.leb_spec 0 eb) as [Heb | Heb].
    + assert (0 < 2 ^ eb) by (apply Z.pow_pos_nonneg; lia).
      split; [|intros _]; nia.
    + split; [|lia].
      replace (- e) with (- eb + (eb - e)) by lia.
      rewrite Z.pow_add_r by lia.
      rewrite <- Z.div_div
        by (try apply Z.pow_pos_nonneg; try (apply Z.pow_nonzero); lia).
      assert (Hq : Zpos m / 2 ^ (- eb) / 2 ^ (eb - e)
                   <= Zpos m / 2 ^ (- eb) / 2).
      { apply Z.div_le_compat_l.
        - apply Z.div_pos; [lia | apply Z.pow_pos_nonneg; lia].
        - split; [lia|]. change 2 with (2 ^ 1) at 1.
          apply Z.pow_le_mono_r; lia. }
      assert (Hswap : Zpos m / 2 ^ (- eb) / 2 = Zpos m / 2 / 2 ^ (- eb)).
      { rewrite !Z.div_div by (try apply Z.pow_pos_nonneg; lia).
        f_equal. lia. }
      rewrite Hswap in Hq.
      assert (Zpos m / 2 / 2 ^ (- eb) <= Zpos mb / 2 ^ (- eb)).
      { apply Z.div_le_mono; [apply Z.pow_pos_nonneg; lia | lia]. }
      lia.
Qed.

Lemma SFltb_positive_false mb eb m e :
  SFltb (S754_finite false mb eb) (S754_finite false m e) = false ->
  e < eb \/ (e = eb /\ Zpos m <= Zpos mb).
Proof.
  unfold SFltb. cbn [SFcompare].
  destruct (Z.compare_spec eb e) as [Heq | Hlt | Hgt];
    [|discriminate|left; lia].
  rewrite Pos.compare_cont_spec. cbn [Pos.switch_Eq].
  destruct (Pos.compare_spec mb m); [|discriminate|]; intros _; right; lia.
Qed.

Lemma SFltb_negative_false m e mb eb :
  SFltb (S754_finite true m e) (S754_finite true mb eb) = false ->
  e < eb \/ (e = eb /\ Zpos m <= Zpos mb).
Proof.
  unfold SFltb. cbn [SFcompare].
  destruct (Z.compare_spec e eb) as [Heq | Hlt | Hgt];
    [|left; lia|discriminate].
  rewrite Pos.compare_cont_spec. cbn [Pos.switch_Eq].
  destruct (Pos.compare_spec m mb); cbn [CompOpp];
    [|intros _; right; lia|discriminate].
  intros _. right. lia.
Qed.

(** A double that is not above a bound with a full mantissa has an
    integer part that is not above the bound's. *)
Lemma IntegerPart_below mb eb m e :
  bounded prec emax m e = true -> 2 ^ 52 <= Zpos mb ->
  e < eb \/ (e = eb /\ Zpos m <= Zpos mb) ->
  IntegerPart m e <= IntegerPart mb eb.
Proof.
  intros Hb Hmb [He | [-> Hm]].
  - apply IntegerPart_lower_exponent; [|assumption..].
    now apply (bounded_mantissa m e).
  - now apply IntegerPart_mono.
Qed.

(** ** More of the engine on any host whose [size_t] is 32 or 64 bits
    wide *)

Section FurtherFacts.

Context {host : Host}.
Hypothesis Hbits : size_t_bits = 32 \/ size_t_bits = 64.

(** *** The overflow tests are exact *)

Lemma IsMultiplyError_true_iff num1 num2 :
  0 <= num1 < size_modulus ->
  (IsMultiplyError num1 num2 = true <->
   num1 <> 0 /\ size_modulus - num1 < num1 * num2).
Proof.
  intros Hn. unfold IsMultiplyError.
  destruct (Z.eqb_spec 0 num1) as [<- | Hnz]; simpl.
  - split; [discriminate | intros [? _]; congruence].
  - unfold size_max.
    rewrite (wrap_small (size_modulus - 1 - num1)) by lia.
    rewrite wrap_small by lia.
    replace (size_modulus - 1 - num1 + 1) with (size_modulus - num1) by lia.
    rewrite Z.ltb_lt.
    split.
    + intros Hlt. split; [lia|].
      pose proof (Z.mul_succ_div_gt (size_modulus - num1) num1 ltac:(lia)).
      nia.
    + intros [_ Hlt]. apply Z.div_lt_upper_bound; lia.
Qed.

Lemma IsAddError_true_iff num1 num2 :
  0 <= num1 < size_modulus -> 0 <= num2 < size_modulus ->
  (IsAddError num1 num2 = true <-> size_modulus <= num1 + num2).
Proof.
  intros H1 H2. split.
  - intros Herr.
    destruct (Z_lt_dec (num1 + num2) size_modulus) as [Hlt|]; [|lia].
    unfold IsAddError in Herr. rewrite wrap_small in Herr by lia.
    apply Z.ltb_lt in Herr. lia.
  - now apply IsAddError_overflow.
Qed.

(** X1. [IsMultiplyError] reports a product exactly when [num1] is not
    zero and [num1 * num2] exceeds [2^size_t_bits - num1].  So it reports
    every product that does not fit [size_t], it also reports those that
    fit within less than [num1] of the limit, and a product it lets
    through is computed by the [size_t] multiplication without wrapping. *)
Theorem IsMultiplyError_is_exact_up_to_one_operand num1 num2 :
  0 <= num1 < size_modulus -> 0 <= num2 ->
  (IsMultiplyError num1 num2 = true <->
   num1 <> 0 /\ size_modulus - num1 < num1 * num2) /\
  (size_modulus <= num1 * num2 -> IsMultiplyError num1 num2 = true) /\
  (IsMultiplyError num1 num2 = false -> wrap (num1 * num2) = num1 * num2).
Proof.
  intros Hn1 Hn2.
  pose proof (IsMultiplyError_true_iff num1 num2 Hn1) as Hiff.
  split; [exact Hiff|]. split.
  - intros Hov. apply Hiff. split; nia.
  - intros Herr. apply wrap_small.
    destruct (Z.eq_dec num1 0) as [-> | Hnz]; [lia|].
    destruct (Z_le_gt_dec (num1 * num2) (size_modulus - num1)); [nia|].
    assert (IsMultiplyError num1 num2 = true) by (apply Hiff; split; lia).
    congruence.
Qed.

(** X2. [IsAddError] reports a sum of two [size_t] values exactly when the
    sum does not fit [size_t]; a sum it lets through is computed by the
    [size_t] addition without wrapping. *)
Theorem IsAddError_is_exact num1 num2 :
  0 <= num1 < size_modulus -> 0 <= num2 < size_modulus ->
  (IsAddError num1 num2 = true <-> size_modulus <= num1 + num2) /\
  (IsAddError num1 num2 = false -> wrap (num1 + num2) = num1 + num2).
Proof.
  intros H1 H2.
  pose proof (IsAddError_true_iff num1 num2 H1 H2) as Hiff.
  split; [exact Hiff|].
  intros Herr. apply wrap_small.
  destruct (Z_lt_dec (num1 + num2) size_modulus); [lia|].
  assert (IsAddError num1 num2 = true) by (apply Hiff; lia).
  congruence.
Qed.

(** *** Conversions between the integer types *)

(** X3. For each pair of the integer types the engine converts between
    ([size_t], [ptrdiff_t], [IntEbmType]) and every value of the source
    type, [IsNumberConvertable] holds exactly when the value lies between
    the lowest and the largest value of the target type. *)
Theorem IsNumberConvertable_exact (TTo TFrom : IntType) number :
  type_lowest TFrom <= number <= type_max TFrom ->
  (IsNumberConvertable TTo TFrom number = true <->
   type_lowest TTo <= number <= type_max TTo).
Proof.
  intros Hfrom.
  pose proof (size_modulus_large Hbits) as Hlarge.
  assert (Hhalf : 0 < 2 ^ (size_t_bits - 1))
    by (apply Z.pow_pos_nonneg; destruct Hbits; lia).
  unfold IsNumberConvertable.
  destruct TTo, TFrom; cbn [is_signed type_lowest type_max] in *;
    rewrite ?andb_true_iff, ?Z.leb_le; unfold size_max in *; lia.
Qed.

Lemma CountBitsRequired_zero fuel : CountBitsRequired fuel 0 = 0.
Proof. destruct fuel; reflexivity. Qed.

(** X4. [CountBitsRequired] returns the bit length of a positive value:
    the [n] with [2^(n-1) <= maxValue < 2^n]. *)
Theorem CountBitsRequired_bit_length (fuel : nat) :
  forall x,
    0 < x < size_modulus -> (Z.to_nat (Z.log2 x) < fuel)%nat ->
    CountBitsRequired fuel x = Z.log2 x + 1 /\
    2 ^ (CountBitsRequired fuel x - 1) <= x < 2 ^ CountBitsRequired fuel x.
Proof.
  assert (Hlog : forall x, 0 < x < size_modulus ->
            (Z.to_nat (Z.log2 x) < fuel)%nat ->
            CountBitsRequired fuel x = Z.log2 x + 1).
  { induction fuel as [|fuel IH]; intros x Hx Hfuel; [lia|].
    cbn [CountBitsRequired].
    destruct (Z.eqb_spec 0 x); [lia|].
    pose proof (Z.log2_nonneg x) as Hnn.
    pose proof (Z.log2_lt_lin x ltac:(lia)) as Hlin.
    destruct (Z.eq_dec x 1) as [-> | Hne].
    - change (1 / 2) with 0. rewrite CountBitsRequired_zero.
      rewrite wrap_small by lia. reflexivity.
    - assert (Hhalf : 0 < x / 2) by (apply Z.div_str_pos; lia).
      assert (Hpos : 0 < Z.log2 x) by (apply Z.log2_pos; lia).
      assert (Hlog2 : Z.log2 (x / 2) = Z.log2 x - 1).
      { rewrite <- Z.div2_div, Z.div2_spec, Z.log2_shiftr by lia. lia. }
      rewrite IH.
      + rewrite Hlog2. rewrite wrap_small by lia. lia.
      + pose proof (Z.div_le_upper_bound x 2 x ltac:(lia) ltac:(lia)). lia.
      + rewrite Hlog2. lia. }
  intros x Hx Hfuel. rewrite (Hlog x Hx Hfuel). split; [reflexivity|].
  replace (Z.log2 x + 1 - 1) with (Z.log2 x) by lia.
  replace (Z.log2 x + 1) with (Z.succ (Z.log2 x)) by lia.
  apply Z.log2_spec. lia.
Qed.

Lemma k_cBitsForStorageType_eq : k_cBitsForStorageType = size_t_bits.
Proof. exact (k_cBitsForSizeT_eq Hbits). Qed.

(** X5. From a packing of 1 to [k_cBitsForStorageType] items per storage
    unit, [GetNextCountItemsBitPacked] steps to a smaller item count, stops
    ([k_cItemsPerBitPackedDataUnitDynamic]) exactly after the packing of
    one item, and skips nothing: the item counts that leave each item more
    bits than the previous packing are those up to the one it returns. *)
Theorem GetNextCountItemsBitPacked_next cItemsBitPackedPrev :
  1 <= cItemsBitPackedPrev <= k_cBitsForStorageType ->
  0 <= GetNextCountItemsBitPacked cItemsBitPackedPrev < cItemsBitPackedPrev /\
  (GetNextCountItemsBitPacked cItemsBitPackedPrev
   = k_cItemsPerBitPackedDataUnitDynamic <-> cItemsBitPackedPrev = 1) /\
  forall cItems,
    1 <= cItems ->
    (GetCountBits cItemsBitPackedPrev < GetCountBits cItems <->
     cItems <= GetNextCountItemsBitPacked cItemsBitPackedPrev).
Proof.
  unfold GetNextCountItemsBitPacked, GetCountBits,
    k_cItemsPerBitPackedDataUnitMin, k_cItemsPerBitPackedDataUnitDynamic.
  rewrite k_cBitsForStorageType_eq.
  set (b := size_t_bits). set (p := cItemsBitPackedPrev).
  intros Hp.
  assert (Hb : 32 <= b <= 64) by (unfold b; destruct Hbits; lia).
  destruct (Z.eqb_spec 0 p) as [|Hp0]; [lia|].
  pose proof (size_modulus_large Hbits) as Hlarge.
  assert (Hq : 1 <= b / p <= b).
  { split; [apply Z.div_le_lower_bound; lia|].
    apply Z.div_le_upper_bound; nia. }
  rewrite wrap_small by lia.
  set (q := b / p) in *.
  pose proof (Z.mul_div_le b p ltac:(lia)) as Hq1.
  pose proof (Z.mul_succ_div_gt b p ltac:(lia)) as Hq2.
  fold q in Hq1, Hq2.
  pose proof (Z.mul_div_le b (q + 1) ltac:(lia)) as Hn1.
  pose proof (Z.mul_succ_div_gt b (q + 1) ltac:(lia)) as Hn2.
  set (n := b / (q + 1)) in *.
  assert (Hn0 : 0 <= n) by (apply Z.div_pos; lia).
  split; [|split].
  - split; [assumption|]. nia.
  - split.
    + intros Hz. rewrite Hz in *. nia.
    + intros ->. assert (q = b) by (unfold q; apply Z.div_1_r). nia.
  - intros c Hc.
    pose proof (Z.mul_div_le b c ltac:(lia)) as Hc1.
    pose proof (Z.mul_succ_div_gt b c ltac:(lia)) as Hc2.
    set (r := b / c) in *.
    split; intros H; nia.
Qed.

(** *** Allocation *)

(** X6. [EbmMalloc<T>(cItems)] and [EbmMalloc<T>(cItems, cBytesPerItem)]
    never hand out a block shorter than asked for: a pointer that is not
    null designates a fresh block of exactly [cItems * cBytesPerItem]
    bytes, a null pointer leaves the live blocks as they were, and when
    the byte count does not fit [size_t] the result is null and [malloc]
    is not called. *)
Theorem EbmMalloc_never_short cBytesPerItem cItems h p h' :
  heap_wf h ->
  0 <= cBytesPerItem < size_modulus -> 0 <= cItems < size_modulus ->
  EbmMalloc cBytesPerItem cItems h = (p, h') \/
  EbmMalloc_sized cItems cBytesPerItem h = (p, h') ->
  (p <> nullptr ->
   cItems * cBytesPerItem < size_modulus /\
   h_live h !! p = None /\
   h_live h' = <[p := cItems * cBytesPerItem]> (h_live h)) /\
  (p = nullptr -> h_live h' = h_live h) /\
  (size_modulus <= cItems * cBytesPerItem -> p = nullptr /\ h' = h).
Proof.
  intros Hwf Hb Hi Hcall.
  pose proof (size_modulus_large Hbits) as Hlarge.
  assert (Hm : (cItems * cBytesPerItem < size_modulus /\
                malloc (cItems * cBytesPerItem) h = (p, h')) \/
               (IsMultiplyError cItems cBytesPerItem = true /\
                p = nullptr /\ h' = h)).
  { destruct (IsMultiplyError cItems cBytesPerItem) eqn:Herr.
    - destruct Hcall as [Hcall | Hcall].
      + unfold EbmMalloc in Hcall. rewrite Herr in Hcall.
        destruct (Z.eqb_spec 1 cBytesPerItem) as [<- | _].
        * left. rewrite Z.mul_1_r. split; [lia | exact Hcall].
        * right. inversion Hcall; auto.
      + unfold EbmMalloc_sized in Hcall. rewrite Herr in Hcall.
        right. inversion Hcall; auto.
    - left.
      assert (Hfit : cItems * cBytesPerItem < size_modulus).
      { destruct (IsMultiplyError_false _ _ Hi Herr) as [? | ->]; nia. }
      split; [assumption|].
      destruct Hcall as [Hcall | Hcall].
      + unfold EbmMalloc in Hcall. rewrite Herr in Hcall.
        destruct (Z.eqb_spec 1 cBytesPerItem) as [<- | _].
        * rewrite Z.mul_1_r. exact Hcall.
        * rewrite wrap_small in Hcall by nia. exact Hcall.
      + unfold EbmMalloc_sized in Hcall. rewrite Herr in Hcall.
        rewrite wrap_small in Hcall by nia. exact Hcall. }
  destruct Hm as [[Hfit Hm] | (Herr & -> & ->)].
  - apply malloc_fresh in Hm; [|assumption].
    destruct Hm as [_ [[-> Hl] | (Hp & Hnone & Hl)]].
    + split; [intros; congruence|]. split; [auto|]. intros; lia.
    + split; [auto|]. split; [intros; congruence|]. intros; lia.
  - split; [intros; congruence|]. split; auto.
Qed.

(** *** The arena over a sequence of requests *)

Lemma GetThreadByteBuffer1_owns base res n h p res' h' :
  heap_wf h -> arena_owns base h res ->
  GetThreadByteBuffer1 res n h = (p, res', h') ->
  heap_wf h' /\ arena_owns base h' res' /\ m_aThreadByteBuffer1 res' = p.
Proof.
  intros Hwf Hown Hget. unfold GetThreadByteBuffer1 in Hget.
  destruct (m_cThreadByteBufferCapacity1 res <? n).
  - rewrite EbmMalloc_bytes in Hget.
    destruct (malloc _ _) as [q h2] eqn:Hm.
    inversion Hget; subst; clear Hget.
    assert (Hfree : h_live (free (m_aThreadByteBuffer1 res) h) = base).
    { destruct Hown as [[Hnull Hl] | (Hp & Hnone & cBytes & Hl)].
      - rewrite Hnull. exact Hl.
      - eapply free_malloc_live; eassumption. }
    apply malloc_fresh in Hm; [|now apply free_wf].
    rewrite Hfree in Hm.
    destruct Hm as [Hwf' [[-> Hl] | (Hq & Hnone & Hl)]].
    + split; [assumption|]. split; [|reflexivity]. left. auto.
    + split; [assumption|]. split; [|reflexivity]. right. simpl. eauto.
  - inversion Hget; subst. auto.
Qed.

Lemma ServeRequests_owns base requests :
  forall res h served res' h',
    heap_wf h -> arena_owns base h res ->
    ServeRequests res requests h = (served, res', h') ->
    heap_wf h' /\ arena_owns base h' res' /\
    Forall (fun p => p = nullptr \/ base !! p = None) served.
Proof.
  induction requests as [|n rest IH]; intros res h served res' h' Hwf Hown Hs.
  - inversion Hs; subst. auto.
  - cbn [ServeRequests] in Hs.
    destruct (GetThreadByteBuffer1 res n h) as [[p res1] h1] eqn:Hget.
    destruct (ServeRequests res1 rest h1) as [[served1 res2] h2] eqn:Hrest.
    inversion Hs; subst; clear Hs.
    destruct (GetThreadByteBuffer1_owns _ _ _ _ _ _ _ Hwf Hown Hget)
      as (Hwf1 & Hown1 & Hp).
    destruct (IH _ _ _ _ _ Hwf1 Hown1 Hrest) as (Hwf2 & Hown2 & Hall).
    split; [assumption|]. split; [assumption|].
    constructor; [|assumption].
    rewrite <- Hp. destruct Hown1 as [[? _] | (_ & ? & _)]; auto.
Qed.

(** X7. An arena obtained from [CachedInteractionThreadResources::Allocate],
    used for any sequence of [GetThreadByteBuffer1] requests and then
    passed to [CachedInteractionThreadResources::Free], leaves the live
    blocks exactly as they were before it was allocated; every buffer it
    served was null or a block that was not live before and is not the
    arena itself. *)
Theorem arena_never_leaks h requests pArena res0 h0 served res h' :
  heap_wf h ->
  CachedInteractionThreadResources_Allocate h = (pArena, res0, h0) ->
  pArena <> nullptr ->
  ServeRequests res0 requests h0 = (served, res, h') ->
  h_live (CachedInteractionThreadResources_Free pArena res h') = h_live h /\
  Forall (fun p => p = nullptr \/ (p <> pArena /\ h_live h !! p = None))
         served.
Proof.
  intros Hwf Halloc HpArena Hs.
  unfold CachedInteractionThreadResources_Allocate, EbmMalloc_one in Halloc.
  destruct (malloc _ h) as [q h1] eqn:Hm.
  inversion Halloc; subst; clear Halloc.
  apply malloc_fresh in Hm; [|assumption].
  destruct Hm as [Hwf0 [[? _] | (_ & Hnone & Hl)]]; [contradiction|].
  assert (Hown : arena_owns (h_live h0) h0 InitializeZero) by (left; auto).
  destruct (ServeRequests_owns _ _ _ _ _ _ _ Hwf0 Hown Hs)
    as (Hwf' & Hown' & Hall).
  split.
  - unfold CachedInteractionThreadResources_Free.
    assert (Hbuf : h_live (free (m_aThreadByteBuffer1 res) h') = h_live h0).
    { destruct Hown' as [[Hnull Hl'] | (Hp & Hnone' & cBytes & Hl')].
      - rewrite Hnull. exact Hl'.
      - eapply free_malloc_live; eassumption. }
    eapply free_malloc_live; [exact HpArena | exact Hnone|].
    rewrite Hbuf. exact Hl.
  - eapply Forall_impl; [exact Hall|].
    intros p [-> | Hp]; [now left|]. right.
    rewrite Hl in Hp.
    destruct (decide (pArena = p)) as [<- | Hne].
    + rewrite lookup_insert_eq in Hp. discriminate.
    + rewrite lookup_insert_ne in Hp by assumption. auto.
Qed.

(** X8. Once [GetThreadByteBuffer1] has had to grow the buffer for a
    request of [n] bytes (with [2 * n] within [size_t]), every later
    request of at most [2 * n] bytes gets the very same pointer and
    touches neither the arena nor the heap.  This holds of a failed growth
    too: the null pointer is handed out again, and [malloc] is not asked
    again. *)
Theorem GetThreadByteBuffer1_reuse res n h p res1 h1 m :
  GetThreadByteBuffer1 res n h = (p, res1, h1) ->
  m_cThreadByteBufferCapacity1 res < n -> 0 <= n -> 2 * n < size_modulus ->
  m <= 2 * n ->
  GetThreadByteBuffer1 res1 m h1 = (p, res1, h1).
Proof.
  intros Hget Hcap Hn Hsmall Hm.
  destruct (GetThreadByteBuffer1_grows res n h Hcap Hn Hsmall)
    as (q & h' & Hq & _).
  rewrite Hq in Hget. inversion Hget; subst; clear Hget.
  apply GetThreadByteBuffer1_fits. simpl. lia.
Qed.

(** *** Building a context *)

Lemma InitializeFeatures_Some cSamples fs :
  forall i afs,
    InitializeFeatures cSamples fs i = Some afs ->
    Forall (valid_native_feature cSamples) fs /\
    afs = imap (fun k f => FeatureOfNative (i + Z.of_nat k) f) fs.
Proof.
  induction fs as [|f fs IH]; intros i afs Hinit;
    cbn [InitializeFeatures] in Hinit.
  - inversion Hinit. split; [constructor | reflexivity].
  - destruct (negb (FeatureTypeOrdinal =? featureType f)
              && negb (FeatureTypeNominal =? featureType f)) eqn:Hty;
      [discriminate|].
    destruct (Z.ltb_spec (countBins f) 0) as [|Hnn]; [discriminate|].
    destruct ((0 =? countBins f) && negb (0 =? cSamples)) eqn:Hz;
      [discriminate|].
    destruct (IsNumberConvertable T_size_t T_IntEbmType (countBins f))
      eqn:Hconv; cbn [negb] in Hinit; [|discriminate].
    destruct (negb (EBM_FALSE =? hasMissing f)
              && negb (EBM_TRUE =? hasMissing f)) eqn:Hmiss;
      [discriminate|].
    destruct (InitializeFeatures cSamples fs (i + 1)) as [rest|] eqn:Hrest;
      [|discriminate].
    apply IH in Hrest. destruct Hrest as [Hvalid ->].
    apply (IsNumberConvertable_size_t Hbits) in Hconv.
    inversion Hinit; subst afs; clear Hinit.
    split.
    + constructor; [|assumption].
      unfold valid_native_feature.
      split; [|split; [lia|split]].
      * destruct (Z.eqb_spec FeatureTypeOrdinal (featureType f)); [auto|].
        destruct (Z.eqb_spec FeatureTypeNominal (featureType f)); [auto|].
        discriminate.
      * intros Hb0. rewrite Hb0, Z.eqb_refl, andb_true_l in Hz.
        apply negb_false_iff, Z.eqb_eq in Hz. lia.
      * destruct (Z.eqb_spec EBM_FALSE (hasMissing f)); [auto|].
        destruct (Z.eqb_spec EBM_TRUE (hasMissing f)); [auto|].
        discriminate.
    + cbn [imap]. f_equal.
      * unfold FeatureOfNative. f_equal; [|lia].
        apply wrap_small. unfold size_max in Hconv. lia.
      * apply imap_ext. intros k x _. cbn. f_equal. lia.
Qed.

Lemma free_live p h :
  h_live (free p h)
  = if Nat.eqb p nullptr then h_live h else delete p (h_live h).
Proof. reflexivity. Qed.

Lemma malloc_trace n h p h' :
  malloc n h = (p, h') -> h_trace h' = EvMalloc n p :: h_trace h.
Proof.
  unfold malloc. destruct (malloc_succeeds h n);
    intros Heq; inversion Heq; reflexivity.
Qed.

(** What [DataSetByFeature::Destruct] leaves of the live blocks. *)
Lemma DataSetByFeature_Destruct_live dataSet :
  Forall (fun p => p <> nullptr) (m_aArrays dataSet) ->
  forall h q,
    h_live (DataSetByFeature_Destruct dataSet h) !! q
    = if decide (q ∈ m_aArrays dataSet) then None else h_live h !! q.
Proof.
  unfold DataSetByFeature_Destruct.
  induction (m_aArrays dataSet) as [|p l IH]; intros Hl h q;
    cbn [fold_left].
  - rewrite decide_False by apply not_elem_of_nil. reflexivity.
  - inversion Hl as [|? ? Hp Hrest]; subst.
    rewrite IH by assumption. rewrite free_live.
    destruct (Nat.eqb_spec p nullptr); [contradiction|].
    destruct (decide (q ∈ l)) as [Hin|Hnin].
    + rewrite decide_True by (apply elem_of_cons; now right). reflexivity.
    + destruct (decide (q = p)) as [->|Hne].
      * rewrite decide_True by (apply elem_of_cons; now left).
        apply lookup_delete_eq.
      * rewrite decide_False
          by (intros Hin; apply elem_of_cons in Hin; tauto).
        now apply lookup_delete_ne.
Qed.

Lemma DataSetByFeature_Destruct_wf dataSet h :
  heap_wf h -> heap_wf (DataSetByFeature_Destruct dataSet h).
Proof.
  unfold DataSetByFeature_Destruct. revert h.
  induction (m_aArrays dataSet) as [|p l IH]; intros h Hwf;
    cbn [fold_left]; [assumption|].
  apply IH. now apply free_wf.
Qed.

(** [EbmInteractionState::Free] on a context whose data set holds arrays
    that were new when the context's own blocks were already there. *)
Lemma EbmInteractionState_Free_restores
    h cf pState pFeatures h2 cs aArrays h3 :
  ContextBlocks h cf pState pFeatures h2 ->
  heap_wf h3 ->
  Forall (fun p => p <> nullptr /\ h_live h2 !! p = None) aArrays ->
  (forall p, p ∉ aArrays -> h_live h3 !! p = h_live h2 !! p) ->
  let h' :=
    EbmInteractionState_Free pState
      {| m_cSamples := cs; m_aArrays := aArrays |} pFeatures h3 in
  heap_wf h' /\ h_live h' = h_live h.
Proof.
  intros (Hwf2 & HpS & HnoneS & Hblocks) Hwf3 Hnew Hframe h'. subst h'.
  unfold EbmInteractionState_Free.
  destruct (Nat.eqb_spec pState nullptr) as [|_]; [contradiction|].
  cbn [negb]. split.
  - apply free_wf, free_wf. now apply DataSetByFeature_Destruct_wf.
  - assert (Hnonnull : Forall (fun p => p <> nullptr) aArrays).
    { eapply Forall_impl; [exact Hnew|]. intros p [Hp _]. exact Hp. }
    assert (Hfresh : forall q, q ∈ aArrays -> h_live h2 !! q = None).
    { intros q Hq. rewrite Forall_forall in Hnew. now apply Hnew. }
    apply map_eq. intros q.
    rewrite !free_live.
    destruct (Nat.eqb_spec pState nullptr) as [|_]; [contradiction|].
    destruct (decide (q = pState)) as [->|HneS].
    { rewrite lookup_delete_eq. symmetry. exact HnoneS. }
    rewrite lookup_delete_ne by congruence.
    destruct Hblocks as [(_ & -> & Hl & _) |
                         (_ & HpF & HneF & HnoneF & _ & Hl & _)].
    + cbn [Nat.eqb nullptr].
      rewrite (DataSetByFeature_Destruct_live
                 {| m_cSamples := cs; m_aArrays := aArrays |} Hnonnull).
      cbn [m_aArrays].
      destruct (decide (q ∈ aArrays)) as [Hin|Hnin].
      * specialize (Hfresh q Hin). rewrite Hl in Hfresh.
        rewrite lookup_insert_ne in Hfresh by congruence.
        symmetry. exact Hfresh.
      * rewrite Hframe by assumption. rewrite Hl.
        now rewrite lookup_insert_ne by congruence.
    + destruct (Nat.eqb_spec pFeatures nullptr); [contradiction|].
      destruct (decide (q = pFeatures)) as [->|HneQ].
      { rewrite lookup_delete_eq. symmetry. exact HnoneF. }
      rewrite lookup_delete_ne by congruence.
      rewrite (DataSetByFeature_Destruct_live
                 {| m_cSamples := cs; m_aArrays := aArrays |} Hnonnull).
      cbn [m_aArrays].
      destruct (decide (q ∈ aArrays)) as [Hin|Hnin].
      * specialize (Hfresh q Hin). rewrite Hl in Hfresh.
        rewrite !lookup_insert_ne in Hfresh by congruence.
        symmetry. exact Hfresh.
      * rewrite Hframe by assumption. rewrite Hl.
        now rewrite !lookup_insert_ne by congruence.
Qed.

(** [EbmInteractionState::Allocate], exit by exit: it returns before it
    has its two blocks, having freed what it had; or it has them, runs
    [DataSetByFeature::Initialize] and, should that fail, hands the
    context to [EbmInteractionState::Free]. *)
Lemma EbmInteractionState_Allocate_spec h classes cf fs cs tg bd ps o h' :
  heap_wf h -> 0 <= cf < size_modulus -> 0 <= sizeof_Feature < size_modulus ->
  EbmInteractionState_Allocate h classes cf fs cs tg bd ps = (o, h') ->
  (o = None /\ heap_wf h' /\ h_live h' = h_live h) \/
  exists pState pFeatures h2 bError aArrays h3,
    let afs :=
      imap (fun k f => FeatureOfNative (Z.of_nat k) f)
           (take (Z.to_nat cf) (default [] fs)) in
    let dataSet := {| m_cSamples := cs; m_aArrays := aArrays |} in
    ContextBlocks h cf pState pFeatures h2 /\
    Forall (valid_native_feature cs) (take (Z.to_nat cf) (default [] fs)) /\
    DataSetInitialize cf afs cs bd tg ps classes h2
    = (bError, aArrays, h3) /\
    if bError then
      o = None /\ h' = EbmInteractionState_Free pState dataSet pFeatures h3
    else
      o = Some {| m_runtimeLearningTypeOrCountTargetClasses := classes;
                  m_cFeatures := cf; m_aFeatures := afs;
                  m_dataSet := dataSet |} /\
      h' = h3.
Proof.
  intros Hwf Hcf Hsz.
  unfold EbmInteractionState_Allocate, DataSetByFeature_Initialize.
  cbv zeta.
  assert (Hfinish : forall pF afs h1 o h',
    heap_wf h1 ->
    (forall pS h2,
        pS <> nullptr -> h_live h1 !! pS = None -> heap_wf h2 ->
        h_live h2 = <[pS := sizeof_EbmInteractionState]> (h_live h1) ->
        h_trace h2 = EvMalloc sizeof_EbmInteractionState pS :: h_trace h1 ->
        ContextBlocks h cf pS pF h2) ->
    h_live (free pF h1) = h_live h ->
    afs = imap (fun k f => FeatureOfNative (Z.of_nat k) f)
               (take (Z.to_nat cf) (default [] fs)) ->
    Forall (valid_native_feature cs) (take (Z.to_nat cf) (default [] fs)) ->
    (let '(pRet, h2) := EbmMalloc_one sizeof_EbmInteractionState h1 in
     if Nat.eqb pRet nullptr then (None, free pF h2)
     else
       let '(bError, dataSet, h3) :=
         (let '(bError, aArrays, h1') :=
            DataSetInitialize cf afs cs bd tg ps classes h2 in
          (bError, {| m_cSamples := cs; m_aArrays := aArrays |}, h1')) in
       if bError then (None, EbmInteractionState_Free pRet dataSet pF h3)
       else
         (Some {| m_runtimeLearningTypeOrCountTargetClasses := classes;
                  m_cFeatures := cf; m_aFeatures := afs;
                  m_dataSet := dataSet |}, h3)) = (o, h') ->
    (o = None /\ heap_wf h' /\ h_live h' = h_live h) \/
    exists pState pFeatures h2 bError aArrays h3,
      ContextBlocks h cf pState pFeatures h2 /\
      Forall (valid_native_feature cs) (take (Z.to_nat cf) (default [] fs)) /\
      DataSetInitialize cf
        (imap (fun k f => FeatureOfNative (Z.of_nat k) f)
              (take (Z.to_nat cf) (default [] fs)))
        cs bd tg ps classes h2
      = (bError, aArrays, h3) /\
      if bError then
        o = None /\
        h' = EbmInteractionState_Free pState
               {| m_cSamples := cs; m_aArrays := aArrays |} pFeatures h3
      else
        o = Some {| m_runtimeLearningTypeOrCountTargetClasses := classes;
                    m_cFeatures := cf;
                    m_aFeatures :=
                      imap (fun k f => FeatureOfNative (Z.of_nat k) f)
                           (take (Z.to_nat cf) (default [] fs));
                    m_dataSet :=
                      {| m_cSamples := cs; m_aArrays := aArrays |} |} /\
        h' = h3).
  { intros pF afs h1 o0 h0 Hwf1 Hblocks Hfree -> Hvalid.
    unfold EbmMalloc_one.
    destruct (malloc _ h1) as [pRet h2] eqn:Hm.
    pose proof (malloc_trace _ _ _ _ Hm) as Htr.
    apply malloc_fresh in Hm; [|assumption].
    destruct Hm as [Hwf2 [[-> Hl] | (Hp & Hnone & Hl)]].
    - cbn. intros Heq. inversion Heq; subst. left.
      split; [reflexivity|]. split; [now apply free_wf|].
      rewrite <- Hfree, !free_live, Hl. reflexivity.
    - destruct (Nat.eqb_spec pRet nullptr); [contradiction|].
      destruct (DataSetInitialize _ _ _ _ _ _ _ h2)
        as [[bError aArrays] h3] eqn:Hdata.
      intros Heq. right.
      exists pRet, pF, h2, bError, aArrays, h3.
      split; [now apply Hblocks|]. split; [exact Hvalid|].
      split; [exact Hdata|].
      destruct bError; inversion Heq; subst; split; reflexivity. }
  destruct (Z.eqb_spec 0 cf) as [Hz | Hnz]; cbn [negb].
  - subst cf. apply Hfinish; try assumption; try reflexivity.
    + intros pS h2 HpS HnoneS Hwf2 Hl Htr.
      split; [assumption|]. split; [assumption|]. split; [assumption|].
      left. auto.
    + constructor.
  - destruct (EbmMalloc sizeof_Feature cf h) as [pF h1] eqn:Hm.
    assert (Hmalloc : cf * sizeof_Feature < size_modulus /\
                      malloc (cf * sizeof_Feature) h = (pF, h1) \/
                      pF = nullptr /\ h1 = h).
    { unfold EbmMalloc in Hm.
      destruct (Z.eqb_spec 1 sizeof_Feature) as [<- | _].
      - left. rewrite Z.mul_1_r. split; [lia | exact Hm].
      - destruct (IsMultiplyError cf sizeof_Feature) eqn:Herr.
        + right. inversion Hm; auto.
        + left.
          assert (cf * sizeof_Feature < size_modulus).
          { destruct (IsMultiplyError_false _ _ Hcf Herr); nia. }
          rewrite wrap_small in Hm by nia. auto. }
    destruct Hmalloc as [[Hfit Hmalloc] | [-> ->]];
      [|cbn; intros Heq; inversion Heq; subst; auto].
    pose proof (malloc_trace _ _ _ _ Hmalloc) as HtrF.
    apply malloc_fresh in Hmalloc; [|assumption].
    destruct Hmalloc as [Hwf1 [[-> Hl] | (HpF & HnoneF & Hl)]].
    + cbn. intros Heq. inversion Heq; subst. auto.
    + destruct (Nat.eqb_spec pF nullptr); [contradiction|].
      destruct (InitializeFeatures cs _ 0) as [afs|] eqn:Hfeat.
      * apply InitializeFeatures_Some in Hfeat.
        destruct Hfeat as [Hvalid ->].
        apply Hfinish; try assumption.
        -- intros pS h2 HpS HnoneS Hwf2 Hl2 Htr2.
           assert (pF <> pS).
           { intros ->. rewrite Hl, lookup_insert_eq in HnoneS.
             discriminate. }
           split; [assumption|]. split; [assumption|].
           split; [rewrite Hl, lookup_insert_ne in HnoneS; congruence|].
           right. split; [congruence|]. split; [assumption|].
           split; [congruence|]. split; [assumption|].
           split; [assumption|].
           rewrite Hl2, Hl, Htr2, HtrF. auto.
        -- eapply free_malloc_live; eassumption.
        -- apply imap_ext. intros k x _. cbn. reflexivity.
      * intros Heq. inversion Heq; subst. left.
        split; [reflexivity|]. split; [now apply free_wf|].
        eapply free_malloc_live; eassumption.
Qed.

Lemma AllocateInteraction_guards h cf fs classes cs tg bd ps o h' :
  AllocateInteraction h cf fs classes cs tg bd ps = (o, h') ->
  (o = None /\ h' = h) \/
  ((0 <= cf <= size_max /\ 0 <= cs <= size_max /\
    (cf <> 0 -> fs <> None) /\
    (cs <> 0 -> tg <> None /\ ps <> None /\ (cf <> 0 -> bd <> None))) /\
   EbmInteractionState_Allocate h classes cf fs cs tg bd ps = (o, h')).
Proof.
  unfold AllocateInteraction.
  destruct (Z.ltb_spec cf 0) as [|Hcf0];
    [intros Heq; inversion Heq; auto|].
  destruct (negb (0 =? cf) && bool_decide (fs = None)) eqn:G1;
    [intros Heq; inversion Heq; auto|].
  destruct (Z.ltb_spec cs 0) as [|Hcs0];
    [intros Heq; inversion Heq; auto|].
  destruct (negb (0 =? cs) && bool_decide (tg = None)) eqn:G2;
    [intros Heq; inversion Heq; auto|].
  destruct (negb (0 =? cs) && negb (0 =? cf) && bool_decide (bd = None))
    eqn:G3; [intros Heq; inversion Heq; auto|].
  destruct (negb (0 =? cs) && bool_decide (ps = None)) eqn:G4;
    [intros Heq; inversion Heq; auto|].
  destruct (IsNumberConvertable T_size_t T_IntEbmType cf) eqn:Ccf;
    cbn [negb]; [|intros Heq; inversion Heq; auto].
  destruct (IsNumberConvertable T_size_t T_IntEbmType cs) eqn:Ccs;
    cbn [negb]; [|intros Heq; inversion Heq; auto].
  apply (IsNumberConvertable_size_t Hbits) in Ccf, Ccs.
  unfold size_max in Ccf, Ccs.
  rewrite (wrap_small cf), (wrap_small cs) by lia.
  intros Halloc. right. split; [|exact Halloc].
  unfold size_max. split; [lia|]. split; [lia|].
  split.
  - intros Hne Hnone. destruct (Z.eqb_spec 0 cf); [lia|].
    rewrite bool_decide_eq_true_2 in G1 by assumption. discriminate.
  - intros Hne. destruct (Z.eqb_spec 0 cs); [lia|].
    split; [|split].
    + intros Hnone.
      rewrite bool_decide_eq_true_2 in G2 by assumption. discriminate.
    + intros Hnone.
      rewrite bool_decide_eq_true_2 in G4 by assumption. discriminate.
    + intros Hne' Hnone. destruct (Z.eqb_spec 0 cf); [lia|].
      rewrite bool_decide_eq_true_2 in G3 by assumption. discriminate.
Qed.

Lemma InitializeInteraction_calls_AllocateInteraction
    h classes cf fs cs bd tgc tgr ps o h' :
  InitializeInteractionClassification h classes cf fs cs bd tgc ps = (o, h') \/
  InitializeInteractionRegression h cf fs cs bd tgr ps = (o, h') ->
  (o = None /\ h' = h) \/
  exists learningType tg,
    AllocateInteraction h cf fs learningType cs tg bd ps = (o, h').
Proof.
  intros [Hinit | Hinit].
  - unfold InitializeInteractionClassification in Hinit.
    destruct (classes <? 0); [left; inversion Hinit; auto|].
    destruct ((0 =? classes) && negb (0 =? cs));
      [left; inversion Hinit; auto|].
    destruct (negb _); [left; inversion Hinit; auto|].
    right. eauto.
  - right. unfold InitializeInteractionRegression in Hinit. eauto.
Qed.

(** Either entry point, exit by exit. *)
Lemma InitializeInteraction_spec
    h classes cf fs cs bd tgc tgr ps o h' :
  heap_wf h -> 0 <= sizeof_Feature < size_modulus ->
  InitializeInteractionClassification h classes cf fs cs bd tgc ps = (o, h') \/
  InitializeInteractionRegression h cf fs cs bd tgr ps = (o, h') ->
  (o = None /\ heap_wf h' /\ h_live h' = h_live h) \/
  exists learningType tg pState pFeatures h2 bError aArrays h3,
    let afs :=
      imap (fun k f => FeatureOfNative (Z.of_nat k) f)
           (take (Z.to_nat cf) (default [] fs)) in
    let dataSet := {| m_cSamples := cs; m_aArrays := aArrays |} in
    ContextBlocks h cf pState pFeatures h2 /\
    DataSetInitialize cf afs cs bd tg ps learningType h2
    = (bError, aArrays, h3) /\
    if bError then
      o = None /\ h' = EbmInteractionState_Free pState dataSet pFeatures h3
    else
      o = Some {| m_runtimeLearningTypeOrCountTargetClasses := learningType;
                  m_cFeatures := cf; m_aFeatures := afs;
                  m_dataSet := dataSet |} /\
      h' = h3.
Proof.
  intros Hwf Hsz Hinit.
  apply InitializeInteraction_calls_AllocateInteraction in Hinit.
  destruct Hinit as [[-> ->] | (lt & tg & Halloc)]; [left; auto|].
  apply AllocateInteraction_guards in Halloc.
  destruct Halloc as [[-> ->] | [(Hcf & _) Halloc]]; [left; auto|].
  apply EbmInteractionState_Allocate_spec in Halloc;
    [|assumption|unfold size_max in Hcf; lia|assumption].
  destruct Halloc as [Hnone | (pS & pF & h2 & bE & arr & h3 & Hb & _ & Hd & Ho)];
    [left; exact Hnone|].
  right. exists lt, tg, pS, pF, h2, bE, arr, h3. cbv zeta. auto.
Qed.

(** X11. When [InitializeInteractionClassification] or
    [InitializeInteractionRegression] returns a null handle, whatever the
    reason, the live blocks are those from before the call, as long as
    the data set keeps to its own arrays: every exit frees the feature
    array and the context it has obtained, and after a failure of
    [DataSetByFeature::Initialize] the context is handed to
    [EbmInteractionState::Free], which also has the data set release what
    it holds. *)
Theorem failed_initialization_keeps_no_block
    h classes cf fs cs bd tgc tgr ps h' :
  DataSetOwnsItsArrays ->
  heap_wf h -> 0 <= sizeof_Feature < size_modulus ->
  InitializeInteractionClassification h classes cf fs cs bd tgc ps
  = (None, h') \/
  InitializeInteractionRegression h cf fs cs bd tgr ps = (None, h') ->
  heap_wf h' /\ h_live h' = h_live h.
Proof.
  intros Hown Hwf Hsz Hinit.
  eapply InitializeInteraction_spec in Hinit; [|assumption|assumption].
  destruct Hinit as [(_ & Hwf' & Hl) |
    (lt & tg & pS & pF & h2 & bE & arr & h3 & Hblocks & Hdata & Ho)];
    [auto|].
  destruct bE; [|destruct Ho; discriminate].
  destruct Ho as [_ ->].
  pose proof Hblocks as (Hwf2 & _).
  destruct (Hown _ _ _ _ _ _ _ _ _ _ _ Hwf2 Hdata) as (Hwf3 & Hnew & Hframe).
  eapply EbmInteractionState_Free_restores; eassumption.
Qed.

(** X10. A successful [InitializeInteractionClassification] or
    [InitializeInteractionRegression] obtains two blocks for itself, and
    frees nothing: first the [cFeatures * sizeof(Feature)] bytes of the
    features (not at all when there is no feature), then the context;
    both are fresh.  Only then is [DataSetByFeature::Initialize] run, on
    the heap that holds them, and the heap it leaves is the heap of the
    call. *)
Theorem initialization_allocates_two_blocks
    h classes cf fs cs bd tgc tgr ps st h' :
  heap_wf h -> 0 <= sizeof_Feature < size_modulus ->
  InitializeInteractionClassification h classes cf fs cs bd tgc ps
  = (Some st, h') \/
  InitializeInteractionRegression h cf fs cs bd tgr ps = (Some st, h') ->
  exists pState pFeatures h2 tg,
    ContextBlocks h (m_cFeatures st) pState pFeatures h2 /\
    DataSetInitialize (m_cFeatures st) (m_aFeatures st) cs bd tg ps
      (m_runtimeLearningTypeOrCountTargetClasses st) h2
    = (false, m_aArrays (m_dataSet st), h').
Proof.
  intros Hwf Hsz Hinit.
  eapply InitializeInteraction_spec in Hinit; [|assumption|assumption].
  destruct Hinit as [(Hnone & _) |
    (lt & tg & pS & pF & h2 & bE & arr & h3 & Hblocks & Hdata & Ho)];
    [discriminate|].
  destruct bE; [destruct Ho; discriminate|].
  destruct Ho as [Hst ->]. inversion Hst; subst st; clear Hst.
  exists pS, pF, h2, tg. cbn. split; assumption.
Qed.

(** X9. A handle from [InitializeInteractionClassification] that is not
    null certifies its arguments: the class count is not negative, fits
    [ptrdiff_t] and is zero only without samples; the feature and sample
    counts fit [size_t]; no array that is needed is null; every native
    feature is valid.  The context records the class count, the counts and,
    for each native feature in order, its bin count, its index, its type
    and whether it has missing values. *)
Theorem classification_handle_certifies_arguments
    h classes cf fs cs bd tg ps st h' :
  InitializeInteractionClassification h classes cf fs cs bd tg ps
  = (Some st, h') ->
  (0 <= classes <= type_max T_ptrdiff_t /\ (classes = 0 -> cs = 0)) /\
  (0 <= cf <= size_max /\ 0 <= cs <= size_max /\
   (cf <> 0 -> fs <> None) /\
   (cs <> 0 -> tg <> None /\ ps <> None /\ (cf <> 0 -> bd <> None))) /\
  Forall (valid_native_feature cs) (take (Z.to_nat cf) (default [] fs)) /\
  st = {| m_runtimeLearningTypeOrCountTargetClasses := classes;
          m_cFeatures := cf;
          m_aFeatures :=
            imap (fun k f => FeatureOfNative (Z.of_nat k) f)
                 (take (Z.to_nat cf) (default [] fs));
          m_dataSet :=
            {| m_cSamples := cs;
               m_aArrays := m_aArrays (m_dataSet st) |} |}.
Proof.
  unfold InitializeInteractionClassification.
  destruct (Z.ltb_spec classes 0) as [|Hc0]; [discriminate|].
  destruct ((0 =? classes) && negb (0 =? cs)) eqn:Hz; [discriminate|].
  destruct (IsNumberConvertable T_ptrdiff_t T_IntEbmType classes) eqn:Hconv;
    cbn [negb]; [|discriminate].
  intros Halloc. apply AllocateInteraction_guards in Halloc.
  destruct Halloc as [[Hnone _] | [Hargs Halloc]]; [discriminate|].
  assert (Hstate :
    Forall (valid_native_feature cs) (take (Z.to_nat cf) (default [] fs)) /\
    st = {| m_runtimeLearningTypeOrCountTargetClasses := classes;
            m_cFeatures := cf;
            m_aFeatures :=
              imap (fun k f => FeatureOfNative (Z.of_nat k) f)
                   (take (Z.to_nat cf) (default [] fs));
            m_dataSet :=
              {| m_cSamples := cs;
                 m_aArrays := m_aArrays (m_dataSet st) |} |}).
  { revert Halloc.
    unfold EbmInteractionState_Allocate, DataSetByFeature_Initialize.
    cbv zeta.
    destruct (negb (0 =? cf)) eqn:Hcf0.
    - destruct (EbmMalloc _ _ h) as [p h1].
      destruct (Nat.eqb p nullptr); [discriminate|].
      destruct (InitializeFeatures _ _ _) as [afs|] eqn:Hfeat;
        [|discriminate].
      apply InitializeFeatures_Some in Hfeat.
      destruct Hfeat as [Hvalid ->].
      destruct (EbmMalloc_one _ h1) as [pRet h2].
      destruct (Nat.eqb pRet nullptr); [discriminate|].
      destruct (DataSetInitialize _ _ _ _ _ _ _ h2) as [[bE arr] h3].
      destruct bE; [discriminate|].
      intros Heq. inversion Heq; subst. cbn. split; [assumption|].
      reflexivity.
    - apply negb_false_iff, Z.eqb_eq in Hcf0. subst cf.
      destruct (EbmMalloc_one _ h) as [pRet h2].
      destruct (Nat.eqb pRet nullptr); [discriminate|].
      destruct (DataSetInitialize _ _ _ _ _ _ _ h2) as [[bE arr] h3].
      destruct bE; [discriminate|].
      intros Heq. inversion Heq; subst. cbn. split; [constructor|].
      reflexivity. }
  destruct Hstate as [Hvalid Hst].
  split; [|split; [|split]]; try assumption.
  - split.
    + unfold IsNumberConvertable in Hconv.
      cbn [is_signed] in Hconv. apply andb_true_iff in Hconv.
      rewrite !Z.leb_le in Hconv. lia.
    + intros ->. rewrite Z.eqb_refl, andb_true_l in Hz.
      apply negb_false_iff, Z.eqb_eq in Hz. lia.
  - destruct Hargs as (? & ? & ? & Hnull). repeat (split; [assumption|]).
    intros Hne. destruct (Hnull Hne) as (Ht & ? & ?).
    split; [|auto]. intros ->. apply Ht. reflexivity.
Qed.

(** X12. [FreeInteraction] undoes a successful initialisation, as long
    as the data set keeps to its own arrays: called with the address
    [malloc] returned for the context, whose field [m_aFeatures] holds the
    address [malloc] returned for the features ([nullptr] without
    features) and whose data set is the one the initialisation set up, it
    leaves the live blocks as they were before the initialisation.
    Called with [nullptr] it does nothing. *)
Theorem FreeInteraction_releases_the_context
    h classes cf fs cs bd tgc tgr ps st h' :
  DataSetOwnsItsArrays ->
  heap_wf h -> 0 <= sizeof_Feature < size_modulus ->
  InitializeInteractionClassification h classes cf fs cs bd tgc ps
  = (Some st, h') \/
  InitializeInteractionRegression h cf fs cs bd tgr ps = (Some st, h') ->
  exists pState aFeatures h2,
    ContextBlocks h (m_cFeatures st) pState aFeatures h2 /\
    heap_wf (FreeInteraction pState (m_dataSet st) aFeatures h') /\
    h_live (FreeInteraction pState (m_dataSet st) aFeatures h') = h_live h /\
    forall dataSet q, FreeInteraction nullptr dataSet q h' = h'.
Proof.
  intros Hown Hwf Hsz Hinit.
  eapply InitializeInteraction_spec in Hinit; [|assumption|assumption].
  destruct Hinit as [(Hnone & _) |
    (lt & tg & pS & pF & h2 & bE & arr & h3 & Hblocks & Hdata & Ho)];
    [discriminate|].
  destruct bE; [destruct Ho; discriminate|].
  destruct Ho as [Hst ->]. inversion Hst; subst st; clear Hst.
  cbn [m_cFeatures m_dataSet].
  exists pS, pF, h2. split; [exact Hblocks|].
  pose proof Hblocks as (Hwf2 & _).
  destruct (Hown _ _ _ _ _ _ _ _ _ _ _ Hwf2 Hdata) as (Hwf3 & Hnew & Hframe).
  unfold FreeInteraction.
  destruct (EbmInteractionState_Free_restores
              h cf pS pF h2 cs arr h3 Hblocks Hwf3 Hnew Hframe)
    as [Hwf' Hl].
  split; [exact Hwf'|]. split; [exact Hl|]. reflexivity.
Qed.

(** *** What a scoring call returns *)

Lemma Internal_cell res h st g c :
  exists err written res' h' stages overrun,
    (forall out,
        CalculateInteractionScoreInternal res h st g c out
        = {| ir_error := err; ir_score := CellAfter written out;
             ir_resources := res'; ir_heap := h'; ir_stages := stages;
             ir_overrun := overrun |}) /\
    (err = true -> written = None) /\ (err = false -> written <> None).
Proof.
  unfold CalculateInteractionScoreInternal.
  destruct (InteractionBufferSizes _ g) as [sz|].
  - destruct (GetThreadByteBuffer1 res (cBytesBuffer sz) h) as [[p res1] h1].
    destruct (Nat.eqb p nullptr).
    + exists true, None. do 4 eexists.
      split; [intros; reflexivity|]. split; [auto | discriminate].
    + destruct (2 =? GetCountFeatures g).
      * exists false. eexists (Some _). do 4 eexists.
        split; [intros; reflexivity|]. split; [discriminate | discriminate].
      * exists false. eexists (Some _). do 4 eexists.
        split; [intros; reflexivity|]. split; [discriminate | discriminate].
  - exists true, None. do 4 eexists.
    split; [intros; reflexivity|]. split; [auto | discriminate].
Qed.




(** X13. [CalculateInteractionScore] never reads the cell behind
    [interactionScoreOut]: the status, the heap, the stages and whether
    the buffer is overrun do not depend on the pointer or on what the
    cell holds, and the cell is either left alone or overwritten with a
    value that does not depend on its content.  The status is 0 or 1;
    with status 0 the cell has been written, with status 1 it is
    untouched or holds zero. *)
Theorem score_cell_is_write_only h ctx count idxs cmin :
  exists status written heap stages overrun,
    (forall out,
        CalculateInteractionScore h ctx count idxs cmin out
        = {| r_status := status; r_score := CellAfter written out;
             r_heap := heap; r_stages := stages;
             r_overrun := overrun |}) /\
    (status = 0 /\ written <> None \/
     status = 1 /\ (written = None \/ written = Some FloatZero)).
Proof.
  assert (Hzero : forall status,
    status = 0 \/ status = 1 ->
    exists status' written heap stages overrun,
      (forall out,
          {| r_status := status; r_score := StoreScore out FloatZero;
             r_heap := h; r_stages := []; r_overrun := false |}
          = {| r_status := status'; r_score := CellAfter written out;
               r_heap := heap; r_stages := stages;
               r_overrun := overrun |}) /\
      (status' = 0 /\ written <> None \/
       status' = 1 /\ (written = None \/ written = Some FloatZero))).
  { intros status Hs. exists status, (Some FloatZero), h, [], false.
    split; [intros; reflexivity|].
    destruct Hs as [-> | ->]; [left | right]; split; auto; discriminate. }
  assert (Hkept : forall heap,
    exists status' written heap' stages overrun,
      (forall out,
          {| r_status := 1; r_score := out; r_heap := heap; r_stages := [];
             r_overrun := false |}
          = {| r_status := status'; r_score := CellAfter written out;
               r_heap := heap'; r_stages := stages;
               r_overrun := overrun |}) /\
      (status' = 0 /\ written <> None \/
       status' = 1 /\ (written = None \/ written = Some FloatZero))).
  { intros heap. exists 1, None, heap, [], false.
    split; [intros; reflexivity|]. right. auto. }
  unfold CalculateInteractionScore.
  destruct ctx as [st|]; [|apply Hzero; auto].
  destruct (count <? 0); [apply Hzero; auto|].
  destruct (negb (0 =? count) && bool_decide (idxs = None));
    [apply Hzero; auto|].
  destruct (negb (IsNumberConvertable T_size_t T_IntEbmType count));
    [apply Hzero; auto|].
  destruct (0 =? wrap count); [apply Hzero; auto|].
  destruct (0 =? GetCountSamples (m_dataSet st)); [apply Hzero; auto|].
  destruct (CheckFeatureIndexes st _);
    [apply Hzero; auto | apply Hzero; auto |].
  destruct (k_cDimensionsMax <? wrap count); [apply Hkept|].
  destruct ((0 =? m_runtimeLearningTypeOrCountTargetClasses st)
            || (1 =? m_runtimeLearningTypeOrCountTargetClasses st));
    [apply Hzero; auto|].
  destruct (CachedInteractionThreadResources_Allocate h) as [[pc res] h1].
  destruct (Nat.eqb pc nullptr); [apply Hkept|].
  match goal with
  | |- context [CalculateInteractionScoreInternal ?r ?hh ?s ?g ?c _] =>
      destruct (Internal_cell r hh s g c)
        as (err & written & res' & h' & stages & over & Hir & Herr & Hok)
  end.
  exists (if err then 1 else 0), written,
    (CachedInteractionThreadResources_Free pc res' h'), stages, over.
  split.
  - intros out. rewrite Hir. reflexivity.
  - destruct err; [right | left]; auto.
Qed.

(** X14. On a context without samples, a call with a feature count that
    fits [size_t] and, when it is not zero, an index array that is not
    null returns status 0 and writes zero without looking at the indexes,
    touching the heap or running a stage. *)
Theorem no_samples_scores_zero h st count idxs cmin out :
  GetCountSamples (m_dataSet st) = 0 ->
  0 <= count <= size_max -> (count <> 0 -> idxs <> None) ->
  CalculateInteractionScore h (Some st) count idxs cmin out
  = {| r_status := 0; r_score := StoreScore out FloatZero;
       r_heap := h; r_stages := []; r_overrun := false |}.
Proof.
  intros Hsamples Hcount Hidx. unfold CalculateInteractionScore.
  destruct (Z.ltb_spec count 0); [lia|].
  replace (IsNumberConvertable T_size_t T_IntEbmType count) with true
    by (symmetry; now apply (IsNumberConvertable_size_t Hbits)).
  cbn [negb]. unfold size_max in Hcount. rewrite (wrap_small count) by lia.
  destruct (Z.eqb_spec 0 count) as [<- | Hnz]; cbn [negb andb];
    [reflexivity|].
  rewrite bool_decide_eq_false_2 by auto.
  rewrite Hsamples. reflexivity.
Qed.

Lemma CheckFeatureIndexes_app st pre rest :
  m_cFeatures st <= size_modulus ->
  Forall (valid_index st) pre ->
  Forall (fun b => 2 <= b) (GroupBins st pre) ->
  CheckFeatureIndexes st (pre ++ rest) = CheckFeatureIndexes st rest.
Proof.
  intros Hcf Hvalid. induction Hvalid as [|i pre Hi Hpre IH]; intros Hb.
  - reflexivity.
  - cbn [app]. rewrite (CheckFeatureIndexes_step Hbits) by assumption.
    cbn in Hb. inversion Hb; subst.
    destruct (Z.leb_spec (GetCountBins (m_aFeatures st !!! Z.to_nat i)) 1);
      [lia|]. now apply IH.
Qed.

Lemma CheckFeatureIndexes_invalid st i rest :
  ~ valid_index st i -> CheckFeatureIndexes st (i :: rest) = GroupInvalid.
Proof.
  intros Hinv. cbn [CheckFeatureIndexes].
  destruct (Z.ltb_spec i 0); [reflexivity|].
  destruct (IsNumberConvertable T_size_t T_IntEbmType i) eqn:Hconv;
    cbn [negb]; [|reflexivity].
  apply (IsNumberConvertable_size_t Hbits) in Hconv. unfold size_max in Hconv.
  rewrite wrap_small by lia.
  destruct (Z.leb_spec (m_cFeatures st) i); [reflexivity|].
  exfalso. apply Hinv. unfold valid_index. lia.
Qed.

(** X15. The indexes are validated in order and the first one that stops
    the loop decides: after indexes in range with at least two bins each,
    an index in range whose feature has at most one bin ends the call with
    status 0 and a score of zero, and an index out of range ends it with
    status 1 and a score of zero, whatever the indexes that follow. *)
Theorem first_offending_index_decides h st pre i post cmin out :
  m_cFeatures st <= size_modulus ->
  GetCountSamples (m_dataSet st) <> 0 ->
  Z.of_nat (length (pre ++ i :: post)) <= size_max ->
  Forall (valid_index st) pre ->
  Forall (fun b => 2 <= b) (GroupBins st pre) ->
  let r :=
    CalculateInteractionScore h (Some st)
      (Z.of_nat (length (pre ++ i :: post))) (Some (pre ++ i :: post))
      cmin out in
  (valid_index st i ->
   GetCountBins (m_aFeatures st !!! Z.to_nat i) <= 1 ->
   r = {| r_status := 0; r_score := StoreScore out FloatZero;
          r_heap := h; r_stages := []; r_overrun := false |}) /\
  (~ valid_index st i ->
   r = {| r_status := 1; r_score := StoreScore out FloatZero;
          r_heap := h; r_stages := []; r_overrun := false |}).
Proof.
  intros Hcf Hsamples Hlen Hvalid Hbins r.
  assert (Hne : pre ++ i :: post <> []) by (destruct pre; discriminate).
  destruct (call_guards Hbits _ Hne Hlen) as (G1 & G2 & G3 & G4 & G5 & G6).
  subst r. unfold CalculateInteractionScore.
  rewrite G1, G2, G3, G4, G5. cbn [default from_option id]. rewrite G6.
  destruct (Z.eqb_spec 0 (GetCountSamples (m_dataSet st))); [lia|].
  rewrite CheckFeatureIndexes_app by assumption.
  split.
  - intros Hi Hflat. rewrite (CheckFeatureIndexes_step Hbits) by assumption.
    destruct (Z.leb_spec (GetCountBins (m_aFeatures st !!! Z.to_nat i)) 1);
      [reflexivity | lia].
  - intros Hinv. rewrite CheckFeatureIndexes_invalid by assumption.
    reflexivity.
Qed.

Lemma CheckFeatureIndexes_checked_inv st indexes :
  CheckFeatureIndexes st indexes = GroupChecked ->
  Forall (valid_index st) indexes /\
  Forall (fun b => 2 <= b) (GroupBins st indexes).
Proof.
  induction indexes as [|i rest IH]; intros Hc.
  - split; constructor.
  - cbn [CheckFeatureIndexes] in Hc.
    destruct (Z.ltb_spec i 0); [discriminate|].
    destruct (IsNumberConvertable T_size_t T_IntEbmType i) eqn:Hconv;
      cbn [negb] in Hc; [|discriminate].
    apply (IsNumberConvertable_size_t Hbits) in Hconv.
    unfold size_max in Hconv.
    rewrite wrap_small in Hc by lia.
    destruct (Z.leb_spec (m_cFeatures st) i); [discriminate|].
    destruct (Z.leb_spec (GetCountBins (m_aFeatures st !!! Z.to_nat i)) 1);
      [discriminate|].
    destruct (IH Hc) as [Hv Hb].
    split; constructor; try assumption.
    + unfold valid_index. lia.
    + lia.
Qed.

(** X16. [CalculateInteractionScore] runs a stage, or touches the heap,
    only for a sound call: the index array is not null, the feature count
    is between 1 and [k_cDimensionsMax], every index is in range, every
    feature has at least two bins, the context has samples and its class
    count is neither 0 nor 1. *)
Theorem pipeline_needs_a_sound_group h st count idxs cmin out :
  r_stages (CalculateInteractionScore h (Some st) count idxs cmin out) <> []
  \/ r_heap (CalculateInteractionScore h (Some st) count idxs cmin out) <> h ->
  exists l,
    idxs = Some l /\ 1 <= count <= k_cDimensionsMax /\
    Forall (valid_index st) (take (Z.to_nat count) l) /\
    Forall (fun b => 2 <= b) (GroupBins st (take (Z.to_nat count) l)) /\
    GetCountSamples (m_dataSet st) <> 0 /\
    m_runtimeLearningTypeOrCountTargetClasses st <> 0 /\
    m_runtimeLearningTypeOrCountTargetClasses st <> 1.
Proof.
  unfold CalculateInteractionScore.
  assert (Hexit : forall status score,
    r_stages {| r_status := status; r_score := score; r_heap := h;
                r_stages := []; r_overrun := false |} <> []
    \/ r_heap {| r_status := status; r_score := score; r_heap := h;
                 r_stages := []; r_overrun := false |} <> h ->
    exists l,
      idxs = Some l /\ 1 <= count <= k_cDimensionsMax /\
      Forall (valid_index st) (take (Z.to_nat count) l) /\
      Forall (fun b => 2 <= b) (GroupBins st (take (Z.to_nat count) l)) /\
      GetCountSamples (m_dataSet st) <> 0 /\
      m_runtimeLearningTypeOrCountTargetClasses st <> 0 /\
      m_runtimeLearningTypeOrCountTargetClasses st <> 1).
  { cbn. intros _ _ [? | ?]; contradiction. }
  destruct (Z.ltb_spec count 0); [apply Hexit|].
  destruct (negb (0 =? count) && bool_decide (idxs = None)) eqn:Hnull;
    [apply Hexit|].
  destruct (IsNumberConvertable T_size_t T_IntEbmType count) eqn:Hconv;
    cbn [negb]; [|apply Hexit].
  apply (IsNumberConvertable_size_t Hbits) in Hconv. unfold size_max in Hconv.
  rewrite (wrap_small count) by lia.
  destruct (Z.eqb_spec 0 count); [apply Hexit|].
  destruct (Z.eqb_spec 0 (GetCountSamples (m_dataSet st))); [apply Hexit|].
  destruct idxs as [l|];
    [|rewrite bool_decide_eq_true_2 in Hnull by reflexivity; discriminate].
  cbn [default from_option id].
  destruct (CheckFeatureIndexes st (take (Z.to_nat count) l)) eqn:Hchk;
    [apply Hexit | apply Hexit |].
  apply CheckFeatureIndexes_checked_inv in Hchk. destruct Hchk as [Hv Hb].
  destruct (Z.ltb_spec k_cDimensionsMax count); [apply Hexit|].
  destruct (Z.eqb_spec 0 (m_runtimeLearningTypeOrCountTargetClasses st));
    [apply Hexit|].
  destruct (Z.eqb_spec 1 (m_runtimeLearningTypeOrCountTargetClasses st));
    [apply Hexit|].
  intros _. exists l. repeat split; auto; lia.
Qed.

(** *** The dispatch of the sweep *)




(** *** Which groups the sizing accepts *)

Lemma SizeTensor_accepts entries :
  forall aux total,
    Forall (fun f => 2 <= GetCountBins f) entries ->
    1 <= total -> 0 <= aux ->
    total * TensorProduct (map GetCountBins entries)
    + (aux + total * PartialProducts (map GetCountBins entries))
    < size_modulus ->
    SizeTensor entries aux total
    = Some (aux + total * PartialProducts (map GetCountBins entries),
            total * TensorProduct (map GetCountBins entries)).
Proof.
  induction entries as [|e rest IH]; intros aux total Hbins Ht Ha Hfit.
  - cbn. f_equal. f_equal; lia.
  - inversion Hbins as [|? ? Hb Hrest]; subst.
    cbn [SizeTensor map TensorProduct PartialProducts] in *.
    set (T := TensorProduct (map GetCountBins rest)) in *.
    set (P := PartialProducts (map GetCountBins rest)) in *.
    assert (HT : 1 <= T).
    { unfold T. clear -Hrest. induction rest as [|f rest IH]; cbn; [lia|].
      inversion Hrest; subst. specialize (IH ltac:(assumption)). nia. }
    assert (HP : 0 <= P).
    { unfold P. clear -Hrest. induction rest as [|f rest IH]; cbn; [lia|].
      inversion Hrest; subst. specialize (IH ltac:(assumption)). nia. }
    assert (Herr : IsMultiplyError total (GetCountBins e) = false).
    { destruct (IsMultiplyError total (GetCountBins e)) eqn:Herr;
        [|reflexivity].
      apply IsMultiplyError_true_iff in Herr; [|nia]. nia. }
    rewrite Herr.
    rewrite (wrap_small (aux + total)) by nia.
    rewrite (wrap_small (total * GetCountBins e)) by nia.
    rewrite IH; [|assumption|nia|nia|fold T P; nia].
    fold T P. f_equal. f_equal; lia.
Qed.

(** X18. For a group whose features have at least two bins each, the
    sizing computations of [CalculateInteractionScoreInternal] accept the
    group exactly when the cell size does not overflow, the cell count
    (the product of the bin counts plus the auxiliary cells) fits
    [size_t], and the cell count times the cell size plus one fits
    [2^size_t_bits]. *)
Theorem InteractionBufferSizes_accepts_iff classes g :
  let cBins :=
    map GetCountBins
        (take (Z.to_nat (GetCountFeatures g)) (GetFeatureGroupEntries g)) in
  let bytes :=
    GetHistogramBucketSize (IsClassification classes)
                           (GetVectorLength classes) in
  let cells := TensorProduct cBins + Z.max 4 (PartialProducts cBins) in
  Forall (fun b => 2 <= b) cBins -> 0 <= bytes ->
  (InteractionBufferSizes classes g <> None <->
   GetHistogramBucketSizeOverflow (IsClassification classes)
                                  (GetVectorLength classes) = false /\
   cells < size_modulus /\ cells * (bytes + 1) <= size_modulus).
Proof.
  intros cBins bytes cells Hbins Hbytes.
  pose proof (size_modulus_large Hbits) as Hlarge.
  assert (HT : 1 <= TensorProduct cBins /\ 0 <= PartialProducts cBins).
  { clear -Hbins. induction Hbins as [|b l Hb Hl IH]; cbn; [lia|nia]. }
  assert (Hcells5 : 5 <= cells) by (unfold cells; lia).
  split.
  - intros Hsome.
    destruct (InteractionBufferSizes classes g) as [sz|] eqn:Hsz;
      [clear Hsome | contradiction].
    pose proof (InteractionBufferSizes_Some Hbits classes g sz Hbins Hsz)
      as (_ & _ & Htotal & Hlt & _ & _ & _ & _).
    fold cBins in Htotal. fold cells in Htotal.
    unfold InteractionBufferSizes in Hsz.
    destruct (SizeTensor _ 0 1) as [[a t]|] eqn:Hloop; [|discriminate].
    apply SizeTensor_Some in Hloop; [|apply Forall_bins; exact Hbins|lia|lia].
    fold cBins in Hloop. destruct Hloop as (Ht & Ha & Htr & Har).
    set (cAux := if a <? 4 then 4 else a) in Hsz.
    assert (HcAux : t + cAux = cells).
    { unfold cAux, cells. destruct (Z.ltb_spec a 4); lia. }
    destruct (IsAddError t cAux); [discriminate|].
    destruct (GetHistogramBucketSizeOverflow _ _); [discriminate|].
    fold bytes in Hsz.
    destruct (IsMultiplyError (wrap (t + cAux)) bytes) eqn:Hmul;
      [discriminate|].
    inversion Hsz; subst sz; clear Hsz. cbn in Htotal, Hlt.
    rewrite Htotal in Hmul.
    rewrite Htotal in Hlt.
    split; [reflexivity|]. split; [assumption|].
    assert (Hrange : 0 <= cells < size_modulus) by lia.
    destruct (IsMultiplyError_false _ _ Hrange Hmul); nia.
  - intros (Hflag & Hcells & Hfit).
    unfold InteractionBufferSizes.
    rewrite SizeTensor_accepts;
      [|apply Forall_bins; exact Hbins|lia|lia|fold cBins; unfold cells in *; lia].
    fold cBins. rewrite !Z.mul_1_l, Z.add_0_l.
    set (cAux := if PartialProducts cBins <? 4 then 4
                 else PartialProducts cBins).
    assert (HcAux : cAux = Z.max 4 (PartialProducts cBins)).
    { unfold cAux. destruct (Z.ltb_spec (PartialProducts cBins) 4); lia. }
    assert (Hadd : IsAddError (TensorProduct cBins) cAux = false).
    { destruct (IsAddError _ _) eqn:Hadd; [|reflexivity].
      apply IsAddError_true_iff in Hadd; unfold cells in *; lia. }
    rewrite Hadd, Hflag. fold bytes.
    rewrite (wrap_small (TensorProduct cBins + cAux))
      by (unfold cells in *; lia).
    assert (Hmul : IsMultiplyError (TensorProduct cBins + cAux) bytes = false).
    { destruct (IsMultiplyError _ _) eqn:Hmul; [|reflexivity].
      apply IsMultiplyError_true_iff in Hmul; [|unfold cells in *; lia].
      rewrite HcAux in Hmul. fold cells in Hmul. nia. }
    rewrite Hmul. discriminate.
Qed.

(** X19. The limit [k_cDimensionsMax] on the number of features of a
    group costs nothing: for a group of more features, each with at least
    two bins, the sizing computations fail as well. *)
Theorem dimension_guard_is_implied_by_sizing classes g :
  let entries :=
    take (Z.to_nat (GetCountFeatures g)) (GetFeatureGroupEntries g) in
  Forall (fun f => 2 <= GetCountBins f) entries ->
  k_cDimensionsMax < Z.of_nat (length entries) ->
  InteractionBufferSizes classes g = None.
Proof.
  intros entries Hbins Hlong.
  apply (InteractionBufferSizes_overflow Hbits).
  - fold entries. clear -Hbins.
    induction Hbins; cbn; constructor; assumption.
  - left. fold entries.
    rewrite (k_cDimensionsMax_eq Hbits) in Hlong.
    assert (Hpow : forall l : list Feature,
      Forall (fun f => 2 <= GetCountBins f) l ->
      2 ^ Z.of_nat (length l) <= TensorProduct (map GetCountBins l)).
    { clear. induction 1 as [|f l Hf Hl IH]; [cbn; lia|].
      cbn [length map TensorProduct].
      rewrite Nat2Z.inj_succ, Z.pow_succ_r by lia. nia. }
    specialize (Hpow entries Hbins).
    unfold size_modulus.
    assert (2 ^ size_t_bits <= 2 ^ Z.of_nat (length entries)).
    { apply Z.pow_le_mono_r; destruct Hbits; lia. }
    lia.
Qed.

(** *** Counting the indexes of the feature groups *)

Lemma CountFeatureGroupsIndexes_loop_valid counts :
  forall acc,
    0 <= acc <= size_max ->
    Forall (fun c => 0 <= c <= size_max) counts ->
    CountFeatureGroupsIndexes_loop counts acc
    = Z.min size_max (acc + TotalCount counts).
Proof.
  induction counts as [|c rest IH]; intros acc Hacc Hvalid.
  - cbn. lia.
  - inversion Hvalid as [|? ? Hc Hrest]; subst.
    assert (Hsum : 0 <= TotalCount rest).
    { clear -Hrest. unfold TotalCount.
      induction Hrest as [|x l Hx Hl IH]; cbn [foldr]; lia. }
    cbn [CountFeatureGroupsIndexes_loop TotalCount foldr].
    fold (TotalCount rest).
    replace (IsNumberConvertable T_size_t T_IntEbmType c) with true
      by (symmetry; now apply (IsNumberConvertable_size_t Hbits)).
    cbn [negb]. unfold size_max in *.
    rewrite (wrap_small c) by lia.
    destruct (IsAddError acc c) eqn:Hadd.
    + apply IsAddError_true_iff in Hadd; lia.
    + apply IsAddError_false in Hadd; [|lia|lia].
      rewrite (wrap_small (acc + c)) by lia.
      rewrite IH; [|lia|assumption]. lia.
Qed.

Lemma CountFeatureGroupsIndexes_loop_invalid counts :
  forall acc,
    0 <= acc <= size_max ->
    Exists (fun c => ~ 0 <= c <= size_max) counts ->
    CountFeatureGroupsIndexes_loop counts acc = size_max.
Proof.
  induction counts as [|c rest IH]; intros acc Hacc Hex;
    [inversion Hex|].
  cbn [CountFeatureGroupsIndexes_loop].
  destruct (IsNumberConvertable T_size_t T_IntEbmType c) eqn:Hconv;
    cbn [negb]; [|reflexivity].
  apply (IsNumberConvertable_size_t Hbits) in Hconv.
  inversion Hex as [? ? Hc | ? ? Hrest]; subst; [contradiction|].
  destruct (IsAddError acc (wrap c)) eqn:Hadd; [reflexivity|].
  apply IH; [|assumption].
  pose proof (wrap_range Hbits (acc + wrap c)). unfold size_max. lia.
Qed.

(** X21. [CountFeatureGroupsIndexes] returns the sum of the feature
    counts of the groups, or [SIZE_MAX] when that sum is larger; it returns
    [SIZE_MAX] as soon as one count is negative or does not fit [size_t];
    a result other than [SIZE_MAX] is the exact sum of counts that are all
    valid. *)
Theorem CountFeatureGroupsIndexes_total cFeatureGroups aFeatureGroups :
  let counts := take (Z.to_nat cFeatureGroups) aFeatureGroups in
  (Forall (fun c => 0 <= c <= size_max) counts ->
   CountFeatureGroupsIndexes cFeatureGroups aFeatureGroups
   = Z.min size_max (TotalCount counts)) /\
  (Exists (fun c => ~ 0 <= c <= size_max) counts ->
   CountFeatureGroupsIndexes cFeatureGroups aFeatureGroups = size_max) /\
  (CountFeatureGroupsIndexes cFeatureGroups aFeatureGroups <> size_max ->
   Forall (fun c => 0 <= c <= size_max) counts /\
   CountFeatureGroupsIndexes cFeatureGroups aFeatureGroups
   = TotalCount counts).
Proof.
  intros counts.
  pose proof (size_modulus_large Hbits) as Hlarge.
  assert (Hloop : CountFeatureGroupsIndexes cFeatureGroups aFeatureGroups
                  = CountFeatureGroupsIndexes_loop counts 0).
  { unfold CountFeatureGroupsIndexes, counts.
    destruct (Z.eqb_spec 0 cFeatureGroups) as [<- | _]; reflexivity. }
  rewrite Hloop.
  assert (Hacc : 0 <= 0 <= size_max) by (unfold size_max; lia).
  assert (Hvalid : Forall (fun c => 0 <= c <= size_max) counts ->
            CountFeatureGroupsIndexes_loop counts 0
            = Z.min size_max (TotalCount counts)).
  { intros Hv. now rewrite CountFeatureGroupsIndexes_loop_valid. }
  assert (Hinvalid : Exists (fun c => ~ 0 <= c <= size_max) counts ->
            CountFeatureGroupsIndexes_loop counts 0 = size_max).
  { intros Hex. now apply CountFeatureGroupsIndexes_loop_invalid. }
  split; [exact Hvalid|]. split; [exact Hinvalid|].
  intros Hne.
  assert (Hall : Forall (fun c => 0 <= c <= size_max) counts).
  { apply Forall_forall. intros c Hc.
    destruct (decide (0 <= c <= size_max)) as [|Hbad]; [assumption|].
    exfalso. apply Hne, Hinvalid. apply Exists_exists. eauto. }
  split; [assumption|].
  rewrite Hvalid in * by assumption. lia.
Qed.

End FurtherFacts.

(** ** The R interface *)

Section RClamp.

Context {host : Host}.

Lemma DoubleOfInteger_IntEbmType_max :
  DoubleOfInteger (type_max T_IntEbmType)
  = S754_finite false 4503599627370496 11.
Proof. reflexivity. Qed.

Lemma DoubleOfInteger_IntEbmType_lowest :
  DoubleOfInteger (type_lowest T_IntEbmType)
  = S754_finite true 4503599627370496 11.
Proof. reflexivity. Qed.

Lemma IntegerPart_two_63 : IntegerPart 4503599627370496 11 = 2 ^ 63.
Proof. reflexivity. Qed.

Lemma IntegerPart_below_two_63 m e :
  bounded prec emax m e = true ->
  e < 11 \/ (e = 11 /\ Zpos m <= Zpos 4503599627370496) ->
  IntegerPart m e <= 2 ^ 63.
Proof.
  intros Hb Hle. rewrite <- IntegerPart_two_63.
  apply IntegerPart_below; [assumption | lia | assumption].
Qed.

Lemma IntegerPart_strictly_below_two_63 m e :
  bounded prec emax m e = true -> e < 11 -> IntegerPart m e < 2 ^ 63.
Proof.
  intros Hb He. rewrite <- IntegerPart_two_63.
  apply IntegerPart_lower_exponent; [|lia|assumption|lia].
  now apply (bounded_mantissa m e).
Qed.

Lemma SamplesRequiredForChildSplitMin_R_spec (x : FloatEbmType) :
  valid_binary prec emax x = true ->
  (x = DoubleOfInteger (type_max T_IntEbmType) /\
   SamplesRequiredForChildSplitMin_R x = Undefined) \/
  (x <> DoubleOfInteger (type_max T_IntEbmType) /\
   exists c,
     SamplesRequiredForChildSplitMin_R x = Returns c /\
     type_lowest T_IntEbmType <= c <= type_max T_IntEbmType /\
     (isnan x = true \/ x = S754_infinity false ->
      c = type_max T_IntEbmType) /\
     (x = S754_infinity true -> c = type_lowest T_IntEbmType) /\
     (forall t, DoubleTruncate x = Some t ->
                c = Z.max (type_lowest T_IntEbmType)
                          (Z.min t (type_max T_IntEbmType)))).
Proof.
  intros Hvalid. unfold SamplesRequiredForChildSplitMin_R.
  rewrite DoubleOfInteger_IntEbmType_max, DoubleOfInteger_IntEbmType_lowest.
  cbn [type_max type_lowest].
  assert (Hbound : IntegerPart 4503599627370496 11 = 2 ^ 63) by reflexivity.
  destruct x as [s | s | | s m e].
  - right. split; [discriminate|]. exists 0.
    split; [reflexivity|]. split; [lia|].
    split; [intros [? | ?]; discriminate|]. split; [discriminate|].
    intros t Ht. inversion Ht. lia.
  - right. split; [discriminate|]. destruct s.
    + exists (- 2 ^ 63). split; [reflexivity|]. split; [lia|].
      split; [intros [? | ?]; discriminate|]. split; [reflexivity|].
      discriminate.
    + exists (2 ^ 63 - 1). split; [reflexivity|]. split; [lia|].
      split; [reflexivity|]. split; [discriminate|]. discriminate.
  - right. split; [discriminate|]. exists (2 ^ 63 - 1).
    split; [reflexivity|]. split; [lia|].
    split; [reflexivity|]. split; [discriminate|]. discriminate.
  - cbn [valid_binary] in Hvalid. cbn [isnan orb].
    destruct s.
    + right. split; [discriminate|].
      change (SFltb (S754_finite false 4503599627370496 11)
                    (S754_finite true m e)) with false.
      cbn iota.
      destruct (SFltb (S754_finite true m e)
                      (S754_finite true 4503599627370496 11)) eqn:Hlow.
      * exists (- 2 ^ 63). split; [reflexivity|]. split; [lia|].
        split; [intros [? | ?]; discriminate|]. split; [discriminate|].
        intros t Ht. cbn [DoubleTruncate] in Ht. inversion Ht; subst t; clear Ht.
        unfold SFltb in Hlow. cbn [SFcompare] in Hlow.
        pose proof (IntegerPart_nonneg m e).
        assert (2 ^ 63 <= IntegerPart m e); [|lia].
        rewrite <- Hbound.
        destruct (Z.compare_spec e 11) as [-> | Hlt | Hgt];
          [|discriminate|].
        -- rewrite Pos.compare_cont_spec in Hlow. cbn [Pos.switch_Eq] in Hlow.
           destruct (Pos.compare_spec m 4503599627370496);
             cbn [CompOpp] in Hlow; try discriminate.
           apply IntegerPart_mono. lia.
        -- assert (Hm : 2 ^ 52 <= Zpos m).
           { apply (bounded_normal m e); [assumption|].
             unfold emax, prec. lia. }
           unfold IntegerPart.
           destruct (Z.leb_spec 0 e); [|lia]. cbn [Z.leb].
           assert (2 ^ 11 <= 2 ^ e) by (apply Z.pow_le_mono_r; lia).
           change (0 <=? 11) with true. cbn iota.
           apply Z.mul_le_mono_nonneg; lia.
      * apply SFltb_negative_false in Hlow.
        pose proof (IntegerPart_below_two_63 m e Hvalid Hlow) as Hle.
        pose proof (IntegerPart_nonneg m e) as Hnn.
        exists (- IntegerPart m e).
        unfold DoubleToInteger. cbn [DoubleTruncate type_lowest type_max].
        destruct (Z.leb_spec (- 2 ^ 63) (- IntegerPart m e)); [|lia].
        destruct (Z.leb_spec (- IntegerPart m e) (2 ^ 63 - 1)); [|lia].
        cbn [andb]. split; [reflexivity|]. split; [lia|].
        split; [intros [? | ?]; discriminate|]. split; [discriminate|].
        intros t Ht. inversion Ht. lia.
    + change (SFltb (S754_finite false m e)
                    (S754_finite true 4503599627370496 11)) with false.
      destruct (SFltb (S754_finite false 4503599627370496 11)
                      (S754_finite false m e)) eqn:Hhigh.
      * right. split.
        { intros Heq. inversion Heq; subst. discriminate. }
        exists (2 ^ 63 - 1). split; [reflexivity|]. split; [lia|].
        split; [reflexivity|]. split; [discriminate|].
        intros t Ht. cbn [DoubleTruncate] in Ht. inversion Ht; subst t; clear Ht.
        assert (2 ^ 63 <= IntegerPart m e); [|lia].
        rewrite <- Hbound.
        unfold SFltb in Hhigh. cbn [SFcompare] in Hhigh.
        destruct (Z.compare_spec 11 e) as [<- | Hlt | Hgt];
          [| |discriminate].
        -- rewrite Pos.compare_cont_spec in Hhigh.
           cbn [Pos.switch_Eq] in Hhigh.
           destruct (Pos.compare_spec 4503599627370496 m);
             try discriminate.
           apply IntegerPart_mono. lia.
        -- assert (Hm : 2 ^ 52 <= Zpos m).
           { apply (bounded_normal m e); [assumption|].
             unfold emax, prec. lia. }
           unfold IntegerPart.
           destruct (Z.leb_spec 0 e); [|lia].
           assert (2 ^ 11 <= 2 ^ e) by (apply Z.pow_le_mono_r; lia).
           change (0 <=? 11) with true. cbn iota.
           apply Z.mul_le_mono_nonneg; lia.
      * cbn iota. apply SFltb_positive_false in Hhigh.
        pose proof (IntegerPart_nonneg m e) as Hnn.
        destruct Hhigh as [He | [-> Hm]].
        -- right. split.
           { intros Heq. inversion Heq; subst. lia. }
           pose proof (IntegerPart_strictly_below_two_63 m e Hvalid He)
             as Hlt.
           exists (IntegerPart m e).
           unfold DoubleToInteger. cbn [DoubleTruncate type_lowest type_max].
           destruct (Z.leb_spec (- 2 ^ 63) (IntegerPart m e)); [|lia].
           destruct (Z.leb_spec (IntegerPart m e) (2 ^ 63 - 1)); [|lia].
           cbn [andb]. split; [reflexivity|]. split; [lia|].
           split; [intros [? | ?]; discriminate|]. split; [discriminate|].
           intros t Ht. inversion Ht. lia.
        -- assert (Hfull : 2 ^ 52 <= Zpos m).
           { apply (bounded_normal m 11); [assumption|].
             unfold emax, prec. lia. }
           assert (m = 4503599627370496%positive) as -> by lia.
           left. split; [reflexivity|]. reflexivity.
Qed.

(** X23. The minimum sample count [CalculateInteractionScore_R] makes of
    a double is the double's integer part clamped to the range of
    [IntEbmType], the largest [IntEbmType] for a NaN and plus infinity, the
    lowest for minus infinity.  One double escapes the clamp: [2^63], the
    double nearest to the largest [IntEbmType], passes both comparisons
    and is converted although [IntEbmType] cannot hold it. *)
Theorem min_samples_double_is_clamped (x : FloatEbmType) :
  valid_binary prec emax x = true ->
  (SamplesRequiredForChildSplitMin_R x = Undefined <->
   x = DoubleOfInteger (type_max T_IntEbmType)) /\
  (forall c,
      SamplesRequiredForChildSplitMin_R x = Returns c ->
      type_lowest T_IntEbmType <= c <= type_max T_IntEbmType /\
      (isnan x = true \/ x = S754_infinity false ->
       c = type_max T_IntEbmType) /\
      (x = S754_infinity true -> c = type_lowest T_IntEbmType) /\
      (forall t, DoubleTruncate x = Some t ->
                 c = Z.max (type_lowest T_IntEbmType)
                           (Z.min t (type_max T_IntEbmType)))).
Proof.
  intros Hvalid.
  destruct (SamplesRequiredForChildSplitMin_R_spec x Hvalid)
    as [[Hx Hun] | (Hx & c & Hc & Hspec)].
  - split; [tauto|]. intros c Hc. congruence.
  - split.
    + split; [intros Hun; congruence | contradiction].
    + intros c' Hc'. rewrite Hc in Hc'. inversion Hc'; subst c'.
      exact Hspec.
Qed.

End RClamp.

Section RFacts.

Context {host : Host}.
Variable R_XLEN_T_MAX : Z.
Hypothesis HR :
  (size_t_bits = 64 /\ R_XLEN_T_MAX = 2 ^ 52) \/
  (size_t_bits = 32 /\ R_XLEN_T_MAX = 2 ^ 31 - 1).

Lemma index_bound :
  exists mb eb,
    DoubleMin (DoubleOfInteger size_max)
      (DoubleMin (DoubleOfInteger R_XLEN_T_MAX)
                 (DoubleOfInteger (type_max T_IntEbmType)))
    = S754_finite false mb eb /\
    2 ^ 52 <= Zpos mb /\ IntegerPart mb eb = R_XLEN_T_MAX.
Proof.
  unfold size_max, size_modulus. cbn [type_max].
  destruct HR as [[Hb ->] | [Hb ->]]; rewrite Hb.
  - exists 4503599627370496%positive, 0. split; [|split]; reflexivity.
  - exists 9007199250546688%positive, (-22).
    split; [|split]; [reflexivity | lia | reflexivity].
Qed.

Lemma IsDoubleToIntEbmTypeIndexValid_converts val :
  valid_binary prec emax val = true ->
  IsDoubleToIntEbmTypeIndexValid R_XLEN_T_MAX val = true ->
  exists item,
    DoubleToInteger T_IntEbmType val = Returns item /\
    DoubleTruncate val = Some item /\
    0 <= item <= R_XLEN_T_MAX /\ item <= size_max.
Proof.
  intros Hvalid Hok. unfold IsDoubleToIntEbmTypeIndexValid in Hok.
  destruct index_bound as (mb & eb & Hbound & Hmb & Hint).
  rewrite Hbound in Hok.
  assert (Hsmall : 0 <= R_XLEN_T_MAX <= 2 ^ 52 /\ R_XLEN_T_MAX <= size_max).
  { unfold size_max, size_modulus.
    destruct HR as [[Hb ->] | [Hb ->]]; rewrite Hb; lia. }
  assert (Hdone : forall item,
    DoubleTruncate val = Some item -> 0 <= item <= R_XLEN_T_MAX ->
    exists item,
      DoubleToInteger T_IntEbmType val = Returns item /\
      DoubleTruncate val = Some item /\
      0 <= item <= R_XLEN_T_MAX /\ item <= size_max).
  { intros item Ht Hr. exists item. unfold DoubleToInteger. rewrite Ht.
    cbn [type_lowest type_max].
    destruct (Z.leb_spec (- 2 ^ 63) item); [|lia].
    destruct (Z.leb_spec item (2 ^ 63 - 1)); [|lia].
    cbn. repeat split; try lia. }
  destruct val as [s | s | | s m e]; cbn [isnan] in Hok; try discriminate.
  - apply (Hdone 0); [reflexivity | lia].
  - destruct s; discriminate.
  - destruct s; [discriminate|].
    change (SFltb (S754_finite false m e) (S754_zero false)) with false in Hok.
    cbn iota in Hok.
    destruct (SFltb (S754_finite false mb eb) (S754_finite false m e))
      eqn:Hlt; [discriminate|].
    apply SFltb_positive_false in Hlt.
    apply (Hdone (IntegerPart m e)); [reflexivity|].
    split; [apply IntegerPart_nonneg|].
    rewrite <- Hint. now apply IntegerPart_below.
Qed.

Lemma ConvertDoublesToIndexes_loop_spec (items : list FloatEbmType) :
  Forall (fun val => valid_binary prec emax val = true) items ->
  match ConvertDoublesToIndexes_loop R_XLEN_T_MAX items with
  | Undefined => False
  | Returns None =>
      Exists (fun val => IsDoubleToIntEbmTypeIndexValid R_XLEN_T_MAX val
                         = false) items
  | Returns (Some aItems) =>
      Forall2 (fun val item =>
                 DoubleTruncate val = Some item /\
                 0 <= item <= R_XLEN_T_MAX /\ item <= size_max)
              items aItems
  end.
Proof.
  induction 1 as [|val rest Hval Hrest IH]; cbn [ConvertDoublesToIndexes_loop].
  - constructor.
  - destruct (IsDoubleToIntEbmTypeIndexValid R_XLEN_T_MAX val) eqn:Hok;
      cbn [negb]; [|now constructor].
    destruct (IsDoubleToIntEbmTypeIndexValid_converts val Hval Hok)
      as (item & -> & Ht & Hr).
    destruct (ConvertDoublesToIndexes_loop R_XLEN_T_MAX rest)
      as [[aItems|]|]; [| |contradiction].
    + constructor; [split|]; assumption.
    + now apply Exists_cons_tl.
Qed.


(** X22. [ConvertDoublesToIndexes] never converts a double that
    [IntEbmType] cannot hold.  When it succeeds it returns as many items
    as it was given, each the integer part of its double (a fraction is
    dropped, not refused) and between 0 and [R_XLEN_T_MAX], and a null
    array exactly for an empty vector; when it fails the vector is too
    long or holds a double that [IsDoubleToIntEbmTypeIndexValid]
    refuses. *)
Theorem ConvertDoublesToIndexes_in_range (items : list FloatEbmType) :
  Forall (fun val => valid_binary prec emax val = true) items ->
  match ConvertDoublesToIndexes R_XLEN_T_MAX (REALSXP items) with
  | Undefined => False
  | Returns None =>
      Z.min size_max (type_max T_IntEbmType) < Z.of_nat (length items) \/
      Exists (fun val => IsDoubleToIntEbmTypeIndexValid R_XLEN_T_MAX val
                         = false) items
  | Returns (Some (cItems, pRet)) =>
      cItems = Z.of_nat (length items) /\
      (pRet = None <-> items = []) /\
      Forall2 (fun val item =>
                 DoubleTruncate val = Some item /\
                 0 <= item <= R_XLEN_T_MAX /\ item <= size_max)
              items (default [] pRet)
  end.
Proof.
  intros Hvalid. unfold ConvertDoublesToIndexes. cbv zeta.
  assert (Hbits : size_t_bits = 32 \/ size_t_bits = 64)
    by (destruct HR as [[? _] | [? _]]; auto).
  pose proof (size_modulus_large Hbits) as Hlarge.
  set (n := Z.of_nat (length items)).
  assert (Hn : 0 <= n) by (unfold n; lia).
  destruct (IsNumberConvertable T_size_t T_ptrdiff_t n) eqn:Hc1; cbn [negb].
  - unfold IsNumberConvertable in Hc1. cbn [is_signed type_max] in Hc1.
    apply andb_true_iff in Hc1. rewrite !Z.leb_le in Hc1.
    unfold size_max in Hc1. rewrite (wrap_small n) by lia.
    destruct (IsNumberConvertable T_IntEbmType T_size_t n) eqn:Hc2;
      cbn [negb].
    + destruct (Z.eqb_spec 0 n) as [Hz | Hnz]; cbn [negb].
      * assert (items = []) as -> by (destruct items; [reflexivity|];
          cbn in n; lia).
        cbn. split; [reflexivity|]. split; [tauto | constructor].
      * rewrite take_ge by (unfold n; lia).
        pose proof (ConvertDoublesToIndexes_loop_spec items Hvalid) as Hloop.
        destruct (ConvertDoublesToIndexes_loop R_XLEN_T_MAX items)
          as [[aItems|]|]; [| |contradiction].
        -- split; [reflexivity|]. split; [|exact Hloop].
           split; [discriminate|]. intros ->. cbn in n. lia.
        -- now right.
    + left. unfold IsNumberConvertable in Hc2.
      cbn [is_signed type_max] in Hc2. apply Z.leb_gt in Hc2.
      cbn [type_max]. lia.
  - left. unfold IsNumberConvertable in Hc1. cbn [is_signed type_max] in Hc1.
    apply andb_false_iff in Hc1. rewrite !Z.leb_gt in Hc1.
    cbn [type_max]. lia.
Qed.


End RFacts.

(** ** The further properties at work on the reference hosts *)

(** On the 64-bit host [3 * 6148914691236517205 = 2^64 - 1] fits [size_t],
    and [IsMultiplyError] reports it all the same. *)
Lemma IsMultiplyError_is_exact_up_to_one_operand_witness :
  (0 <= 3 < @size_modulus sample_host /\ 0 <= 6148914691236517205) /\
  @IsMultiplyError sample_host 3 6148914691236517205 = true /\
  3 * 6148914691236517205 < @size_modulus sample_host.
Proof.
  assert (H1 : 0 <= 3 < @size_modulus sample_host)
    by (vm_compute; split; [discriminate | reflexivity]).
  assert (H2 : 0 <= 6148914691236517205) by lia.
  split; [split; assumption|].
  split; [|vm_compute; reflexivity].
  apply (proj1 (@IsMultiplyError_is_exact_up_to_one_operand sample_host
                  3 6148914691236517205 H1 H2)).
  split; [lia | vm_compute; reflexivity].
Defined.

Lemma IsAddError_is_exact_witness :
  (0 <= 2 ^ 32 - 1 < @size_modulus sample_host32 /\
   0 <= 1 < @size_modulus sample_host32) /\
  @IsAddError sample_host32 (2 ^ 32 - 1) 1 = true.
Proof.
  assert (H1 : 0 <= 2 ^ 32 - 1 < @size_modulus sample_host32)
    by (vm_compute; split; [discriminate | reflexivity]).
  assert (H2 : 0 <= 1 < @size_modulus sample_host32)
    by (vm_compute; split; [discriminate | reflexivity]).
  split; [split; assumption|].
  apply (proj1 (@IsAddError_is_exact sample_host32 (2 ^ 32 - 1) 1 H1 H2)).
  vm_compute. discriminate.
Defined.

(** An [IntEbmType] of [2^32] is no [size_t] of the 32-bit host. *)
Lemma IsNumberConvertable_exact_witness :
  (@type_lowest sample_host32 T_IntEbmType <= 2 ^ 32
   <= @type_max sample_host32 T_IntEbmType) /\
  @IsNumberConvertable sample_host32 T_size_t T_IntEbmType (2 ^ 32) <> true.
Proof.
  assert (H : @type_lowest sample_host32 T_IntEbmType <= 2 ^ 32
              <= @type_max sample_host32 T_IntEbmType)
    by (vm_compute; split; discriminate).
  split; [exact H|].
  intros Hconv.
  apply (@IsNumberConvertable_exact sample_host32 sample_bits32
           T_size_t T_IntEbmType (2 ^ 32) H) in Hconv.
  vm_compute in Hconv. destruct Hconv as [_ Hle]. apply Hle. reflexivity.
Defined.

Lemma CountBitsRequired_bit_length_witness :
  (0 < 255 < @size_modulus sample_host /\
   (Z.to_nat (Z.log2 255) < 65)%nat) /\
  @CountBitsRequired sample_host 65 255 = 8.
Proof.
  assert (H1 : 0 < 255 < @size_modulus sample_host)
    by (vm_compute; split; reflexivity).
  assert (H2 : (Z.to_nat (Z.log2 255) < 65)%nat) by (vm_compute; lia).
  split; [split; assumption|].
  exact (proj1 (@CountBitsRequired_bit_length sample_host 65 255 H1 H2)).
Defined.

(** After 64 items of one bit come 32 items of two bits. *)
Lemma GetNextCountItemsBitPacked_next_witness :
  1 <= 64 <= @k_cBitsForStorageType sample_host /\
  0 <= @GetNextCountItemsBitPacked sample_host 64 < 64 /\
  (@GetCountBits sample_host 64 < @GetCountBits sample_host 32 <->
   32 <= @GetNextCountItemsBitPacked sample_host 64).
Proof.
  assert (H : 1 <= 64 <= @k_cBitsForStorageType sample_host)
    by (vm_compute; split; discriminate).
  split; [exact H|].
  destruct (@GetNextCountItemsBitPacked_next sample_host sample_bits 64 H)
    as (Hlt & _ & Hmax).
  split; [exact Hlt|].
  apply Hmax. lia.
Defined.

Lemma EbmMalloc_never_short_witness :
  (heap_wf emptyHeap /\ 0 <= 32 < @size_modulus sample_host /\
   0 <= 3 < @size_modulus sample_host) /\
  h_live (snd (@EbmMalloc sample_host 32 3 emptyHeap))
  = <[fst (@EbmMalloc sample_host 32 3 emptyHeap) := 3 * 32]>
      (h_live emptyHeap).
Proof.
  assert (H1 : 0 <= 32 < @size_modulus sample_host)
    by (vm_compute; split; [discriminate | reflexivity]).
  assert (H2 : 0 <= 3 < @size_modulus sample_host)
    by (vm_compute; split; [discriminate | reflexivity]).
  split; [split; [exact emptyHeap_wf | split; assumption]|].
  destruct (@EbmMalloc_never_short sample_host sample_bits 32 3 emptyHeap
              (fst (@EbmMalloc sample_host 32 3 emptyHeap))
              (snd (@EbmMalloc sample_host 32 3 emptyHeap))
              emptyHeap_wf H1 H2)
    as (Hblock & _ & _).
  - left. apply surjective_pairing.
  - apply Hblock. vm_compute. discriminate.
Defined.
(** An arena serving requests of 16, 64 and 8 bytes, then freed. *)
Lemma arena_never_leaks_witness :
  heap_wf emptyHeap /\
  let '(pArena, res0, h0) :=
    @CachedInteractionThreadResources_Allocate sample_host emptyHeap in
  let '(served, res, h') := @ServeRequests sample_host res0 [16; 64; 8] h0 in
  pArena <> nullptr /\
  h_live (CachedInteractionThreadResources_Free pArena res h')
  = h_live emptyHeap.
Proof.
  split; [exact emptyHeap_wf|].
  destruct (@CachedInteractionThreadResources_Allocate sample_host emptyHeap)
    as [[pArena res0] h0] eqn:Halloc.
  destruct (@ServeRequests sample_host res0 [16; 64; 8] h0)
    as [[served res] h'] eqn:Hserve.
  assert (HpArena : pArena <> nullptr).
  { vm_compute in Halloc. inversion Halloc. discriminate. }
  split; [exact HpArena|].
  exact (proj1 (@arena_never_leaks sample_host emptyHeap [16; 64; 8] pArena
                  res0 h0 served res h' emptyHeap_wf Halloc HpArena Hserve)).
Defined.

(** A buffer grown for 16 bytes serves a request of 32 bytes as it is. *)
Lemma GetThreadByteBuffer1_reuse_witness :
  let '(p, res1, h1) :=
    @GetThreadByteBuffer1 sample_host InitializeZero 16 emptyHeap in
  (m_cThreadByteBufferCapacity1 InitializeZero < 16 /\ 0 <= 16 /\
   2 * 16 < @size_modulus sample_host /\ 32 <= 2 * 16) /\
  @GetThreadByteBuffer1 sample_host res1 32 h1 = (p, res1, h1).
Proof.
  destruct (@GetThreadByteBuffer1 sample_host InitializeZero 16 emptyHeap)
    as [[p res1] h1] eqn:Hget.
  assert (H1 : m_cThreadByteBufferCapacity1 InitializeZero < 16)
    by (vm_compute; reflexivity).
  assert (H2 : 0 <= 16) by lia.
  assert (H3 : 2 * 16 < @size_modulus sample_host)
    by (vm_compute; reflexivity).
  assert (H4 : 32 <= 2 * 16) by lia.
  split; [repeat split; assumption|].
  exact (@GetThreadByteBuffer1_reuse sample_host InitializeZero 16 emptyHeap
           p res1 h1 32 Hget H1 H2 H3 H4).
Defined.

Lemma classification_handle_certifies_arguments_witness :
  fst (@InitializeInteractionClassification sample_host emptyHeap 1 2
         (Some (sample_features 2 2)) 4 (Some [0; 0; 0; 1; 1; 0; 1; 1])
         (Some [0; 0; 0; 0]) (Some (map sample_float [0; 0; 0; 0])))
  = Some sample_single_class /\
  Forall (@valid_native_feature sample_host 4)
         (take (Z.to_nat 2) (default [] (Some (sample_features 2 2)))).
Proof.
  assert (Hinit :
    @InitializeInteractionClassification sample_host emptyHeap 1 2
      (Some (sample_features 2 2)) 4 (Some [0; 0; 0; 1; 1; 0; 1; 1])
      (Some [0; 0; 0; 0]) (Some (map sample_float [0; 0; 0; 0]))
    = (Some sample_single_class,
       snd (@InitializeInteractionClassification sample_host emptyHeap 1 2
              (Some (sample_features 2 2)) 4
              (Some [0; 0; 0; 1; 1; 0; 1; 1]) (Some [0; 0; 0; 0])
              (Some (map sample_float [0; 0; 0; 0])))))
    by (vm_compute; reflexivity).
  split; [rewrite Hinit; reflexivity|].
  exact (proj1 (proj2 (proj2
    (@classification_handle_certifies_arguments sample_host sample_bits
       emptyHeap 1 2 (Some (sample_features 2 2)) 4
       (Some [0; 0; 0; 1; 1; 0; 1; 1]) (Some [0; 0; 0; 0])
       (Some (map sample_float [0; 0; 0; 0])) _ _ Hinit)))).
Defined.

(** The data set of [sample_host_data] keeps to its two arrays. *)
Lemma sample_host_data_owns fails :
  @DataSetOwnsItsArrays (sample_host_data fails).
Proof.
  intros cFeatures aFeatures cSamples aBinnedData aTargets aPredictorScores
         classes h bError aArrays h' [Hpos Hlive] Hinit.
  cbn in Hinit. unfold sample_DataSetInitialize, sample_malloc in Hinit.
  inversion Hinit; subst; clear Hinit. cbn [h_live h_next].
  assert (Hfresh : forall p, (h_next h <= p)%nat -> h_live h !! p = None).
  { intros p Hp. destruct (h_live h !! p) eqn:Hl; [|reflexivity].
    specialize (Hlive p (ex_intro _ _ Hl)). lia. }
  split; [|split].
  - split; cbn [h_live h_next]; [lia|].
    intros p [v Hp].
    destruct (decide (S (h_next h) = p)) as [<-|Hne1]; [lia|].
    rewrite lookup_insert_ne in Hp by assumption.
    destruct (decide (h_next h = p)) as [<-|Hne2]; [lia|].
    rewrite lookup_insert_ne in Hp by assumption.
    specialize (Hlive p (ex_intro _ v Hp)). lia.
  - repeat constructor; try (unfold nullptr; lia); apply Hfresh; lia.
  - intros p Hp.
    rewrite !lookup_insert_ne; [reflexivity|..];
      intros <-; apply Hp; repeat constructor.
Defined.

Lemma sample_data_context_eq :
  @InitializeInteractionRegression (sample_host_data false) emptyHeap 2
    (Some (sample_features 2 2)) 4 (Some [0; 0; 0; 1; 1; 0; 1; 1])
    (Some (map sample_float [1; -1; -1; 1]))
    (Some (map sample_float [0; 0; 0; 0]))
  = (Some sample_xor_data, snd (sample_context (sample_host_data false))).
Proof. vm_compute. reflexivity. Defined.

Lemma sample_data_sizeof_Feature fails :
  0 <= @sizeof_Feature (sample_host_data fails)
  < @size_modulus (sample_host_data fails).
Proof. vm_compute. split; [discriminate | reflexivity]. Defined.

Lemma sample_data_bits fails :
  @size_t_bits (sample_host_data fails) = 32 \/
  @size_t_bits (sample_host_data fails) = 64.
Proof. right. reflexivity. Defined.

(** The regression context over the XOR data set takes a block for its
    two features and a block for itself, at 1 and 2; the data set then
    takes its own two, at 3 and 4. *)
Lemma initialization_allocates_two_blocks_witness :
  (heap_wf emptyHeap /\
   0 <= @sizeof_Feature (sample_host_data false)
   < @size_modulus (sample_host_data false)) /\
  (exists pState pFeatures h2,
      h_trace h2 = [EvMalloc 64 pState; EvMalloc (2 * 32) pFeatures]) /\
  h_trace (snd (sample_context (sample_host_data false)))
  = [EvMalloc 64 4%nat; EvMalloc 32 3%nat;
     EvMalloc 64 2%nat; EvMalloc 64 1%nat].
Proof.
  split; [split; [exact emptyHeap_wf | exact (sample_data_sizeof_Feature false)]|].
  split; [|vm_compute; reflexivity].
  destruct (@initialization_allocates_two_blocks (sample_host_data false)
              (sample_data_bits false)
              emptyHeap 0 2 (Some (sample_features 2 2)) 4
              (Some [0; 0; 0; 1; 1; 0; 1; 1]) None
              (Some (map sample_float [1; -1; -1; 1]))
              (Some (map sample_float [0; 0; 0; 0]))
              sample_xor_data (snd (sample_context (sample_host_data false)))
              emptyHeap_wf (sample_data_sizeof_Feature false)
              (or_intror sample_data_context_eq))
    as (pState & pFeatures & h2 & tg & (_ & _ & _ & Hblocks) & Hdata).
  destruct Hblocks as [(Hcf & _) | (_ & _ & _ & _ & _ & _ & Htr)].
  - vm_compute in Hcf. discriminate.
  - exists pState, pFeatures, h2. exact Htr.
Defined.

Lemma sample_data_fail_context_eq :
  @InitializeInteractionRegression (sample_host_data true) emptyHeap 2
    (Some (sample_features 2 2)) 4 (Some [0; 0; 0; 1; 1; 0; 1; 1])
    (Some (map sample_float [1; -1; -1; 1]))
    (Some (map sample_float [0; 0; 0; 0]))
  = (None, snd (sample_context (sample_host_data true))).
Proof. vm_compute. reflexivity. Defined.

(** When the data set fails after it has taken its arrays the context is
    not built, and none of the four blocks is left behind. *)
Lemma failed_initialization_keeps_no_block_witness :
  (@DataSetOwnsItsArrays (sample_host_data true) /\
   heap_wf emptyHeap /\
   0 <= @sizeof_Feature (sample_host_data true)
   < @size_modulus (sample_host_data true)) /\
  fst (sample_context (sample_host_data true)) = None /\
  h_trace (snd (sample_context (sample_host_data true)))
  = [EvFree 2%nat; EvFree 1%nat; EvFree 4%nat; EvFree 3%nat;
     EvMalloc 64 4%nat; EvMalloc 32 3%nat; EvMalloc 64 2%nat;
     EvMalloc 64 1%nat] /\
  h_live (snd (sample_context (sample_host_data true))) = h_live emptyHeap.
Proof.
  split; [split; [exact (sample_host_data_owns true)|];
          split; [exact emptyHeap_wf
                 | exact (sample_data_sizeof_Feature true)]|].
  split; [vm_compute; reflexivity|].
  split; [vm_compute; reflexivity|].
  exact (proj2 (@failed_initialization_keeps_no_block (sample_host_data true)
                  (sample_data_bits true)
                  emptyHeap 0 2 (Some (sample_features 2 2)) 4
                  (Some [0; 0; 0; 1; 1; 0; 1; 1]) None
                  (Some (map sample_float [1; -1; -1; 1]))
                  (Some (map sample_float [0; 0; 0; 0]))
                  (snd (sample_context (sample_host_data true)))
                  (sample_host_data_owns true)
                  emptyHeap_wf (sample_data_sizeof_Feature true)
                  (or_intror sample_data_fail_context_eq))).
Defined.

(** Freeing the regression context over the XOR data set releases its
    four blocks. *)
Lemma FreeInteraction_releases_the_context_witness :
  (@DataSetOwnsItsArrays (sample_host_data false) /\
   heap_wf emptyHeap /\
   0 <= @sizeof_Feature (sample_host_data false)
   < @size_modulus (sample_host_data false)) /\
  exists pState aFeatures,
    pState <> nullptr /\
    h_live (FreeInteraction pState (m_dataSet sample_xor_data) aFeatures
              (snd (sample_context (sample_host_data false))))
    = h_live emptyHeap.
Proof.
  split; [split; [exact (sample_host_data_owns false)|];
          split; [exact emptyHeap_wf
                 | exact (sample_data_sizeof_Feature false)]|].
  destruct (@FreeInteraction_releases_the_context (sample_host_data false)
              (sample_data_bits false)
              emptyHeap 0 2 (Some (sample_features 2 2)) 4
              (Some [0; 0; 0; 1; 1; 0; 1; 1]) None
              (Some (map sample_float [1; -1; -1; 1]))
              (Some (map sample_float [0; 0; 0; 0]))
              sample_xor_data (snd (sample_context (sample_host_data false)))
              (sample_host_data_owns false)
              emptyHeap_wf (sample_data_sizeof_Feature false)
              (or_intror sample_data_context_eq))
    as (pState & aFeatures & h2 & (_ & Hp & _) & _ & Hl & _).
  exists pState, aFeatures. split; [exact Hp | exact Hl].
Defined.

(** On a context without samples the indexes are not looked at: indexes 7
    and 9, which the context does not have, score zero. *)
Lemma no_samples_scores_zero_witness :
  (GetCountSamples (m_dataSet (sample_state (-1) [2; 2] 0)) = 0 /\
   0 <= 2 <= @size_max sample_host) /\
  @CalculateInteractionScore sample_host emptyHeap
    (Some (sample_state (-1) [2; 2] 0)) 2 (Some [7; 9]) 1 (Some S754_nan)
  = {| r_status := 0; r_score := StoreScore (Some S754_nan) FloatZero;
       r_heap := emptyHeap; r_stages := []; r_overrun := false |}.
Proof.
  assert (H1 : GetCountSamples (m_dataSet (sample_state (-1) [2; 2] 0)) = 0)
    by reflexivity.
  assert (H2 : 0 <= 2 <= @size_max sample_host)
    by (vm_compute; split; discriminate).
  split; [split; assumption|].
  apply (@no_samples_scores_zero sample_host sample_bits emptyHeap
           (sample_state (-1) [2; 2] 0) 2 (Some [7; 9]) 1 (Some S754_nan)
           H1 H2).
  intros _. discriminate.
Defined.

(** The feature with one bin comes before the index the context does not
    have: the call returns 0, and never sees index 7. *)
Lemma first_offending_index_decides_witness :
  (valid_index sample_flat 1 /\
   GetCountBins (m_aFeatures sample_flat !!! Z.to_nat 1) <= 1) /\
  @CalculateInteractionScore sample_host emptyHeap (Some sample_flat)
    (Z.of_nat (length ([0] ++ 1 :: [7]))) (Some ([0] ++ 1 :: [7])) 1
    (Some S754_nan)
  = {| r_status := 0; r_score := StoreScore (Some S754_nan) FloatZero;
       r_heap := emptyHeap; r_stages := []; r_overrun := false |}.
Proof.
  assert (H1 : valid_index sample_flat 1)
    by (vm_compute; split; [discriminate | reflexivity]).
  assert (H2 : GetCountBins (m_aFeatures sample_flat !!! Z.to_nat 1) <= 1)
    by (vm_compute; discriminate).
  split; [split; assumption|].
  apply (@first_offending_index_decides sample_host sample_bits emptyHeap
           sample_flat [0] 1 [7] 1 (Some S754_nan)).
  - vm_compute. discriminate.
  - vm_compute. discriminate.
  - vm_compute. discriminate.
  - repeat constructor; vm_compute; congruence.
  - repeat constructor; vm_compute; congruence.
  - exact H1.
  - exact H2.
Defined.

Lemma pipeline_needs_a_sound_group_witness :
  r_stages
    (@CalculateInteractionScore sample_host emptyHeap (Some sample_xor)
       2 (Some [0; 1]) 1 (Some S754_nan)) <> [] /\
  exists l,
    Some [0; 1] = Some l /\
    Forall (fun b => 2 <= b) (GroupBins sample_xor (take (Z.to_nat 2) l)).
Proof.
  assert (H : r_stages
    (@CalculateInteractionScore sample_host emptyHeap (Some sample_xor)
       2 (Some [0; 1]) 1 (Some S754_nan)) <> [])
    by (vm_compute; discriminate).
  split; [exact H|].
  destruct (@pipeline_needs_a_sound_group sample_host sample_bits emptyHeap
              sample_xor 2 (Some [0; 1]) 1 (Some S754_nan) (or_introl H))
    as (l & Hl & _ & _ & Hbins & _).
  exists l. split; [exact Hl | exact Hbins].
Defined.

(** The sizes of the XOR pair are accepted. *)
Lemma InteractionBufferSizes_accepts_iff_witness :
  (Forall (fun b => 2 <= b)
     (map GetCountBins
        (take (Z.to_nat
                 (GetCountFeatures
                    (@BuildFeatureGroup sample_host sample_xor 2 [0; 1])))
              (GetFeatureGroupEntries
                 (@BuildFeatureGroup sample_host sample_xor 2 [0; 1])))) /\
   0 <= @GetHistogramBucketSize sample_host (IsClassification (-1))
          (@GetVectorLength sample_host (-1))) /\
  @InteractionBufferSizes sample_host (-1)
    (@BuildFeatureGroup sample_host sample_xor 2 [0; 1]) <> None.
Proof.
  assert (H1 : Forall (fun b => 2 <= b)
     (map GetCountBins
        (take (Z.to_nat
                 (GetCountFeatures
                    (@BuildFeatureGroup sample_host sample_xor 2 [0; 1])))
              (GetFeatureGroupEntries
                 (@BuildFeatureGroup sample_host sample_xor 2 [0; 1])))))
    by (repeat constructor; vm_compute; congruence).
  assert (H2 : 0 <= @GetHistogramBucketSize sample_host (IsClassification (-1))
                      (@GetVectorLength sample_host (-1)))
    by (vm_compute; discriminate).
  split; [split; assumption|].
  apply (proj2 (@InteractionBufferSizes_accepts_iff sample_host sample_bits
                  (-1) (@BuildFeatureGroup sample_host sample_xor 2 [0; 1])
                  H1 H2)).
  vm_compute. split; [reflexivity|]. split; [reflexivity | discriminate].
Defined.

(** On the 32-bit host the dimension limit is 31; the sizing refuses a
    group of 32 features of two bins each by itself. *)
Lemma dimension_guard_is_implied_by_sizing_witness :
  let f := {| m_cBins := 2; m_iFeatureData := 0; m_featureType := Ordinal;
              m_bMissing := false |} in
  let g := {| fg_cFeatures := 32; fg_iInputData := 0;
              fg_entries := repeat f 32 |} in
  @k_cDimensionsMax sample_host32
  < Z.of_nat (length (take (Z.to_nat (GetCountFeatures g))
                           (GetFeatureGroupEntries g))) /\
  @InteractionBufferSizes sample_host32 (-1) g = None.
Proof.
  intros f g.
  assert (H : @k_cDimensionsMax sample_host32
              < Z.of_nat (length (take (Z.to_nat (GetCountFeatures g))
                                       (GetFeatureGroupEntries g))))
    by (vm_compute; reflexivity).
  split; [exact H|].
  apply (@dimension_guard_is_implied_by_sizing sample_host32 sample_bits32
           (-1) g); [|exact H].
  vm_compute. repeat constructor; discriminate.
Defined.


(** A negative score is none of the filter's business. *)
Lemma FilterScore_exact_witness :
  valid_binary prec emax (sample_float (-1)) = true /\
  FilterScore (sample_float (-1)) = sample_float (-1).
Proof.
  assert (H : valid_binary prec emax (sample_float (-1)) = true)
    by (vm_compute; reflexivity).
  split; [exact H|].
  apply (proj2 (FilterScore_exact (sample_float (-1)) H));
    vm_compute; discriminate.
Defined.

(** Three groups of 2, 3 and 1 features have 6 indexes. *)
Lemma CountFeatureGroupsIndexes_total_witness :
  Forall (fun c => 0 <= c <= @size_max sample_host)
         (take (Z.to_nat 3) [2; 3; 1]) /\
  @CountFeatureGroupsIndexes sample_host 3 [2; 3; 1]
  = Z.min (@size_max sample_host) (TotalCount (take (Z.to_nat 3) [2; 3; 1])).
Proof.
  assert (H : Forall (fun c => 0 <= c <= @size_max sample_host)
                     (take (Z.to_nat 3) [2; 3; 1]))
    by (repeat constructor; vm_compute; discriminate).
  split; [exact H|].
  exact (proj1 (@CountFeatureGroupsIndexes_total sample_host sample_bits 3
                  [2; 3; 1]) H).
Defined.

(** The packings of a 64-bit storage unit, as the comment in the source
    lists them. *)
Example packing_progression_64 :
  map (fun n => Nat.iter n (@GetNextCountItemsBitPacked sample_host) 64)
      (seq 0 16)
  = [64; 32; 21; 16; 12; 10; 9; 8; 7; 6; 5; 4; 3; 2; 1; 0].
Proof. vm_compute. reflexivity. Qed.

Example packing_progression_32 :
  map (fun n => Nat.iter n (@GetNextCountItemsBitPacked sample_host32) 32)
      (seq 0 11)
  = [32; 16; 10; 8; 6; 5; 4; 3; 2; 1; 0].
Proof. vm_compute. reflexivity. Qed.
Lemma sample_R_XLEN_T_MAX :
  (@size_t_bits sample_host = 64 /\ 2 ^ 52 = 2 ^ 52) \/
  (@size_t_bits sample_host = 32 /\ 2 ^ 52 = 2 ^ 31 - 1).
Proof. left. split; reflexivity. Defined.

(** The indexes 1.5 and 0 are accepted; 1.5 becomes 1. *)
Lemma ConvertDoublesToIndexes_in_range_witness :
  let items := [S754_finite false 6755399441055744 (-52); S754_zero false] in
  Forall (fun val => valid_binary prec emax val = true) items /\
  @ConvertDoublesToIndexes sample_host (2 ^ 52) (REALSXP items)
  = Returns (Some (2, Some [1; 0])) /\
  Forall2 (fun val item =>
             DoubleTruncate val = Some item /\
             0 <= item <= 2 ^ 52 /\ item <= @size_max sample_host)
          items [1; 0].
Proof.
  intros items.
  assert (Hvalid : Forall (fun val => valid_binary prec emax val = true) items)
    by (repeat constructor).
  assert (Heq : @ConvertDoublesToIndexes sample_host (2 ^ 52) (REALSXP items)
                = Returns (Some (2, Some [1; 0])))
    by (vm_compute; reflexivity).
  split; [exact Hvalid|]. split; [exact Heq|].
  pose proof (@ConvertDoublesToIndexes_in_range sample_host (2 ^ 52)
                sample_R_XLEN_T_MAX items Hvalid) as H.
  rewrite Heq in H. exact (proj2 (proj2 H)).
Defined.

(** The double [2^63] slips through both comparisons of the clamp. *)
Lemma min_samples_double_is_clamped_witness :
  valid_binary prec emax (DoubleOfInteger (@type_max sample_host T_IntEbmType))
  = true /\
  @SamplesRequiredForChildSplitMin_R sample_host
    (DoubleOfInteger (@type_max sample_host T_IntEbmType)) = Undefined.
Proof.
  assert (H : valid_binary prec emax
                (DoubleOfInteger (@type_max sample_host T_IntEbmType)) = true)
    by (vm_compute; reflexivity).
  split; [exact H|].
  apply (proj1 (@min_samples_double_is_clamped sample_host _ H)).
  reflexivity.
Defined.


(** The score R gets for the XOR pair. *)
Example xor_scores_four_from_R :
  fst <$>
    (match
       @CalculateInteractionScore_R sample_host (2 ^ 52) emptyHeap
         (EXTPTRSXP (Some sample_xor))
         (REALSXP [S754_zero false; sample_float 1])
         (REALSXP [sample_float 1]) S754_nan
     with
     | Returns a => Some a
     | Undefined => None
     end)
  = Some (Some (sample_float 4)).
Proof. vm_compute. reflexivity. Qed.
